(** * tfs-unbind: a shallow embedding of [tfs/libs.py] and [tfs/unbinder.py]

    The development follows the two source modules.

    - [PyStr] embeds the methods of Python's [str] that the program calls
      ([strip], [startswith], [endswith], [in]).
    - [Filters] embeds the two line loops of [_update_sln] and
      [_update_proj], with the output file seen as the list of lines written.
    - [OS] is the model of the operating system and of the library calls the
      program makes: a directory tree, the working directory, the table of
      open files, and the exceptions the calls raise, in a monad of state and
      exceptions.
    - [Libs] embeds [tfs/libs.py], [Unbinder] embeds [tfs/unbinder.py].
    - [Tracer] embeds [timetracer] of [tfs/libs.py], over a clock and the
      lines printed.

    The definitions come first, the theorems follow them in the modules
    whose names end in [Facts].

    Characters are the code points below 256 (the type [ascii]); a line is a
    [string], a text file is the list of its lines. The file system has
    directories and regular files only: no links, no permission bits, no
    times; an encoding is a name that must not be empty. Log lines are left
    out. *)

From Stdlib Require Import List String Ascii Bool Arith Lia.
From Stdlib Require Import ZArith DecimalString.
Import ListNotations.
Open Scope string_scope.
Open Scope list_scope.

(** ** Python's [str] methods *)

Module PyStr.
#[local] Open Scope string_scope.

(** [str.isspace] on one character: the code points below 256 that Python
    counts as whitespace (TAB, LF, VT, FF, CR, FS, GS, RS, US, SPACE, NEL and
    NBSP). *)
Definition isspace (c : ascii) : bool :=
  let n := nat_of_ascii c in
  (((9 <=? n) && (n <=? 13)) || ((28 <=? n) && (n <=? 32))
   || (n =? 133) || (n =? 160))%nat.

(** Whether every character of [s] is whitespace. *)
Fixpoint all_space (s : string) : bool :=
  match s with
  | EmptyString => true
  | String c r => isspace c && all_space r
  end.

(** [s.lstrip()] *)
Fixpoint lstrip (s : string) : string :=
  match s with
  | EmptyString => EmptyString
  | String c r => if isspace c then lstrip r else s
  end.

(** [s.rstrip()] *)
Fixpoint rstrip (s : string) : string :=
  match s with
  | EmptyString => EmptyString
  | String c r =>
      match rstrip r with
      | EmptyString => if isspace c then EmptyString else String c EmptyString
      | r' => String c r'
      end
  end.

(** [s.strip()] *)
Definition strip (s : string) : string := rstrip (lstrip s).

(** [s.startswith(p)] *)
Fixpoint startswith (s p : string) {struct p} : bool :=
  match p, s with
  | EmptyString, _ => true
  | String _ _, EmptyString => false
  | String a p', String b s' => Ascii.eqb a b && startswith s' p'
  end.

(** [sub in s] *)
Fixpoint contains (sub s : string) : bool :=
  startswith s sub
  || match s with
     | EmptyString => false
     | String _ r => contains sub r
     end.

(** [s.endswith(suf)] *)
Fixpoint endswith (s suf : string) : bool :=
  String.eqb s suf
  || match s with
     | EmptyString => false
     | String _ r => endswith r suf
     end.

(** [s.endswith(t)] for a tuple [t] of suffixes. *)
Definition endswith_any (s : string) (t : list string) : bool :=
  existsb (endswith s) t.

(** Whether [s] begins with a whitespace character. *)
Definition startswith_space (s : string) : bool :=
  match s with
  | EmptyString => false
  | String c _ => isspace c
  end.

(** Whether no character of [s] is whitespace. *)
Fixpoint no_space (s : string) : bool :=
  match s with
  | EmptyString => true
  | String c r => negb (isspace c) && no_space r
  end.

(** [not s]: the truth value of a string is its non-emptiness. *)
Definition is_empty (s : string) : bool :=
  match s with EmptyString => true | _ => false end.

End PyStr.

(** ** The line loops of the two rewriters *)

Module Filters.
Import PyStr.

(** The test of [unbinder.py] line 156. *)
Definition opens_region (stripped : string) : bool :=
  startswith stripped "GlobalSection" && contains "VersionControl" stripped.

(** The test on the text of [unbinder.py] line 162. *)
Definition closes_region (stripped : string) : bool :=
  contains "EndGlobalSection" stripped.

(** One iteration of the loop of [_update_sln] (lines 153-163): from the
    flag [in_vcs_region] and the line, whether [out_fp.write(line)] runs and
    the flag after the iteration. *)
Definition sln_line (in_vcs_region : bool) (line : string) : bool * bool :=
  let stripped := strip line in
  let in_vcs_region :=
    if opens_region stripped then true else in_vcs_region in
  let written := negb in_vcs_region in
  let in_vcs_region :=
    if in_vcs_region && closes_region stripped then false else in_vcs_region in
  (written, in_vcs_region).

(** The loop from a given flag: the lines written, in order, and the flag at
    the end of the input. *)
Fixpoint sln_loop (in_vcs_region : bool) (lines : list string)
  : list string * bool :=
  match lines with
  | [] => ([], in_vcs_region)
  | line :: rest =>
      let '(written, flag) := sln_line in_vcs_region line in
      let '(out, final) := sln_loop flag rest in
      (if written then line :: out else out, final)
  end.

(** The filter of [_update_sln]: [in_vcs_region = False] at the top of the
    file (line 152). *)
Definition sln_filter (lines : list string) : list string :=
  fst (sln_loop false lines).

(** One iteration of the loop of [_update_proj] (lines 181-185): whether the
    line is written. *)
Definition proj_line (line : string) : bool :=
  let stripped := strip line in
  negb (startswith stripped "<Scc").

Fixpoint proj_filter (lines : list string) : list string :=
  match lines with
  | [] => []
  | line :: rest =>
      if proj_line line then line :: proj_filter rest else proj_filter rest
  end.

(** *** The filter as a two-state machine *)

Inductive region : Type := Outside | Inside.

(** The machine in the words of the specification, section 4.6: outside the
    region a line is copied unless it opens the region, and then the state is
    "inside"; inside the region no line is copied, and a line that contains
    the closing marker returns the state to "outside". Each state decides on a
    line by itself. *)
Definition spec_sln_step (st : region) (line : string) : bool * region :=
  match st with
  | Outside =>
      if opens_region (strip line) then (false, Inside) else (true, Outside)
  | Inside =>
      if closes_region (strip line) then (false, Outside) else (false, Inside)
  end.

(** The machine that the loop is: it differs on an opening line that
    contains the closing marker, after which the state is "outside". *)
Definition machine_step (st : region) (line : string) : bool * region :=
  match st with
  | Outside =>
      if opens_region (strip line) then
        (false, if closes_region (strip line) then Outside else Inside)
      else (true, Outside)
  | Inside =>
      (false, if closes_region (strip line) then Outside else Inside)
  end.

(** The lines a machine copies, from a state. *)
Fixpoint run_machine (step : region -> string -> bool * region)
    (st : region) (lines : list string) : list string :=
  match lines with
  | [] => []
  | line :: rest =>
      let '(copied, st') := step st line in
      if copied then line :: run_machine step st' rest
      else run_machine step st' rest
  end.

(** The state of the machine for a value of the flag. *)
Definition region_of (in_vcs_region : bool) : region :=
  if in_vcs_region then Inside else Outside.

Definition spec_sln_filter : list string -> list string :=
  run_machine spec_sln_step Outside.

Definition machine_filter : list string -> list string :=
  run_machine machine_step Outside.

(** A list of lines that begins with an opening line. *)
Definition begins_with_opener (ls : list string) : Prop :=
  match ls with
  | [] => False
  | l :: _ => opens_region (strip l) = true
  end.

Definition not_opener (line : string) : Prop :=
  opens_region (strip line) = false.

Definition not_closer (line : string) : Prop :=
  closes_region (strip line) = false.

(** A binding tag line of a project file: whitespace, then [<Scc], then
    anything. *)
Definition scc_tag_line (line : string) : Prop :=
  exists ws r, line = (ws ++ "<Scc" ++ r)%string /\ all_space ws = true.

(** A region of a solution file that holds on one line. *)
Definition one_line_region : string :=
  "GlobalSection(TeamFoundationVersionControl) = preSolution EndGlobalSection".

(** *** Notions of the proofs *)

(** [subseq l' l]: the list [l'] is [l] with some elements left out. *)
Inductive subseq {A : Type} : list A -> list A -> Prop :=
| subseq_nil : subseq [] []
| subseq_keep (x : A) (l' l : list A) : subseq l' l -> subseq (x :: l') (x :: l)
| subseq_drop (x : A) (l' l : list A) : subseq l' l -> subseq l' (x :: l).

End Filters.

(** ** The operating system *)

Module OS.
Import PyStr.

(** *** The directory tree *)

(** A text file is the list of its lines; a directory lists its entries in
    the order in which [os.scandir] reports them. *)
Inductive node : Type :=
| File (lines : list string)
| Dir (entries : list (string * node)).

(** A location in the tree: the names from the root downwards. *)
Definition path : Type := list string.

Fixpoint entry_get (name : string) (es : list (string * node)) : option node :=
  match es with
  | [] => None
  | (n, x) :: r => if String.eqb n name then Some x else entry_get name r
  end.

Fixpoint entry_set (name : string) (x : node) (es : list (string * node))
  : list (string * node) :=
  match es with
  | [] => [(name, x)]
  | (n, y) :: r =>
      if String.eqb n name then (n, x) :: r else (n, y) :: entry_set name x r
  end.

Definition entry_del (name : string) (es : list (string * node))
  : list (string * node) :=
  filter (fun e => negb (String.eqb (fst e) name)) es.

Fixpoint get (t : node) (p : path) : option node :=
  match p with
  | [] => Some t
  | name :: rest =>
      match t with
      | File _ => None
      | Dir es =>
          match entry_get name es with
          | Some x => get x rest
          | None => None
          end
      end
  end.

(** [update t p f] rewrites with [f] the entries of the directory at [p]. *)
Fixpoint update (t : node) (p : path)
    (f : list (string * node) -> list (string * node)) : node :=
  match p with
  | [] => match t with
          | Dir es => Dir (f es)
          | File _ => t
          end
  | name :: rest =>
      match t with
      | File _ => t
      | Dir es =>
          match entry_get name es with
          | Some x => Dir (entry_set name (update x rest f) es)
          | None => t
          end
      end
  end.

Definition is_dir (t : node) (p : path) : bool :=
  match get t p with Some (Dir _) => true | _ => false end.

Definition is_file (t : node) (p : path) : bool :=
  match get t p with Some (File _) => true | _ => false end.

(** What there is at a location: nothing, a directory, or a file with its
    lines. *)
Inductive kind : Type :=
| Missing
| IsDir
| IsFile (lines : list string).

Definition shape (t : node) (p : path) : kind :=
  match get t p with
  | None => Missing
  | Some (Dir _) => IsDir
  | Some (File lines) => IsFile lines
  end.

(** [strip_prefix d q] is the rest of [q] after [d], when [q] begins with
    [d]. *)
Fixpoint strip_prefix (d q : path) : option path :=
  match d, q with
  | [], _ => Some q
  | _ :: _, [] => None
  | a :: d', b :: q' => if String.eqb a b then strip_prefix d' q' else None
  end.

(** Induction on trees, with the hypothesis for every entry of a
    directory. *)
Fixpoint node_induction (P : node -> Prop)
    (HF : forall lines, P (File lines))
    (HD : forall es, Forall (fun e => P (snd e)) es -> P (Dir es))
    (t : node) : P t :=
  match t with
  | File lines => HF lines
  | Dir es =>
      HD es
        ((fix go (l : list (string * node)) : Forall (fun e => P (snd e)) l :=
            match l with
            | [] => Forall_nil _
            | e :: r => Forall_cons e (node_induction P HF HD (snd e)) (go r)
            end) es)
  end.

(** *** Exceptions, results, and the monad of the program *)

Inductive exn : Type :=
| ValueError (msg : string)
| FileNotFoundError
| NotADirectoryError
| IsADirectoryError
| FileExistsError
| OtherError (what : string).

Inductive result (A : Type) : Type :=
| Ok (a : A)
| Raise (e : exn).
Arguments Ok {A} a.
Arguments Raise {A} e.

Inductive mode : Type := ModeR | ModeW.

(** An open file object: the file it is bound to, its mode, and whether
    [close] was called on it. *)
Record handle : Type := mkHandle {
  h_path : path;
  h_mode : mode;
  h_closed : bool
}.

(** The state of the process and of the disk. *)
Record state : Type := mkState {
  root : node;
  cwd : path;
  handles : list handle
}.

(** A computation runs on a state and leaves a state behind also when it
    raises. *)
Definition M (A : Type) : Type := state -> result A * state.

Definition ret {A} (a : A) : M A := fun s => (Ok a, s).

Definition raise {A} (e : exn) : M A := fun s => (Raise e, s).

Definition bind {A B} (m : M A) (k : A -> M B) : M B :=
  fun s =>
    match m s with
    | (Ok a, s1) => k a s1
    | (Raise e, s1) => (Raise e, s1)
    end.

Notation "x <- m ;; k" := (bind m (fun x => k))
  (at level 61, m at next level, right associativity).
Notation "m ;;; k" := (bind m (fun _ => k))
  (at level 61, right associativity).

(** [try: m finally: fin]. The [finally] block runs on every exit of [m]; an
    exception of the block replaces the outcome of [m]. *)
Definition try_finally {A} (m : M A) (fin : M unit) : M A :=
  fun s =>
    let '(r, s1) := m s in
    match fin s1 with
    | (Ok _, s2) => (r, s2)
    | (Raise e, s2) => (Raise e, s2)
    end.

(** [try: m except FileNotFoundError as e: h]. *)
Definition except_FileNotFoundError (m : M unit) (h : M unit) : M unit :=
  fun s =>
    match m s with
    | (Raise FileNotFoundError, s1) => h s1
    | other => other
    end.

(** [for x in xs: body x]. *)
Fixpoint for_each {A} (xs : list A) (body : A -> M unit) : M unit :=
  match xs with
  | [] => ret tt
  | x :: rest => body x ;;; for_each rest body
  end.

Definition get_state : M state := fun s => (Ok s, s).
Definition set_root (t : node) : M unit :=
  fun s => (Ok tt, mkState t (cwd s) (handles s)).
Definition set_cwd (p : path) : M unit :=
  fun s => (Ok tt, mkState (root s) p (handles s)).
Definition set_handles (hs : list handle) : M unit :=
  fun s => (Ok tt, mkState (root s) (cwd s) hs).

(** The root of a file system is a directory. *)
Definition root_is_dir (s : state) : Prop := is_dir (root s) [] = true.

(** *** [posixpath] *)

(** [s.split('/')] *)
Fixpoint split_slash (s : string) : list string :=
  match s with
  | EmptyString => [EmptyString]
  | String c r =>
      if Ascii.eqb c "/" then EmptyString :: split_slash r
      else match split_slash r with
           | h :: t => String c h :: t
           | [] => [String c EmptyString]
           end
  end.

(** ['/'.join(comps)] *)
Definition join_slash (comps : list string) : string :=
  String.concat "/" comps.

Definition isabs (s : string) : bool := startswith s "/".

(** [os.path.join(a, b)] *)
Definition join (a b : string) : string :=
  if startswith b "/" then b
  else if is_empty a || endswith a "/" then (a ++ b)%string
  else (a ++ "/" ++ b)%string.

(** [not l] for a list. *)
Definition is_nil {A} (l : list A) : bool :=
  match l with [] => true | _ => false end.

(** The loop of [normpath] over the components. *)
Fixpoint normpath_comps (initial_slashes : nat) (comps new_comps : list string)
  : list string :=
  match comps with
  | [] => new_comps
  | comp :: rest =>
      if String.eqb comp "" || String.eqb comp "." then
        normpath_comps initial_slashes rest new_comps
      else if negb (String.eqb comp "..")
              || ((initial_slashes =? 0)%nat && is_nil new_comps)
              || (negb (is_nil new_comps)
                  && String.eqb (last new_comps "") "..") then
        normpath_comps initial_slashes rest (new_comps ++ [comp])
      else
        normpath_comps initial_slashes rest (removelast new_comps)
  end.

(** [os.path.normpath(path)] *)
Definition normpath (p : string) : string :=
  if is_empty p then "."
  else
    let initial_slashes :=
      if startswith p "/" then
        if startswith p "//" && negb (startswith p "///") then 2 else 1
      else 0 in
    let comps := normpath_comps initial_slashes (split_slash p) [] in
    let q := (match initial_slashes with
              | 0 => ""
              | 1 => "/"
              | _ => "//"
              end ++ join_slash comps)%string in
    if is_empty q then "." else q.

(** [os.path.basename(p)] *)
Definition basename (p : string) : string := last (split_slash p) "".

(** Whether [s] has no slash. *)
Fixpoint no_slash (s : string) : bool :=
  match s with
  | EmptyString => true
  | String c r => negb (Ascii.eqb c "/") && no_slash r
  end.

(** The names that a directory can hold. *)
Definition valid_name (n : string) : bool :=
  negb (String.eqb n "") && negb (String.eqb n ".")
  && negb (String.eqb n "..") && no_slash n.

Fixpoint nodupb (l : list string) : bool :=
  match l with
  | [] => true
  | x :: r => negb (existsb (String.eqb x) r) && nodupb r
  end.

(** A tree as a file system holds it: in every directory the names are
    names a directory can hold, and no name occurs twice. *)
Fixpoint wf_node (t : node) : bool :=
  match t with
  | File _ => true
  | Dir es =>
      nodupb (map fst es)
      && forallb (fun e : string * node =>
                    let (n, x) := e in valid_name n && wf_node x) es
  end.

(** Whether a directory has an entry of the name [k]. *)
Definition name_in (k : string) (es : list (string * node)) : bool :=
  existsb (String.eqb k) (map fst es).

(** The test of [wf_node] on the entries. *)
Definition wf_children (es : list (string * node)) : bool :=
  forallb (fun e : string * node =>
             let (n, x) := e in valid_name n && wf_node x) es.

(** A state as the operating system holds it: a well-formed tree with a
    directory at its root, and a working directory under names a directory
    can hold. *)
Definition wf_state (s : state) : bool :=
  wf_node (root s) && is_dir (root s) [] && forallb valid_name (cwd s).

(** *** Name lookup, as the kernel does it *)

(** From the directory at [pos], follow the components one by one. Every
    component, also an empty one or a dot, is looked up in a directory. *)
Fixpoint walk_comps (t : node) (pos : path) (comps : list string)
  : result path :=
  match comps with
  | [] => Ok pos
  | c :: rest =>
      match get t pos with
      | None => Raise FileNotFoundError
      | Some (File _) => Raise NotADirectoryError
      | Some (Dir _) =>
          if String.eqb c "" || String.eqb c "." then walk_comps t pos rest
          else if String.eqb c ".." then walk_comps t (removelast pos) rest
          else walk_comps t (pos ++ [c]) rest
      end
  end.

(** Where the lookup of [p] starts. *)
Definition start_of (s : state) (p : string) : path :=
  if isabs p then [] else cwd s.

(** The location of the existing file or directory that [p] names. *)
Definition namei (s : state) (p : string) : result path :=
  if is_empty p then Raise FileNotFoundError
  else
    match walk_comps (root s) (start_of s p) (split_slash p) with
    | Ok pos =>
        match get (root s) pos with
        | Some _ => Ok pos
        | None => Raise FileNotFoundError
        end
    | Raise e => Raise e
    end.

(** The directory and the name under which [p] is, or would be, entered:
    the lookup of a path that may be created. *)
Definition namei_create (s : state) (p : string) : result (path * string) :=
  if is_empty p then Raise FileNotFoundError
  else
    let comps := split_slash p in
    let name := last comps "" in
    match walk_comps (root s) (start_of s p) (removelast comps) with
    | Ok parent =>
        match get (root s) parent with
        | None => Raise FileNotFoundError
        | Some (File _) => Raise NotADirectoryError
        | Some (Dir _) =>
            if String.eqb name "" || String.eqb name "."
               || String.eqb name ".."
            then Raise IsADirectoryError
            else Ok (parent, name)
        end
    | Raise e => Raise e
    end.

(** [names_to p q]: the absolute path [p] spells the location [q], with
    nothing but slashes before the names. *)
Definition names_to (p : string) (q : path) : Prop :=
  startswith p "/" = true
  /\ Forall (fun n => valid_name n = true) q
  /\ exists lead, lead <> [] /\ Forall (fun c => c = "") lead
                  /\ split_slash p = lead ++ q.

(** [join(... join(join(top, n1), n2) ..., nk)]: the text under which
    [os.walk(top)] reports the directory [k] names below [top]. *)
Definition joins (top : string) (names : list string) : string :=
  fold_left join names top.

Definition lookup (p : string) : M path := fun s => (namei s p, s).

Definition lookup_create (p : string) : M (path * string) :=
  fun s => (namei_create s p, s).

(** Remove the entry at [pos] from its directory. *)
Definition remove_at (t : node) (pos : path) : node :=
  update t (removelast pos) (entry_del (last pos "")).

(** Replace the lines of the file at [pos] by [flt] of them and remove the
    entry of the temporary file next to it: what one rewrite leaves. *)
Definition rewrite_at (flt : list string -> list string) (t : node)
    (pos : path) : node :=
  match get t pos with
  | Some (File lines) =>
      update t (removelast pos)
        (fun es => entry_set (last pos "") (File (flt lines))
                     (entry_del (last pos "" ++ ".new") es))
  | _ => t
  end.

(** [left_of t' t]: every location of [t'] is missing, or as in [t], or a
    file where [t] has a file. No operation of the program that changes the
    disk after the copy creates anything else. *)
Definition left_of (t' t : node) : Prop :=
  forall q,
    shape t' q = Missing \/ shape t' q = shape t q
    \/ exists lines lines', shape t q = IsFile lines
                            /\ shape t' q = IsFile lines'.

(** *** [os] and [os.path] *)

(** [os.path.exists(p)] *)
Definition path_exists (p : string) : M bool :=
  fun s => match namei s p with
           | Ok _ => (Ok true, s)
           | Raise _ => (Ok false, s)
           end.

(** [os.path.isdir(p)] *)
Definition path_isdir (p : string) : M bool :=
  fun s => match namei s p with
           | Ok pos => (Ok (is_dir (root s) pos), s)
           | Raise _ => (Ok false, s)
           end.

(** The text of a location: ["/" + "/".join(pos)]. *)
Definition render (pos : path) : string := ("/" ++ join_slash pos)%string.

(** [os.getcwd()] *)
Definition getcwd : M string :=
  fun s => if is_dir (root s) (cwd s) then (Ok (render (cwd s)), s)
           else (Raise FileNotFoundError, s).

(** [os.chdir(p)] *)
Definition os_chdir (p : string) : M unit :=
  pos <- lookup p ;;
  s <- get_state ;;
  if is_dir (root s) pos then set_cwd pos else raise NotADirectoryError.

(** [os.path.abspath(p)] *)
Definition abspath (p : string) : M string :=
  if isabs p then ret (normpath p)
  else c <- getcwd ;; ret (normpath (join c p)).

(** [os.unlink(p)] *)
Definition os_unlink (p : string) : M unit :=
  pos <- lookup p ;;
  s <- get_state ;;
  if is_dir (root s) pos then raise IsADirectoryError
  else set_root (remove_at (root s) pos).

(** [os.access(p, os.W_OK)]: permission bits are not part of the state, so
    every file that exists is writable. *)
Definition os_access_W_OK (p : string) : M bool := path_exists p.

(** [os.chmod(p, stat.S_IWRITE)]: changes permission bits only. *)
Definition os_chmod_S_IWRITE (p : string) : M unit :=
  _ <- lookup p ;; ret tt.

(** [os.rename(src, dst)] for a file [src]; the entry of [dst], when there
    is one, is replaced where it stands. *)
Definition os_rename (src dst : string) : M unit :=
  spos <- lookup src ;;
  d <- lookup_create dst ;;
  s <- get_state ;;
  let dpos := fst d ++ [snd d] in
  match get (root s) spos with
  | Some (File lines) =>
      if is_dir (root s) dpos then raise IsADirectoryError
      else if list_eq_dec string_dec spos dpos then ret tt
      else set_root (update (remove_at (root s) spos) (fst d)
                       (entry_set (snd d) (File lines)))
  | _ => raise (OtherError "rename of a directory")
  end.

(** *** Files *)

(** [open(p, mode=m)]: the new file object is the last of the table. *)
Definition os_open (p : string) (m : mode) : M nat :=
  match m with
  | ModeR =>
      pos <- lookup p ;;
      s <- get_state ;;
      if is_dir (root s) pos then raise IsADirectoryError
      else
        set_handles (handles s ++ [mkHandle pos ModeR false]) ;;;
        ret (List.length (handles s))
  | ModeW =>
      d <- lookup_create p ;;
      s <- get_state ;;
      let pos := fst d ++ [snd d] in
      if is_dir (root s) pos then raise IsADirectoryError
      else
        set_root (update (root s) (fst d) (entry_set (snd d) (File []))) ;;;
        set_handles (handles s ++ [mkHandle pos ModeW false]) ;;;
        ret (List.length (handles s))
  end.

Definition closed_file : exn := ValueError "I/O operation on closed file.".

(** [list(fp)]: the lines that iterating over the file object yields. *)
Definition os_readlines (fp : nat) : M (list string) :=
  s <- get_state ;;
  match nth_error (handles s) fp with
  | Some (mkHandle pos ModeR false) =>
      match get (root s) pos with
      | Some (File lines) => ret lines
      | _ => ret []
      end
  | Some (mkHandle _ ModeW false) => raise (OtherError "not readable")
  | _ => raise closed_file
  end.

(** [fp.write(line)] *)
Definition os_write (fp : nat) (line : string) : M unit :=
  s <- get_state ;;
  match nth_error (handles s) fp with
  | Some (mkHandle pos ModeW false) =>
      match get (root s) pos with
      | Some (File lines) =>
          set_root (update (root s) (removelast pos)
                      (entry_set (last pos "") (File (lines ++ [line]))))
      | _ => ret tt
      end
  | Some (mkHandle _ ModeR false) => raise (OtherError "not writable")
  | _ => raise closed_file
  end.

Fixpoint mark_closed (hs : list handle) (fp : nat) : list handle :=
  match hs, fp with
  | [], _ => []
  | h :: r, 0 => mkHandle (h_path h) (h_mode h) true :: r
  | h :: r, S n => h :: mark_closed r n
  end.

(** [fp.close()] *)
Definition os_close (fp : nat) : M unit :=
  s <- get_state ;; set_handles (mark_closed (handles s) fp).

(** *** [os.walk] *)

Definition walk_entry : Type := string * list string * list string.

Fixpoint dirnames (es : list (string * node)) : list string :=
  match es with
  | [] => []
  | (n, Dir _) :: r => n :: dirnames r
  | (_, File _) :: r => dirnames r
  end.

Fixpoint filenames (es : list (string * node)) : list string :=
  match es with
  | [] => []
  | (n, File _) :: r => n :: filenames r
  | (_, Dir _) :: r => filenames r
  end.

(** The triples of a top-down walk of the directory [t], reached as
    [dirpath]. *)
Fixpoint walk_node (dirpath : string) (t : node) : list walk_entry :=
  match t with
  | File _ => []
  | Dir es =>
      (dirpath, dirnames es, filenames es)
        :: flat_map (fun e : string * node =>
                       let (n, x) := e in walk_node (join dirpath n) x) es
  end.

(** [list(os.walk(top))]: errors of the listing are ignored. *)
Definition os_walk (top : string) : M (list walk_entry) :=
  fun s => match namei s top with
           | Ok pos =>
               match get (root s) pos with
               | Some t => (Ok (walk_node top t), s)
               | None => (Ok [], s)
               end
           | Raise _ => (Ok [], s)
           end.

(** *** [shutil] *)

(** [shutil.rmtree(p)] *)
Definition shutil_rmtree (p : string) : M unit :=
  pos <- lookup p ;;
  s <- get_state ;;
  if is_dir (root s) pos then
    if is_nil pos then raise (OtherError "cannot remove the root")
    else set_root (remove_at (root s) pos)
  else raise NotADirectoryError.

(** [shutil.copystat(src, dst)]: times and permission bits are not part of
    the state; both files are looked up. *)
Definition shutil_copystat (src dst : string) : M unit :=
  _ <- lookup src ;; _ <- lookup dst ;; ret tt.

(** [shutil.move(src, dst)] for a file [src]. *)
Definition shutil_move (src dst : string) : M unit :=
  isd <- path_isdir dst ;;
  if isd then
    let real_dst := join dst (basename src) in
    ex <- path_exists real_dst ;;
    if ex then raise (OtherError "Destination path already exists")
    else os_rename src real_dst
  else os_rename src dst.

(** [os.makedirs(p)]: from [pos], create the directories that are missing. *)
Fixpoint makedirs_comps (t : node) (pos : path) (comps : list string)
  : result (node * path) :=
  match comps with
  | [] => Ok (t, pos)
  | c :: rest =>
      match get t pos with
      | None => Raise FileNotFoundError
      | Some (File _) => Raise NotADirectoryError
      | Some (Dir _) =>
          if String.eqb c "" || String.eqb c "." then
            makedirs_comps t pos rest
          else if String.eqb c ".." then
            makedirs_comps t (removelast pos) rest
          else
            match get t (pos ++ [c]) with
            | Some _ => makedirs_comps t (pos ++ [c]) rest
            | None =>
                makedirs_comps (update t pos (entry_set c (Dir [])))
                  (pos ++ [c]) rest
            end
      end
  end.

(** [shutil.copytree] lists the entries of [src] before it makes [dst], and
    copies each directory among them as it finds it when its turn comes.
    When [dst] lies in one of these directories, the copy of that directory
    comes to [dst] and copies it into itself, level after level, until the
    interpreter gives up. [es] are the entries listed. *)
Definition copies_into_itself (es : list (string * node)) (spos dpos : path)
  : bool :=
  match strip_prefix spos dpos with
  | Some (x :: _ :: _) =>
      match entry_get x es with
      | Some (Dir _) => true
      | _ => false
      end
  | _ => false
  end.

(** [shutil.copytree(src, dst)]: the entries of [src] are listed; [dst],
    which must not exist, is made with its missing parents by [os.makedirs]
    and receives a copy of the entries. A copy that runs into itself ends
    with an exception; the chain of copies that it leaves behind is not in
    the model, where the state then holds [dst] as [os.makedirs] made it. *)
Definition shutil_copytree (src dst : string) : M unit :=
  spos <- lookup src ;;
  ex <- path_exists dst ;;
  s <- get_state ;;
  match get (root s) spos with
  | Some (Dir es) =>
      if ex then raise FileExistsError
      else if is_empty dst then raise FileNotFoundError
      else
        match makedirs_comps (root s) (start_of s dst) (split_slash dst) with
        | Ok (t, dpos) =>
            if is_nil dpos then raise FileExistsError
            else if copies_into_itself es spos dpos then
              set_root t ;;; raise (OtherError "RecursionError")
            else set_root (update t (removelast dpos)
                             (entry_set (last dpos "") (Dir es)))
        | Raise e => raise e
        end
  | _ => raise NotADirectoryError
  end.

(** *** Notions of the proofs *)

(** A file object that cannot be read or written any more: [close] was
    called on it, or the table has no such object. *)
Definition is_closed (hs : list handle) (fp : nat) : Prop :=
  match nth_error hs fp with
  | Some h => h_closed h = true
  | None => True
  end.

End OS.

(** ** [tfs/libs.py] *)

Module Libs.
Import PyStr OS.

(** [with open_inout(in_file, out_file, in_enc, out_enc) as (in_fp, out_fp):
    body]. The generator runs up to its [yield], the body of the [with]
    statement runs with the value yielded, and the generator is resumed when
    the body is left: normally, or with the exception of the body thrown in
    at the [yield]. A file object is always true, so the two tests of the
    [finally] block do not show. The encodings are only tested for being
    set. *)
Definition open_inout {A} (in_file out_file in_enc out_enc : string)
    (body : nat * nat -> M A) : M A :=
  if is_empty in_file || is_empty out_file then
    raise (ValueError "parameters must be set. [in_file, out_file]")
  else if is_empty in_enc || is_empty out_enc then
    raise (ValueError "parameters must be set. [in_enc, out_enc]")
  else
    in_fp <- os_open in_file ModeR ;;
    out_fp <- os_open out_file ModeW ;;
    try_finally
      (body (in_fp, out_fp))
      (os_close in_fp ;;; os_close out_fp).

(** [with chdir(directory) as current_dir: body]. [None] is Python's
    [None]. *)
Definition chdir {A} (directory : option string) (body : string -> M A)
  : M A :=
  match directory with
  | None => raise (ValueError "parameter: directory must be directory-path.")
  | Some directory =>
      ex <- path_exists directory ;;
      if negb ex then
        raise (ValueError "parameter: directory must be directory-path.")
      else
        _orig_dir <- abspath "." ;;
        try_finally
          (os_chdir directory ;;;
           current_dir <- abspath directory ;;
           body current_dir)
          (os_chdir _orig_dir)
  end.

(** The value of [abspath(directory)] when the working directory is [pos]:
    what [chdir] yields after [os.chdir]. *)
Definition yielded (directory : string) (pos : path) : string :=
  if isabs directory then normpath directory
  else normpath (join (render pos) directory).

(** Whether one of the four parameters of [open_inout] is empty. *)
Definition some_unset (in_file out_file in_enc out_enc : string) : bool :=
  is_empty in_file || is_empty out_file || is_empty in_enc || is_empty out_enc.

(** A process in [/w], with the directory [/w/sub]. *)
Definition in_w : state :=
  mkState (Dir [("w", Dir [("sub", Dir [])])]) ["w"] [].

(** A disk with the file [/in.txt] and no directory [/missing]. *)
Definition with_input : state :=
  mkState (Dir [("in.txt", File ["line"])]) [] [].

(** A process in [/w], beside the directory [/t]. *)
Definition beside_t : state :=
  mkState (Dir [("w", Dir []); ("t", Dir [])]) ["w"] [].

End Libs.

(** ** [tfs/unbinder.py] *)

Module Unbinder.
Import PyStr Filters OS Libs.

Definition unnecessary_dir_types : list string :=
  ["Debug"; "Release"; "StyleCop"].

Definition unnecessary_file_types : list string :=
  [".vssscc"; ".user"; ".vspscc"; ".pdb"].

(** [_copytree] *)
Definition _copytree (orig_dir dest_dir : string) : M unit :=
  ex <- path_exists dest_dir ;;
  if negb ex then shutil_copytree orig_dir dest_dir else ret tt.

(** [_make_writeable] *)
Definition _make_writeable (directory : string) : M unit :=
  entries <- os_walk directory ;;
  for_each entries (fun e =>
    let '(dirpath, _, filenames) := e in
    for_each filenames (fun file_name =>
      let full_path := join dirpath file_name in
      ok <- os_access_W_OK full_path ;;
      if negb ok then os_chmod_S_IWRITE full_path else ret tt)).

(** The four lists that [_collect] builds. *)
Record collected : Type := mkCollected {
  del_dirs : list string;
  del_files : list string;
  sln_files : list string;
  proj_files : list string
}.

(** The three tests on one file name ([unbinder.py] lines 106-113). *)
Definition collect_file (dirpath : string) (acc : collected) (fname : string)
  : collected :=
  let acc :=
    if endswith_any fname unnecessary_file_types then
      mkCollected (del_dirs acc) (del_files acc ++ [join dirpath fname])
        (sln_files acc) (proj_files acc)
    else acc in
  let acc :=
    if endswith fname ".sln" then
      mkCollected (del_dirs acc) (del_files acc)
        (sln_files acc ++ [join dirpath fname]) (proj_files acc)
    else acc in
  if endswith fname "proj" then
    mkCollected (del_dirs acc) (del_files acc) (sln_files acc)
      (proj_files acc ++ [join dirpath fname])
  else acc.

(** One iteration of the loop over [os.walk] (lines 101-113). *)
Definition collect_entry (acc : collected) (e : walk_entry) : collected :=
  let '(dirpath, _, filenames) := e in
  if endswith_any dirpath unnecessary_dir_types then
    mkCollected (del_dirs acc ++ [dirpath]) (del_files acc) (sln_files acc)
      (proj_files acc)
  else fold_left (collect_file dirpath) filenames acc.

(** [_collect] *)
Definition _collect (directory : string) : M collected :=
  entries <- os_walk directory ;;
  ret (fold_left collect_entry entries (mkCollected [] [] [] [])).

(** [_delete]: the warning that is logged leaves the state as it is. *)
Definition _delete (del_dirs del_files : list string) : M unit :=
  for_each del_dirs (fun del_dir =>
    except_FileNotFoundError (shutil_rmtree del_dir) (ret tt)) ;;;
  for_each del_files (fun file =>
    except_FileNotFoundError (os_unlink file) (ret tt)).

(** The loop of [_update_sln] on the lines of [in_fp], writing to
    [out_fp]. *)
Fixpoint sln_write_loop (out_fp : nat) (in_vcs_region : bool)
    (lines : list string) : M unit :=
  match lines with
  | [] => ret tt
  | line :: rest =>
      let '(written, flag) := sln_line in_vcs_region line in
      (if written then os_write out_fp line else ret tt) ;;;
      sln_write_loop out_fp flag rest
  end.

(** The body of the loop of [_update_sln]. *)
Definition update_sln_file (sln_file : string) : M unit :=
  let sln_file_new := (sln_file ++ ".new")%string in
  open_inout sln_file sln_file_new "utf-8" "utf-8" (fun fps =>
    let '(in_fp, out_fp) := fps in
    lines <- os_readlines in_fp ;;
    sln_write_loop out_fp false lines) ;;;
  shutil_copystat sln_file sln_file_new ;;;
  shutil_move sln_file_new sln_file.

(** [_update_sln] *)
Definition _update_sln (sln_files : list string) : M unit :=
  for_each sln_files update_sln_file.

(** The loop of [_update_proj]. *)
Definition proj_write_loop (out_fp : nat) (lines : list string) : M unit :=
  for_each lines (fun line =>
    if proj_line line then os_write out_fp line else ret tt).

(** The body of the loop of [_update_proj]. *)
Definition update_proj_file (proj_file : string) : M unit :=
  let proj_file_new := (proj_file ++ ".new")%string in
  open_inout proj_file proj_file_new "utf-8" "utf-8" (fun fps =>
    let '(in_fp, out_fp) := fps in
    lines <- os_readlines in_fp ;;
    proj_write_loop out_fp lines) ;;;
  shutil_copystat proj_file proj_file_new ;;;
  shutil_move proj_file_new proj_file.

(** [_update_proj] *)
Definition _update_proj (proj_files : list string) : M unit :=
  for_each proj_files update_proj_file.

(** The body of the [with] statement of [unbind]. *)
Definition unbind_body (current_dir : string) : M unit :=
  _make_writeable current_dir ;;;
  c <- _collect current_dir ;;
  _delete (del_dirs c) (del_files c) ;;;
  _update_sln (sln_files c) ;;;
  _update_proj (proj_files c).

(** [unbind]; the log lines leave the state as it is. *)
Definition unbind (orig_dir dest_dir : string) : M unit :=
  _copytree orig_dir dest_dir ;;;
  chdir (Some dest_dir) unbind_body.

(** The lists of [_collect] entry by entry. *)
Definition unnecessary_dir (dirpath : string) : bool :=
  endswith_any dirpath unnecessary_dir_types.

Definition unnecessary_file (fname : string) : bool :=
  endswith_any fname unnecessary_file_types.

Definition is_sln (fname : string) : bool := endswith fname ".sln".

Definition is_proj (fname : string) : bool := endswith fname "proj".

Definition entry_dirs (e : walk_entry) : list string :=
  let '(dirpath, _, _) := e in
  if unnecessary_dir dirpath then [dirpath] else [].

Definition entry_files (test : string -> bool) (e : walk_entry)
  : list string :=
  let '(dirpath, _, filenames) := e in
  if unnecessary_dir dirpath then []
  else map (join dirpath) (filter test filenames).

(** *** Notions of the proofs *)

(** The shape that the bodies of the two loops share, for a line loop
    [loop]. *)
Definition rewrite_file (loop : nat -> list string -> M unit)
    (file : string) : M unit :=
  let file_new := (file ++ ".new")%string in
  open_inout file file_new "utf-8" "utf-8" (fun fps =>
    let '(in_fp, out_fp) := fps in
    lines <- os_readlines in_fp ;;
    loop out_fp lines) ;;;
  shutil_copystat file file_new ;;;
  shutil_move file_new file.

(** The facts that every step of the program keeps. *)
Definition kept (s s' : state) : Prop :=
  left_of (root s') (root s) /\ wf_node (root s') = true
  /\ root_is_dir s' /\ cwd s' = cwd s.

(** [settled_file A t d n]: the lines of the file [n] of the directory
    [d], if there is one, all satisfy [A], and nothing is there under its
    temporary name. *)
Definition settled_file (A : string -> Prop) (t : node) (d : path)
    (n : string) : Prop :=
  (forall lines, get t (d ++ [n]) = Some (File lines) -> Forall A lines)
  /\ get t (d ++ [(n ++ ".new")%string]) = None.

(** The triples that [os.walk(top)] yields when [top] spells the location
    [tpos]. *)
Definition walk_of (top : string) (tpos : path) (s : state)
  : list walk_entry :=
  match get (root s) tpos with
  | Some t => walk_node top t
  | None => []
  end.

(** [settled top tpos t]: under [top], which spells the location [tpos],
    the tree [t] has no directory to delete, no file to delete, and only
    solution and project files that their filter leaves as they are, with
    nothing under their temporary names. *)
Definition settled (top : string) (tpos : path) (t : node) : Prop :=
  (forall names,
     is_dir t (tpos ++ names) = true ->
     unnecessary_dir (joins top names) = false)
  /\ (forall names n lines,
        get t ((tpos ++ names) ++ [n]) = Some (File lines) ->
        unnecessary_file n = false
        /\ (is_sln n = true ->
            sln_filter lines = lines
            /\ get t ((tpos ++ names) ++ [(n ++ ".new")%string]) = None)
        /\ (is_proj n = true ->
            proj_filter lines = lines
            /\ get t ((tpos ++ names) ++ [(n ++ ".new")%string]) = None)).

(** A source tree [/o] with a bound solution and project, build output and
    a debug database; there is no [/d] yet. *)
Definition bound_tree : state :=
  mkState
    (Dir [("o", Dir
       [("a.sln", File ["Global"; "  GlobalSection(TeamFoundationVersionControl) = preSolution";
                        "    SccNumberOfProjects = 2"; "  EndGlobalSection";
                        "EndGlobal"]);
        ("a.csproj", File ["<Project>"; "  <SccProjectName>x</SccProjectName>";
                           "</Project>"]);
        ("a.pdb", File []);
        ("bin", Dir [("Debug", Dir [("a.dll", File [])])])])])
    [] [].

(** A destination [/d] whose directory [bin/Debug] has a subdirectory with
    a solution file, a project file and a debug database in it. *)
Definition nested_debug : state :=
  mkState
    (Dir [("d", Dir [("bin", Dir [("Debug", Dir
       [("x.pdb", File []);
        ("net", Dir [("a.sln", File ["Global"]);
                     ("a.csproj", File ["<Project>"]);
                     ("a.pdb", File [])])])])])])
    [] [].

(** A source tree [/o] with a solution in a subdirectory, and an empty
    destination [/x/Release] that exists already. *)
Definition release_dest : state :=
  mkState
    (Dir [("o", Dir [("sub", Dir [("a.sln", File ["Global"])])]);
          ("x", Dir [("Release", Dir [])])])
    [] [].

(** The bodies of the two loops of [_delete] (lines 127-137). *)
Definition rm_dir (del_dir : string) : M unit :=
  except_FileNotFoundError (shutil_rmtree del_dir) (ret tt).

Definition rm_file (file : string) : M unit :=
  except_FileNotFoundError (os_unlink file) (ret tt).

(** [clean_dirs top names]: of the directories from [top] down to the
    directory [names] below it, [_collect] lists none for deletion. *)
Definition clean_dirs (top : string) (names : list string) : Prop :=
  forall k, unnecessary_dir (joins top (firstn k names)) = false.

(** A source tree [/o] with a solution and a file under its temporary
    name, a project, a text file, a debug database, sources and build
    output; there is no [/d] yet. *)
Definition stale_tree : state :=
  mkState
    (Dir [("o", Dir
       [("a.sln", File ["Global"; "GlobalSection(TeamFoundationVersionControl) = preSolution";
                        "EndGlobalSection"; "EndGlobal"]);
        ("a.sln.new", File ["notes"]);
        ("a.csproj", File ["<Project>"; "<SccProjectName>x</SccProjectName>";
                           "</Project>"]);
        ("readme.txt", File ["hello"]);
        ("a.pdb", File []);
        ("src", Dir [("main.cs", File ["class A {}"])]);
        ("obj", Dir [("Release", Dir [("a.obj", File [])])])])])
    [] [].

End Unbinder.

(** ** [timetracer] of [tfs/libs.py] *)

Module Tracer.
Import OS.

(** A naive [datetime], as the microseconds from the first instant of the
    calendar. *)
Definition datetime : Type := Z.

(** A [timedelta]; its constructor normalises to [0 <= seconds < 86400] and
    [0 <= microseconds < 1000000]. *)
Record timedelta : Type := mkTimedelta {
  days : Z;
  seconds : Z;
  microseconds : Z
}.

(** [a - b] on two [datetime]s. *)
Definition datetime_sub (a b : datetime) : timedelta :=
  let us := (a - b)%Z in
  mkTimedelta (us / 86400000000) ((us mod 86400000000) / 1000000)
    (us mod 1000000).

(** [str(n)] for an integer, as an f-string formats it. *)
Definition str (n : Z) : string := NilZero.string_of_int (Z.to_int n).

(** A text stream: [sys.stdout] or another file object. *)
Inductive stream : Type :=
| sys_stdout
| file_object (id : nat).

(** The clock, as the readings of the successive calls of
    [datetime.now()], and the lines printed so far, each with its stream. *)
Record world : Type := mkWorld {
  clock : nat -> datetime;
  ticks : nat;
  printed : list (stream * string)
}.

Definition T (A : Type) : Type := world -> result A * world.

(** [datetime.now()] *)
Definition now (w : world) : datetime * world :=
  (clock w (ticks w), mkWorld (clock w) (S (ticks w)) (printed w)).

(** [print(text, file=io)] *)
Definition print (text : string) (io : stream) (w : world) : world :=
  mkWorld (clock w) (ticks w) (printed w ++ [(io, text)]).

(** The text of [libs.py] lines 77-80, from the two readings of the
    clock. *)
Definition log_line (message : option string) (_start _end : datetime)
  : string :=
  let _diff := datetime_sub _end _start in
  let _message := match message with None => "timetracer" | Some m => m end in
  ("[" ++ _message ++ "] elapsed: " ++ str (seconds _diff) ++ "."
   ++ str (microseconds _diff) ++ " seconds")%string.

(** [with timetracer(message, file): body]. The [finally] block runs on
    every exit of the body and passes its outcome on. *)
Definition timetracer {A} (message : option string) (file : option stream)
    (body : T A) : T A :=
  fun w =>
    let '(_start, w1) := now w in
    let '(r, w2) := body w1 in
    let '(_end, w3) := now w2 in
    let _io := match file with None => sys_stdout | Some f => f end in
    (r, print (log_line message _start _end) _io w3).

(** A clock that reads 0 at first and, from then on, one day, one second
    and five microseconds. *)
Definition late_clock (k : nat) : datetime :=
  match k with 0 => 0%Z | _ => 86401000005%Z end.

End Tracer.

(** * Theorems *)

Module PyStrFacts.
Import PyStr.
#[local] Open Scope string_scope.

Lemma append_assoc (a b c : string) : (a ++ b) ++ c = a ++ (b ++ c).
Proof. induction a as [|x a IH]; cbn; [reflexivity | now rewrite IH]. Qed.

Lemma append_nil_r (a : string) : a ++ "" = a.
Proof. induction a as [|x a IH]; cbn; [reflexivity | now rewrite IH]. Qed.

Lemma startswith_spec s p :
  startswith s p = true <-> exists r, s = p ++ r.
Proof.
  revert s; induction p as [|a p IH]; intros s; simpl.
  - split; [intros _; now exists s | reflexivity].
  - destruct s as [|b s].
    + split; [discriminate | intros [r Hr]; discriminate].
    + rewrite andb_true_iff, Ascii.eqb_eq, IH. split.
      * intros [-> [r ->]]. now exists r.
      * intros [r Hr]. injection Hr as -> ->. split; [reflexivity | now exists r].
Qed.

Lemma contains_spec sub s :
  contains sub s = true <-> exists a b, s = a ++ sub ++ b.
Proof.
  induction s as [|c s IH]; simpl.
  - rewrite orb_false_r, startswith_spec. split.
    + intros [r Hr]. now exists "", r.
    + intros [a [b Hab]]. destruct a; simpl in Hab.
      * now exists b.
      * discriminate.
  - rewrite orb_true_iff, startswith_spec, IH. split.
    + intros [[r Hr] | [a [b Hab]]].
      * now exists "", r.
      * exists (String c a), b. simpl. now rewrite Hab.
    + intros [a [b Hab]]. destruct a as [|c' a]; simpl in Hab.
      * left. now exists b.
      * right. injection Hab as _ ->. now exists a, b.
Qed.

Lemma endswith_spec s suf :
  endswith s suf = true <-> exists a, s = a ++ suf.
Proof.
  induction s as [|c s IH]; cbn [endswith].
  - rewrite orb_false_r, String.eqb_eq. split.
    + intros <-. now exists "".
    + intros [a Ha]. destruct a; simpl in Ha; [assumption | discriminate].
  - rewrite orb_true_iff, String.eqb_eq, IH. split.
    + intros [<- | [a ->]]; [now exists "" | now exists (String c a)].
    + intros [a Ha]. destruct a as [|c' a]; simpl in Ha.
      * now left.
      * right. injection Ha as _ ->. now exists a.
Qed.

(** [lstrip] removes a prefix of whitespace, as long a one as there is. *)
Lemma lstrip_spec s :
  exists ws, s = ws ++ lstrip s /\ all_space ws = true
             /\ startswith_space (lstrip s) = false.
Proof.
  induction s as [|c s (ws & Hs & Hws & Hne)]; cbn [lstrip].
  - now exists "".
  - destruct (isspace c) eqn:Ec.
    + exists (String c ws). cbn. rewrite Ec, Hws. now rewrite <- Hs.
    + exists "". cbn. now rewrite Ec.
Qed.

Lemma lstrip_app_space ws s :
  all_space ws = true -> lstrip (ws ++ s) = lstrip s.
Proof.
  induction ws as [|c ws IH]; cbn; [reflexivity|].
  intros H. apply andb_true_iff in H as [-> H]. auto.
Qed.

Lemma rstrip_cons_nonspace c s :
  isspace c = false -> rstrip (String c s) = String c (rstrip s).
Proof.
  intros Hc. cbn [rstrip]. rewrite Hc. now destruct (rstrip s).
Qed.

(** [rstrip] removes a suffix. *)
Lemma rstrip_spec s : exists ws, s = rstrip s ++ ws /\ all_space ws = true.
Proof.
  induction s as [|c s (ws & Hs & Hws)]; cbn [rstrip].
  - now exists "".
  - destruct (rstrip s) eqn:Er.
    + cbn in Hs. subst ws. destruct (isspace c) eqn:Ec.
      * exists (String c s). cbn. now rewrite Ec.
      * now exists s.
    + exists ws. split; [|assumption]. cbn [append]. now f_equal.
Qed.

(** A prefix without whitespace survives [rstrip], and [rstrip] brings none
    in. *)
Lemma startswith_rstrip s p :
  no_space p = true -> startswith (rstrip s) p = startswith s p.
Proof.
  revert s; induction p as [|a p IH]; intros s Hp; [reflexivity|].
  cbn in Hp. apply andb_true_iff in Hp as [Ha Hp].
  apply negb_true_iff in Ha.
  destruct s as [|b s]; [reflexivity|].
  destruct (Ascii.eqb a b) eqn:Eab.
  - apply Ascii.eqb_eq in Eab. subst b.
    rewrite rstrip_cons_nonspace by assumption. cbn. now rewrite IH.
  - cbn [rstrip]. destruct (rstrip s); [destruct (isspace b)|]; cbn;
      try rewrite Eab; reflexivity.
Qed.

Lemma startswith_strip s p :
  no_space p = true -> startswith (strip s) p = startswith (lstrip s) p.
Proof. intros Hp. unfold strip. now apply startswith_rstrip. Qed.

(** *** More on [strip] and on suffixes *)

Lemma lstrip_all_space ws : all_space ws = true -> lstrip ws = "".
Proof.
  induction ws as [|c ws IH]; cbn; [reflexivity|].
  intros H. apply andb_true_iff in H as [-> H]. auto.
Qed.

Lemma rstrip_all_space ws : all_space ws = true -> rstrip ws = "".
Proof.
  induction ws as [|c ws IH]; cbn; [reflexivity|].
  intros H. apply andb_true_iff in H as [-> H]. now rewrite IH.
Qed.

Lemma rstrip_app_space s ws : all_space ws = true -> rstrip (s ++ ws) = rstrip s.
Proof.
  intros H. induction s as [|c s IH]; cbn [append rstrip].
  - now apply rstrip_all_space.
  - now rewrite IH.
Qed.

(** Whitespace around a text does not show after [strip]. *)
Lemma strip_app_space ws s ws' :
  all_space ws = true -> all_space ws' = true ->
  strip (ws ++ s ++ ws') = strip s.
Proof.
  intros H H'. unfold strip. rewrite lstrip_app_space by assumption.
  induction s as [|c s IH]; cbn [append lstrip].
  - now rewrite (lstrip_all_space _ H').
  - destruct (isspace c); [exact IH|].
    now rewrite <- (rstrip_app_space (String c s) ws' H').
Qed.

(** [strip] gives a part of the text. *)
Lemma strip_inside s : exists a b, s = a ++ strip s ++ b.
Proof.
  destruct (lstrip_spec s) as (ws & Hs & _).
  destruct (rstrip_spec (lstrip s)) as (ws' & Hs' & _).
  exists ws, ws'. unfold strip. now rewrite <- Hs'.
Qed.

Lemma contains_strip sub s :
  contains sub (strip s) = true -> contains sub s = true.
Proof.
  rewrite !contains_spec. intros (a & b & H).
  destruct (strip_inside s) as (x & y & Hs).
  exists (x ++ a), (b ++ y). rewrite Hs at 1. rewrite H.
  now rewrite !append_assoc.
Qed.

Lemma contains_false_strip sub s :
  contains sub s = false -> contains sub (strip s) = false.
Proof.
  intros H. destruct (contains sub (strip s)) eqn:E; [|reflexivity].
  apply contains_strip in E. congruence.
Qed.

(** A text has one last character. *)
Lemma endswith_char_unique s c c' :
  endswith s (String c "") = true -> endswith s (String c' "") = true -> c = c'.
Proof.
  induction s as [|x r IH]; cbn [endswith]; [discriminate|].
  destruct r as [|y r].
  - cbn. rewrite !orb_false_r.
    destruct (Ascii.eqb_spec x c), (Ascii.eqb_spec x c'); try discriminate.
    congruence.
  - replace (String.eqb (String x (String y r)) (String c "")) with false
      by (cbn; now destruct (Ascii.eqb x c)).
    replace (String.eqb (String x (String y r)) (String c' "")) with false
      by (cbn; now destruct (Ascii.eqb x c')).
    exact IH.
Qed.

Lemma endswith_app s a b : endswith s (a ++ b) = true -> endswith s b = true.
Proof.
  rewrite !endswith_spec. intros [x ->]. exists (x ++ a).
  now rewrite append_assoc.
Qed.

End PyStrFacts.

Module FiltersFacts.
Import PyStr Filters.

Lemma sln_line_outside line :
  sln_line false line =
  if opens_region (strip line)
  then (false, negb (closes_region (strip line)))
  else (true, false).
Proof.
  unfold sln_line. destruct (opens_region (strip line)); cbn.
  - now destruct (closes_region (strip line)).
  - reflexivity.
Qed.

Lemma sln_line_inside line :
  sln_line true line = (false, negb (closes_region (strip line))).
Proof.
  unfold sln_line. destruct (opens_region (strip line)); cbn;
    now destruct (closes_region (strip line)).
Qed.

Lemma sln_line_machine b line :
  sln_line b line =
  (fst (machine_step (region_of b) line),
   match snd (machine_step (region_of b) line) with
   | Inside => true
   | Outside => false
   end).
Proof.
  destruct b; cbn [region_of machine_step].
  - rewrite sln_line_inside. now destruct (closes_region (strip line)).
  - rewrite sln_line_outside.
    destruct (opens_region (strip line)); [|reflexivity].
    now destruct (closes_region (strip line)).
Qed.

Lemma sln_loop_machine b lines :
  fst (sln_loop b lines) = run_machine machine_step (region_of b) lines.
Proof.
  revert b; induction lines as [|line rest IH]; intros b; [reflexivity|].
  cbn [sln_loop run_machine]. rewrite sln_line_machine.
  destruct (machine_step (region_of b) line) as [copied st]. cbn [fst snd].
  specialize (IH (match st with Inside => true | Outside => false end)).
  destruct (sln_loop _ rest) as [out final]. cbn [fst] in *.
  replace (region_of match st with Inside => true | Outside => false end)
    with st in IH by now destruct st.
  now rewrite IH.
Qed.

(** The loop on a concatenation: the second part runs from the flag the
    first part leaves. *)
Lemma sln_loop_app b l1 l2 :
  sln_loop b (l1 ++ l2) =
  (fst (sln_loop b l1) ++ fst (sln_loop (snd (sln_loop b l1)) l2),
   snd (sln_loop (snd (sln_loop b l1)) l2)).
Proof.
  revert b; induction l1 as [|line rest IH]; intros b.
  - cbn. now destruct (sln_loop b l2).
  - cbn [app sln_loop]. destruct (sln_line b line) as [written flag].
    rewrite IH. destruct (sln_loop flag rest) as [o1 b1]. cbn [fst snd].
    now destruct written.
Qed.

(** Outside the region, lines that do not open it are all written and the
    flag stays down. *)
Lemma sln_loop_no_opener lines :
  Forall not_opener lines -> sln_loop false lines = (lines, false).
Proof.
  induction 1 as [|line rest Hl _ IH]; [reflexivity|].
  cbn [sln_loop]. rewrite sln_line_outside. unfold not_opener in Hl.
  now rewrite Hl, IH.
Qed.

(** Inside the region, lines that do not close it are all dropped and the
    flag stays up. *)
Lemma sln_loop_no_closer lines :
  Forall not_closer lines -> sln_loop true lines = ([], true).
Proof.
  induction 1 as [|line rest Hl _ IH]; [reflexivity|].
  cbn [sln_loop]. rewrite sln_line_inside. unfold not_closer in Hl.
  rewrite Hl. cbn [negb]. now rewrite IH.
Qed.

(** No line that is written opens the region. *)
Lemma sln_loop_output_no_opener b lines :
  Forall not_opener (fst (sln_loop b lines)).
Proof.
  revert b; induction lines as [|line rest IH]; intros b; [constructor|].
  cbn [sln_loop]. destruct (sln_line b line) as [written flag] eqn:E.
  specialize (IH flag). destruct (sln_loop flag rest) as [out final].
  cbn [fst] in *. destruct written; [|assumption].
  constructor; [|assumption].
  destruct b.
  - rewrite sln_line_inside in E. discriminate.
  - rewrite sln_line_outside in E. unfold not_opener.
    destruct (opens_region (strip line)); [discriminate | reflexivity].
Qed.

Lemma sln_filter_idempotent lines :
  sln_filter (sln_filter lines) = sln_filter lines.
Proof.
  unfold sln_filter.
  now rewrite (sln_loop_no_opener _ (sln_loop_output_no_opener false lines)).
Qed.

Lemma proj_filter_is_filter lines :
  proj_filter lines = filter proj_line lines.
Proof.
  induction lines as [|line rest IH]; [reflexivity|].
  cbn. now rewrite IH.
Qed.

Lemma Forall_proj_filter (A : string -> Prop) lines :
  Forall A lines -> Forall A (proj_filter lines).
Proof.
  induction 1 as [|line rest Hl _ IH]; [constructor|].
  cbn. destruct (proj_line line); [now constructor | assumption].
Qed.

Lemma proj_filter_all lines :
  Forall (fun line => proj_line line = true) (proj_filter lines).
Proof.
  induction lines as [|line rest IH]; [constructor|].
  cbn. destruct (proj_line line) eqn:E; [now constructor | assumption].
Qed.

Lemma proj_filter_fix lines :
  Forall (fun line => proj_line line = true) lines ->
  proj_filter lines = lines.
Proof.
  induction 1 as [|line rest Hl _ IH]; [reflexivity|].
  cbn. now rewrite Hl, IH.
Qed.

Lemma proj_filter_idempotent lines :
  proj_filter (proj_filter lines) = proj_filter lines.
Proof.
  induction lines as [|line rest IH]; [reflexivity|].
  cbn [proj_filter]. destruct (proj_line line) eqn:E; [|assumption].
  cbn [proj_filter]. now rewrite E, IH.
Qed.

(** A region that is dropped: from an opening line to the first line, that
    line or a later one, that contains the closing marker. *)
Lemma sln_loop_region body cl :
  begins_with_opener (body ++ [cl]) ->
  Forall not_closer body ->
  closes_region (strip cl) = true ->
  sln_loop false (body ++ [cl]) = ([], false).
Proof.
  intros Hop Hbody Hcl. destruct body as [|op mid].
  - cbn in Hop. cbn [app sln_loop]. rewrite sln_line_outside, Hop, Hcl.
    reflexivity.
  - cbn in Hop. inversion Hbody as [|? ? Hop' Hmid]; subst.
    cbn [app sln_loop]. rewrite sln_line_outside, Hop, Hop'. cbn [negb].
    rewrite sln_loop_app, (sln_loop_no_closer _ Hmid). cbn [fst snd sln_loop].
    rewrite sln_line_inside, Hcl. reflexivity.
Qed.

Lemma proj_line_scc_tag_line line :
  proj_line line = false <-> scc_tag_line line.
Proof.
  unfold proj_line, scc_tag_line.
  rewrite negb_false_iff, PyStrFacts.startswith_strip by reflexivity.
  rewrite PyStrFacts.startswith_spec. split.
  - intros [r Hr]. destruct (PyStrFacts.lstrip_spec line) as (ws & Hl & Hws & _).
    exists ws, r. now rewrite <- Hr.
  - intros (ws & r & -> & Hws). exists r.
    rewrite PyStrFacts.lstrip_app_space by assumption. reflexivity.
Qed.

(** C1, as amended. The filter of [_update_sln] is the two-state machine
    that starts outside the region, copies a line seen outside unless the
    line opens the region, drops every line seen inside, and is outside again
    after a line that contains the closing marker, be that line seen inside
    or be it the opening line itself. So the lines from an opening line to
    the first line that contains the closing marker, that opening line or a
    later one, are removed: when no line before them opens a region, the
    output is the lines before them, verbatim, and then the output for the
    lines after them. *)
Theorem sln_filter_two_state :
  (forall lines, sln_filter lines = machine_filter lines)
  /\ (forall pre body cl rest,
        Forall not_opener pre ->
        begins_with_opener (body ++ [cl]) ->
        Forall not_closer body ->
        closes_region (strip cl) = true ->
        sln_filter (pre ++ (body ++ [cl]) ++ rest) = pre ++ sln_filter rest).
Proof.
  split.
  - intros lines. apply (sln_loop_machine false).
  - intros pre body cl rest Hpre Hop Hbody Hcl. unfold sln_filter.
    rewrite sln_loop_app, (sln_loop_no_opener _ Hpre). cbn [fst snd].
    rewrite sln_loop_app, (sln_loop_region _ _ Hop Hbody Hcl).
    reflexivity.
Qed.

Lemma sln_filter_two_state_witness :
  sln_filter
    (["Global"] ++ (["GlobalSection(VersionControl)"; "Scc = 1"]
                     ++ ["EndGlobalSection"]) ++ ["EndGlobal"])
  = ["Global"] ++ sln_filter ["EndGlobal"].
Proof.
  apply (proj2 sln_filter_two_state).
  - repeat constructor.
  - reflexivity.
  - repeat constructor.
  - reflexivity.
Defined.

(** C1 as it is written fails: on an opening line that contains the closing
    marker the machine of the specification goes inside the region and drops
    the next line, which the program copies. *)
Lemma spec_sln_filter_differs :
  sln_filter [one_line_region; "Project"] = ["Project"]
  /\ spec_sln_filter [one_line_region; "Project"] = []
  /\ sln_filter [one_line_region; "Project"]
     <> spec_sln_filter [one_line_region; "Project"].
Proof. repeat split. discriminate. Qed.

(** C4. The filter of [_update_proj] drops the lines whose trimmed content
    begins with [<Scc], which are the lines made of whitespace, [<Scc] and
    anything, and keeps every other line as it is, in order. *)
Theorem proj_filter_drops_scc_lines :
  (forall lines,
     proj_filter lines
     = filter (fun line => negb (startswith (strip line) "<Scc")) lines)
  /\ (forall lines line,
        In line (proj_filter lines) <->
        In line lines /\ ~ scc_tag_line line).
Proof.
  split.
  - intros lines. apply proj_filter_is_filter.
  - intros lines line. rewrite proj_filter_is_filter, filter_In.
    rewrite <- proj_line_scc_tag_line.
    now destruct (proj_line line).
Qed.

(** The prefix is matched with its case, and a line that is kept keeps its
    whitespace. *)
Example proj_filter_case_and_whitespace :
  proj_filter ["  <SccProjectName>Foo</SccProjectName>  ";
               "  <sccProjectName>Foo</sccProjectName>  ";
               "   <PropertyGroup>   "]
  = ["  <sccProjectName>Foo</sccProjectName>  "; "   <PropertyGroup>   "].
Proof. reflexivity. Qed.

(** C5, as amended. When a line opens the region and neither that line nor
    any later line contains the closing marker, the opening line and all the
    lines after it are dropped: the output is that of the lines before. *)
Theorem sln_filter_unclosed_region pre op rest :
  opens_region (strip op) = true ->
  Forall not_closer (op :: rest) ->
  sln_filter (pre ++ op :: rest) = sln_filter pre.
Proof.
  intros Hop Hnc. inversion Hnc as [|? ? Hop' Hrest]; subst.
  unfold not_closer in Hop'. unfold sln_filter.
  rewrite sln_loop_app. cbn [fst sln_loop].
  assert (E : sln_line (snd (sln_loop false pre)) op = (false, true)).
  { destruct (snd (sln_loop false pre)).
    - now rewrite sln_line_inside, Hop'.
    - now rewrite sln_line_outside, Hop, Hop'. }
  rewrite E, (sln_loop_no_closer _ Hrest). apply app_nil_r.
Qed.

Lemma sln_filter_unclosed_region_witness :
  sln_filter (["Global"] ++ "GlobalSection(VersionControl)" :: ["Scc = 1"])
  = sln_filter ["Global"].
Proof.
  apply sln_filter_unclosed_region.
  - reflexivity.
  - repeat constructor.
Defined.

(** C5 as it is written fails: the opening line may itself contain the
    closing marker, and then the lines after it are copied although none of
    them contains the marker. *)
Lemma unclosed_region_counterexample :
  opens_region (strip one_line_region) = true
  /\ Forall not_closer ["Project"]
  /\ sln_filter ([] ++ one_line_region :: ["Project"]) <> sln_filter [].
Proof. repeat split. - repeat constructor. - discriminate. Qed.

(** C10. A line that opens the region and contains the closing marker is
    dropped and leaves the flag down, whatever the flag was. Only that line
    goes on its account: the lines after it are filtered as from the top of
    a file, so that those up to the next opening line are written as they
    are, and in a file with no other opening line every other line is
    written, in order. *)
Theorem sln_one_line_region b pre line rest :
  opens_region (strip line) = true ->
  closes_region (strip line) = true ->
  sln_line b line = (false, false)
  /\ sln_filter (pre ++ line :: rest) = sln_filter pre ++ sln_filter rest
  /\ (forall keep rest',
        rest = keep ++ rest' -> Forall not_opener keep ->
        sln_filter (pre ++ line :: rest)
        = sln_filter pre ++ keep ++ sln_filter rest')
  /\ (Forall not_opener pre -> Forall not_opener rest ->
      sln_filter (pre ++ line :: rest) = pre ++ rest).
Proof.
  intros Hop Hcl.
  assert (E : forall b', sln_line b' line = (false, false)).
  { intros [|]; [rewrite sln_line_inside | rewrite sln_line_outside, Hop];
      now rewrite Hcl. }
  assert (S : sln_filter (pre ++ line :: rest)
              = sln_filter pre ++ sln_filter rest).
  { unfold sln_filter. rewrite sln_loop_app. cbn [fst sln_loop]. rewrite E.
    now destruct (sln_loop false rest). }
  split; [apply E|]. split; [exact S|]. split.
  - intros keep rest' -> Hkeep. rewrite S. f_equal.
    unfold sln_filter. rewrite sln_loop_app.
    now rewrite (sln_loop_no_opener keep Hkeep).
  - intros Hpre Hrest. rewrite S. unfold sln_filter.
    now rewrite (sln_loop_no_opener pre Hpre), (sln_loop_no_opener rest Hrest).
Qed.

Lemma sln_one_line_region_witness :
  sln_line true one_line_region = (false, false)
  /\ sln_filter (["Global"] ++ one_line_region :: ["Project"; "EndGlobal"])
     = ["Global"] ++ ["Project"; "EndGlobal"].
Proof.
  destruct (sln_one_line_region true ["Global"] one_line_region
              ["Project"; "EndGlobal"] eq_refl eq_refl) as (H1 & _ & _ & H4).
  split; [exact H1|]. apply H4; repeat constructor.
Defined.

(** *** The filters on whole files *)

Lemma sln_loop_subseq b lines : subseq (fst (sln_loop b lines)) lines.
Proof.
  revert b; induction lines as [|line rest IH]; intros b; [constructor|].
  cbn [sln_loop]. destruct (sln_line b line) as [written flag].
  specialize (IH flag). destruct (sln_loop flag rest) as [out final].
  cbn [fst] in *. destruct written; now constructor.
Qed.

Lemma proj_filter_subseq lines : subseq (proj_filter lines) lines.
Proof.
  induction lines as [|line rest IH]; [constructor|].
  cbn. destruct (proj_line line); now constructor.
Qed.

(** X1. The two filters only leave lines out: what they write is the
    input with some lines removed, so that no line is changed, added or
    moved. *)
Theorem filters_only_leave_out :
  (forall lines, subseq (sln_filter lines) lines)
  /\ (forall lines, subseq (proj_filter lines) lines).
Proof.
  split.
  - intros lines. apply (sln_loop_subseq false).
  - intros lines. apply proj_filter_subseq.
Qed.

(** X2. On lines without binding the two loops write every line they read:
    the lines written are the lines read, in order, when no line contains
    [VersionControl] (solution loop) and when no line contains [<Scc]
    (project loop). This is about the lines as the iteration over the file
    yields them, not about the line ends on disk. *)
Theorem filters_leave_unbound_files :
  (forall lines,
     Forall (fun line => contains "VersionControl" line = false) lines ->
     sln_filter lines = lines)
  /\ (forall lines,
        Forall (fun line => contains "<Scc" line = false) lines ->
        proj_filter lines = lines).
Proof.
  split; intros lines H.
  - unfold sln_filter. rewrite sln_loop_no_opener; [reflexivity|].
    eapply Forall_impl; [|exact H]. intros line Hl.
    unfold not_opener, opens_region.
    rewrite (PyStrFacts.contains_false_strip _ _ Hl). apply andb_false_r.
  - apply proj_filter_fix.
    eapply Forall_impl; [|exact H]. intros line Hl. unfold proj_line.
    apply negb_true_iff.
    destruct (startswith (strip line) "<Scc") eqn:E; [|reflexivity].
    apply PyStrFacts.startswith_spec in E as [r Hr].
    assert (C : contains "<Scc" (strip line) = true)
      by (apply PyStrFacts.contains_spec; exists "", r; exact Hr).
    apply PyStrFacts.contains_strip in C. congruence.
Qed.

Lemma filters_leave_unbound_files_witness :
  sln_filter ["Global"; "  GlobalSection(SolutionProperties) = preSolution";
              "  EndGlobalSection"; "EndGlobal"]
  = ["Global"; "  GlobalSection(SolutionProperties) = preSolution";
     "  EndGlobalSection"; "EndGlobal"]
  /\ proj_filter ["<Project>"; "  <Compile Include=A.cs />"; "</Project>"]
     = ["<Project>"; "  <Compile Include=A.cs />"; "</Project>"].
Proof.
  split.
  - apply (proj1 filters_leave_unbound_files). repeat constructor.
  - apply (proj2 filters_leave_unbound_files). repeat constructor.
Defined.

(** X3. Whitespace before and after a line, such as its indentation and its
    line end, has no part in what the two loops decide on the line. *)
Theorem line_tests_ignore_surrounding_whitespace ws line ws' :
  all_space ws = true -> all_space ws' = true ->
  (forall b, sln_line b (ws ++ line ++ ws') = sln_line b line)
  /\ proj_line (ws ++ line ++ ws') = proj_line line.
Proof.
  intros H H'. unfold sln_line, proj_line.
  now rewrite (PyStrFacts.strip_app_space ws line ws' H H').
Qed.

Lemma line_tests_ignore_surrounding_whitespace_witness :
  (forall b,
     sln_line b ("    " ++ "GlobalSection(VersionControl)" ++ "  ")
     = sln_line b "GlobalSection(VersionControl)")
  /\ proj_line ("    " ++ "<SccProjectName>" ++ "  ")
     = proj_line "<SccProjectName>".
Proof.
  split.
  - apply (line_tests_ignore_surrounding_whitespace "    " _ "  "); reflexivity.
  - apply (line_tests_ignore_surrounding_whitespace "    " _ "  "); reflexivity.
Defined.

End FiltersFacts.

Module OSFacts.
Import PyStr OS.

(** *** Splitting and joining on the slash *)

Lemma split_slash_nonnil s : split_slash s <> [].
Proof.
  destruct s as [|c r]; cbn; [discriminate|].
  destruct (Ascii.eqb c "/"); [discriminate|].
  destruct (split_slash r); discriminate.
Qed.

Lemma split_slash_no_slash n : no_slash n = true -> split_slash n = [n].
Proof.
  induction n as [|c r IH]; cbn; [reflexivity|].
  intros H. apply andb_true_iff in H as [Hc Hr].
  apply negb_true_iff in Hc. now rewrite Hc, IH.
Qed.

Lemma split_slash_app_slash a b :
  split_slash (a ++ String "/" b) = split_slash a ++ split_slash b.
Proof.
  induction a as [|c a IH]; cbn [append split_slash].
  - reflexivity.
  - rewrite IH. destruct (Ascii.eqb c "/"); [reflexivity|].
    pose proof (split_slash_nonnil a).
    destruct (split_slash a); [contradiction | reflexivity].
Qed.

Lemma valid_name_no_slash n : valid_name n = true -> no_slash n = true.
Proof. unfold valid_name. intros H. now apply andb_true_iff in H as [_ H]. Qed.

Lemma valid_name_nonempty n : valid_name n = true -> n <> "".
Proof.
  unfold valid_name. intros H ->. discriminate.
Qed.

Lemma valid_name_plain n :
  valid_name n = true ->
  String.eqb n "" || String.eqb n "." = false /\ String.eqb n ".." = false.
Proof.
  unfold valid_name. intros H.
  apply andb_true_iff in H as [H _]. apply andb_true_iff in H as [H H2].
  apply andb_true_iff in H as [H0 H1].
  apply negb_true_iff in H0, H1, H2. now rewrite H0, H1, H2.
Qed.

Lemma join_slash_cons n c :
  c <> [] -> join_slash (n :: c) = (n ++ String "/" (join_slash c))%string.
Proof. destruct c; [contradiction | reflexivity]. Qed.

Lemma split_slash_join_slash c :
  Forall (fun n => valid_name n = true) c -> c <> [] ->
  split_slash (join_slash c) = c.
Proof.
  induction 1 as [|n c Hn Hc IH]; [contradiction|]. intros _.
  destruct c as [|m c].
  - apply split_slash_no_slash, valid_name_no_slash, Hn.
  - rewrite join_slash_cons by discriminate.
    rewrite split_slash_app_slash, IH by discriminate.
    now rewrite split_slash_no_slash by now apply valid_name_no_slash.
Qed.

Lemma split_slash_render c :
  Forall (fun n => valid_name n = true) c ->
  split_slash (render c) = "" :: match c with [] => [""] | _ => c end.
Proof.
  intros Hc. unfold render. cbn [append split_slash Ascii.eqb].
  change (Ascii.eqb "/" "/") with true. cbn iota.
  destruct c as [|n c]; [reflexivity|].
  now rewrite split_slash_join_slash.
Qed.

Lemma endswith_slash_no_slash n : no_slash n = true -> endswith n "/" = false.
Proof.
  induction n as [|c r IH]; [reflexivity|]. cbn [no_slash endswith].
  intros H. apply andb_true_iff in H as [Hc Hr]. rewrite (IH Hr).
  apply negb_true_iff in Hc. rewrite orb_false_r.
  apply String.eqb_neq. intros E. injection E as -> _. discriminate.
Qed.

Lemma endswith_slash_app a n :
  valid_name n = true -> endswith (a ++ n) "/" = false.
Proof.
  intros Hn. induction a as [|c a IH]; cbn [append].
  - now apply endswith_slash_no_slash, valid_name_no_slash.
  - cbn [endswith]. rewrite IH, orb_false_r.
    apply String.eqb_neq. intros E. injection E as _ E.
    destruct a; cbn in E; [|discriminate].
    now apply valid_name_nonempty in Hn.
Qed.

Lemma join_slash_snoc c n : exists a, join_slash (c ++ [n]) = (a ++ n)%string.
Proof.
  induction c as [|m c [a IH]]; cbn [app].
  - now exists "".
  - exists (m ++ String "/" a)%string.
    rewrite join_slash_cons by now destruct c.
    now rewrite IH, PyStrFacts.append_assoc.
Qed.

Lemma endswith_slash_render c :
  Forall (fun n => valid_name n = true) c -> c <> [] ->
  endswith (render c) "/" = false.
Proof.
  intros Hc Hne. destruct (exists_last Hne) as (c' & n & ->).
  apply Forall_app in Hc as [_ Hn]. inversion Hn; subst.
  destruct (join_slash_snoc c' n) as [a Ha]. unfold render. rewrite Ha.
  change ("/" ++ a ++ n)%string with (("/" ++ a) ++ n)%string.
  now apply endswith_slash_app.
Qed.

(** *** [normpath] on the text of a location *)

Lemma normpath_comps_valid k c rest acc :
  Forall (fun n => valid_name n = true) c ->
  normpath_comps k (c ++ rest) acc = normpath_comps k rest (acc ++ c).
Proof.
  intros Hc. revert acc. induction Hc as [|n c Hn _ IH]; intros acc; cbn [app].
  - now rewrite app_nil_r.
  - cbn [normpath_comps]. destruct (valid_name_plain n Hn) as [-> ->].
    cbn [negb orb]. rewrite IH, <- app_assoc. reflexivity.
Qed.

(** [abspath(".")] is the text of the working directory. *)
Lemma normpath_join_render_dot c :
  Forall (fun n => valid_name n = true) c ->
  normpath (join (render c) ".") = render c.
Proof.
  intros Hc. destruct c as [|n c]; [reflexivity|].
  unfold join. change (startswith "." "/") with false. cbn iota.
  change (is_empty (render (n :: c))) with false. cbn [orb].
  rewrite endswith_slash_render by (assumption || discriminate).
  unfold normpath.
  change (is_empty (render (n :: c) ++ "/" ++ ".")) with false. cbn iota.
  change (startswith (render (n :: c) ++ "/" ++ ".") "/") with true.
  cbn iota.
  assert (E : startswith (render (n :: c) ++ "/" ++ ".") "//" = false).
  { inversion Hc as [|? ? Hn _]; subst. destruct n as [|x n']; [discriminate|].
    apply valid_name_no_slash in Hn. cbn in Hn.
    apply andb_true_iff in Hn as [Hx _]. apply negb_true_iff in Hx.
    rewrite Ascii.eqb_sym in Hx.
    unfold render.
    assert (J : exists r, join_slash (String x n' :: c) = String x r)
      by (destruct c; eexists; reflexivity).
    destruct J as [r ->]. cbn [append startswith].
    now rewrite Ascii.eqb_refl, Hx. }
  rewrite E. cbn [andb].
  change (render (n :: c) ++ "/" ++ ".")%string
    with (render (n :: c) ++ String "/" ".")%string.
  rewrite split_slash_app_slash, split_slash_render by assumption.
  change (split_slash ".") with ["."].
  change (normpath_comps 1 (("" :: n :: c) ++ ["."]) [])
    with (normpath_comps 1 ((n :: c) ++ ["."]) []).
  rewrite normpath_comps_valid by assumption.
  reflexivity.
Qed.

(** *** The tree *)

Lemma get_app t p q :
  get t (p ++ q) = match get t p with Some x => get x q | None => None end.
Proof.
  revert t; induction p as [|n p IH]; intros t; cbn [app get]; [reflexivity|].
  destruct t as [|es]; [reflexivity|].
  destruct (entry_get n es); [apply IH | reflexivity].
Qed.

Lemma is_dir_prefix t p q : is_dir t (p ++ q) = true -> is_dir t p = true.
Proof.
  unfold is_dir. rewrite get_app. destruct (get t p) as [[|es]|];
    [|reflexivity|discriminate].
  destruct q; cbn; discriminate.
Qed.

Lemma walk_comps_valid t pos c :
  Forall (fun n => valid_name n = true) c ->
  is_dir t (pos ++ c) = true ->
  walk_comps t pos c = Ok (pos ++ c).
Proof.
  intros Hc. revert pos. induction Hc as [|n c Hn _ IH]; intros pos Hd.
  - now rewrite app_nil_r.
  - cbn [walk_comps]. pose proof (is_dir_prefix _ _ _ Hd) as Hp.
    unfold is_dir in Hp. destruct (get t pos) as [[|es]|]; try discriminate.
    destruct (valid_name_plain n Hn) as [-> ->].
    change (n :: c) with ([n] ++ c) in Hd |- *. rewrite app_assoc in Hd |- *.
    now apply IH.
Qed.

(** The text of an existing directory names it, whatever the working
    directory. *)
Lemma namei_render s c :
  Forall (fun n => valid_name n = true) c ->
  is_dir (root s) c = true ->
  namei s (render c) = Ok c.
Proof.
  intros Hc Hd. unfold namei. change (is_empty (render c)) with false.
  cbn iota. unfold start_of. change (isabs (render c)) with true. cbn iota.
  rewrite split_slash_render by assumption.
  set (t := root s) in *. clearbody t.
  pose proof (is_dir_prefix t [] c Hd) as Hr.
  assert (Hg : exists es, get t c = Some (Dir es)).
  { unfold is_dir in Hd. destruct (get t c) as [[|es]|];
      try discriminate. now exists es. }
  destruct Hg as [es Hg].
  destruct t as [|es0]; [discriminate|].
  destruct c as [|n c].
  - reflexivity.
  - change (walk_comps (Dir es0) [] ("" :: n :: c))
      with (walk_comps (Dir es0) [] (n :: c)).
    rewrite (walk_comps_valid (Dir es0) [] (n :: c)) by assumption.
    cbn [app]. now rewrite Hg.
Qed.

(** *** Entries of a directory *)

Lemma entry_get_set_eq n x es : entry_get n (entry_set n x es) = Some x.
Proof.
  induction es as [|[m y] es IH]; cbn.
  - now rewrite String.eqb_refl.
  - destruct (String.eqb m n) eqn:E; cbn; now rewrite E.
Qed.

Lemma entry_get_set_ne n m x es :
  n <> m -> entry_get m (entry_set n x es) = entry_get m es.
Proof.
  intros Hne. induction es as [|[k y] es IH]; cbn.
  - apply String.eqb_neq in Hne. now rewrite Hne.
  - destruct (String.eqb k n) eqn:E; cbn.
    + apply String.eqb_eq in E. subst k.
      apply String.eqb_neq in Hne. now rewrite Hne.
    + now rewrite IH.
Qed.

Lemma entry_get_del_eq n es : entry_get n (entry_del n es) = None.
Proof.
  unfold entry_del. induction es as [|[k y] es IH]; cbn; [reflexivity|].
  destruct (String.eqb k n) eqn:E; cbn; [assumption|]. now rewrite E.
Qed.

Lemma entry_get_del_ne n m es :
  n <> m -> entry_get m (entry_del n es) = entry_get m es.
Proof.
  unfold entry_del. intros Hne. induction es as [|[k y] es IH]; cbn; [reflexivity|].
  destruct (String.eqb k n) eqn:E; cbn.
  - apply String.eqb_eq in E. subst k.
    apply String.eqb_neq in Hne. now rewrite Hne.
  - now rewrite IH.
Qed.

Lemma entry_set_same n x es : entry_get n es = Some x -> entry_set n x es = es.
Proof.
  induction es as [|[k y] es IH]; cbn; [discriminate|].
  destruct (String.eqb k n); [now intros [= ->] | intros H; now rewrite IH].
Qed.

Lemma entry_del_absent n es : entry_get n es = None -> entry_del n es = es.
Proof.
  unfold entry_del. induction es as [|[k y] es IH]; cbn; [reflexivity|].
  destruct (String.eqb k n); cbn; [discriminate | intros H; now rewrite IH].
Qed.

Lemma entry_del_set n x es : entry_del n (entry_set n x es) = entry_del n es.
Proof.
  unfold entry_del. induction es as [|[k y] es IH]; cbn.
  - now rewrite String.eqb_refl.
  - destruct (String.eqb k n) eqn:E; cbn; rewrite E; cbn; [reflexivity|].
    now rewrite IH.
Qed.

Lemma entry_set_set n x y es :
  entry_set n y (entry_set n x es) = entry_set n y es.
Proof.
  induction es as [|[k z] es IH]; cbn.
  - now rewrite String.eqb_refl.
  - destruct (String.eqb k n) eqn:E; cbn; rewrite E; [reflexivity|].
    now rewrite IH.
Qed.

(** *** Locations after an update *)

Lemma shape_cons es m q :
  shape (Dir es) (m :: q)
  = match entry_get m es with Some x => shape x q | None => Missing end.
Proof. unfold shape. cbn. now destruct (entry_get m es). Qed.

Lemma strip_prefix_app d r : strip_prefix d (d ++ r) = Some r.
Proof.
  induction d as [|a d IH]; cbn; [reflexivity|]. now rewrite String.eqb_refl.
Qed.

Lemma strip_prefix_Some d q r : strip_prefix d q = Some r -> q = d ++ r.
Proof.
  revert q; induction d as [|a d IH]; intros q; cbn.
  - now intros [= ->].
  - destruct q as [|b q]; [discriminate|].
    destruct (String.eqb a b) eqn:E; [|discriminate].
    apply String.eqb_eq in E. subst b. intros H. now rewrite (IH _ H).
Qed.

(** An update of the directory at [d] shows only strictly below [d]. *)
Lemma shape_update t d f q :
  shape (update t d f) q
  = match strip_prefix d q, get t d with
    | Some (m :: r), Some (Dir es) => shape (Dir (f es)) (m :: r)
    | _, _ => shape t q
    end.
Proof.
  revert t q; induction d as [|n d IH]; intros t q.
  - cbn [update strip_prefix get]. destruct t as [c|es].
    + now destruct q.
    + now destruct q.
  - cbn [update]. destruct t as [c|es].
    + cbn [get]. now destruct (strip_prefix (n :: d) q) as [[|]|].
    + cbn [get]. destruct (entry_get n es) as [x|] eqn:Ex.
      2:{ now destruct (strip_prefix (n :: d) q) as [[|]|]. }
      destruct q as [|m q]; [reflexivity|].
      cbn [strip_prefix]. rewrite !shape_cons.
      destruct (String.eqb n m) eqn:E.
      * apply String.eqb_eq in E. subst m.
        rewrite entry_get_set_eq, Ex. apply IH.
      * apply String.eqb_neq in E. now rewrite entry_get_set_ne.
Qed.

Lemma update_update t d f g :
  update (update t d f) d g = update t d (fun es => g (f es)).
Proof.
  revert t; induction d as [|n d IH]; intros t; cbn [update].
  - now destruct t.
  - destruct t as [c|es]; [reflexivity|].
    destruct (entry_get n es) as [x|] eqn:Ex; cbn [update].
    + now rewrite entry_get_set_eq, IH, entry_set_set.
    + now rewrite Ex.
Qed.

Lemma update_id t d f :
  (forall es, get t d = Some (Dir es) -> f es = es) -> update t d f = t.
Proof.
  revert t; induction d as [|n d IH]; intros t Hf; cbn [update].
  - destruct t as [c|es]; [reflexivity|]. now rewrite Hf.
  - destruct t as [c|es]; [reflexivity|].
    destruct (entry_get n es) as [x|] eqn:Ex; [|reflexivity].
    rewrite IH.
    + now rewrite entry_set_same.
    + intros es' H. apply Hf. cbn. now rewrite Ex.
Qed.

Lemma update_ext t d f g :
  (forall es, get t d = Some (Dir es) -> f es = g es) ->
  update t d f = update t d g.
Proof.
  revert t; induction d as [|n d IH]; intros t Hf; cbn [update].
  - destruct t as [c|es]; [reflexivity|]. now rewrite Hf.
  - destruct t as [c|es]; [reflexivity|].
    destruct (entry_get n es) as [x|] eqn:Ex; [|reflexivity].
    rewrite (IH x); [reflexivity|].
    intros es' H. apply Hf. cbn. now rewrite Ex.
Qed.

Lemma get_update_self t d f es :
  get t d = Some (Dir es) -> get (update t d f) d = Some (Dir (f es)).
Proof.
  revert t; induction d as [|n d IH]; intros t; cbn [update get].
  - now intros [= ->].
  - destruct t as [c|es0]; [discriminate|].
    destruct (entry_get n es0) as [x|] eqn:Ex; [|discriminate].
    intros H. cbn [get]. rewrite entry_get_set_eq. now apply IH.
Qed.

(** *** Well-formed trees *)

Lemma wf_node_Dir es :
  wf_node (Dir es) = nodupb (map fst es) && wf_children es.
Proof. reflexivity. Qed.

Lemma name_in_entry_get k es :
  name_in k es = match entry_get k es with Some _ => true | None => false end.
Proof.
  unfold name_in. induction es as [|[m y] es IH]; cbn; [reflexivity|].
  rewrite String.eqb_sym. destruct (String.eqb m k); [reflexivity | apply IH].
Qed.

Lemma name_in_entry_set k n x es :
  name_in k (entry_set n x es) = name_in k es || String.eqb k n.
Proof.
  rewrite !name_in_entry_get. destruct (String.eqb k n) eqn:E.
  - apply String.eqb_eq in E. subst k. rewrite entry_get_set_eq.
    now rewrite orb_true_r.
  - apply String.eqb_neq in E. rewrite entry_get_set_ne by congruence.
    now rewrite orb_false_r.
Qed.

Lemma name_in_entry_del k n es :
  name_in k (entry_del n es) = name_in k es && negb (String.eqb k n).
Proof.
  rewrite !name_in_entry_get. destruct (String.eqb k n) eqn:E.
  - apply String.eqb_eq in E. subst k. rewrite entry_get_del_eq.
    now rewrite andb_false_r.
  - apply String.eqb_neq in E. rewrite entry_get_del_ne by congruence.
    now rewrite andb_true_r.
Qed.

Lemma wf_node_cons k y es :
  wf_node (Dir ((k, y) :: es))
  = negb (name_in k es) && valid_name k && wf_node y && wf_node (Dir es).
Proof.
  rewrite !wf_node_Dir. cbn. unfold name_in, wf_children.
  destruct (existsb (String.eqb k) (map fst es)), (valid_name k), (wf_node y),
    (nodupb (map fst es)); reflexivity.
Qed.

Lemma wf_node_cons_inv k y es :
  wf_node (Dir ((k, y) :: es)) = true ->
  name_in k es = false /\ valid_name k = true /\ wf_node y = true
  /\ wf_node (Dir es) = true.
Proof.
  rewrite wf_node_cons. intros H.
  apply andb_true_iff in H as [H H4]. apply andb_true_iff in H as [H H3].
  apply andb_true_iff in H as [H1 H2]. apply negb_true_iff in H1. auto.
Qed.

Lemma wf_entry_set n x es :
  wf_node (Dir es) = true -> valid_name n = true -> wf_node x = true ->
  wf_node (Dir (entry_set n x es)) = true.
Proof.
  intros Hes Hn Hx. induction es as [|[k y] es IH].
  - cbn. now rewrite Hn, Hx.
  - apply wf_node_cons_inv in Hes as (Hk & Hkv & Hy & Hes).
    specialize (IH Hes). cbn [entry_set]. destruct (String.eqb k n) eqn:E.
    + rewrite wf_node_cons. now rewrite Hk, Hkv, Hx, Hes.
    + rewrite wf_node_cons, name_in_entry_set, E, Hk, Hkv, Hy, IH.
      reflexivity.
Qed.

Lemma wf_entry_del n es :
  wf_node (Dir es) = true -> wf_node (Dir (entry_del n es)) = true.
Proof.
  intros Hes. induction es as [|[k y] es IH]; [reflexivity|].
  apply wf_node_cons_inv in Hes as (Hk & Hkv & Hy & Hes).
  specialize (IH Hes).
  change (entry_del n ((k, y) :: es))
    with (if negb (String.eqb k n) then (k, y) :: entry_del n es
          else entry_del n es).
  destruct (negb (String.eqb k n)); [|assumption].
  rewrite wf_node_cons, name_in_entry_del, Hk, Hkv, Hy, IH. reflexivity.
Qed.

Lemma wf_entry_get n x es :
  wf_node (Dir es) = true -> entry_get n es = Some x ->
  valid_name n = true /\ wf_node x = true.
Proof.
  intros Hes. induction es as [|[k y] es IH]; cbn; [discriminate|].
  apply wf_node_cons_inv in Hes as (Hk & Hkv & Hy & Hes).
  destruct (String.eqb k n) eqn:E.
  - apply String.eqb_eq in E. subst k. now intros [= <-].
  - now apply IH.
Qed.

(** What a well-formed tree holds is well formed, under valid names. *)
Lemma wf_get t q x :
  wf_node t = true -> get t q = Some x ->
  wf_node x = true /\ Forall (fun n => valid_name n = true) q.
Proof.
  revert t; induction q as [|n q IH]; intros t Ht; cbn [get].
  - intros [= <-]. auto.
  - destruct t as [c|es]; [discriminate|].
    destruct (entry_get n es) as [y|] eqn:Ey; [|discriminate].
    destruct (wf_entry_get _ _ _ Ht Ey) as [Hn Hy].
    intros H. destruct (IH _ Hy H). auto.
Qed.

Lemma wf_update t d f :
  wf_node t = true ->
  (forall es, wf_node (Dir es) = true -> wf_node (Dir (f es)) = true) ->
  wf_node (update t d f) = true.
Proof.
  intros Ht Hf. revert t Ht; induction d as [|n d IH]; intros t Ht;
    cbn [update].
  - destruct t as [c|es]; [assumption | now apply Hf].
  - destruct t as [c|es]; [assumption|].
    destruct (entry_get n es) as [x|] eqn:Ex; [|assumption].
    destruct (wf_entry_get _ _ _ Ht Ex) as [Hn Hx].
    apply wf_entry_set; auto.
Qed.

(** *** Lookup of a path that spells a location *)

Lemma walk_comps_lead t lead q :
  is_dir t [] = true -> Forall (fun c => c = "") lead ->
  walk_comps t [] (lead ++ q) = walk_comps t [] q.
Proof.
  intros Hr Hl. induction Hl as [|c lead -> _ IH]; [reflexivity|].
  cbn [app walk_comps]. unfold is_dir in Hr.
  destruct (get t []) as [[|es]|]; try discriminate. exact IH.
Qed.

Lemma walk_comps_exists t pos c :
  Forall (fun n => valid_name n = true) c ->
  get t (pos ++ c) <> None ->
  walk_comps t pos c = Ok (pos ++ c).
Proof.
  intros Hc. revert pos. induction Hc as [|n c Hn _ IH]; intros pos Hg.
  - now rewrite app_nil_r.
  - cbn [walk_comps]. pose proof Hg as Hg'. rewrite get_app in Hg'.
    destruct (get t pos) as [[l|es]|]; try contradiction.
    destruct (valid_name_plain n Hn) as [-> ->].
    change (n :: c) with ([n] ++ c) in Hg |- *.
    rewrite app_assoc in Hg |- *. now apply IH.
Qed.

Lemma walk_comps_Ok t pos c p :
  Forall (fun n => valid_name n = true) c ->
  walk_comps t pos c = Ok p -> p = pos ++ c.
Proof.
  intros Hc. revert pos. induction Hc as [|n c Hn _ IH]; intros pos; cbn.
  - intros [= <-]. now rewrite app_nil_r.
  - destruct (get t pos) as [[l|es]|]; try discriminate.
    destruct (valid_name_plain n Hn) as [-> ->]. intros H.
    rewrite (IH _ H), <- app_assoc. reflexivity.
Qed.

Lemma namei_names_to_some s p q :
  names_to p q -> is_dir (root s) [] = true ->
  get (root s) q <> None -> namei s p = Ok q.
Proof.
  intros (Hs & Hq & lead & Hne & Hl & Hsplit) Hr Hg. unfold namei, start_of.
  unfold isabs. rewrite Hs.
  destruct p as [|c p]; [discriminate|]. cbn [is_empty].
  rewrite Hsplit, walk_comps_lead by assumption.
  rewrite (walk_comps_exists (root s) [] q) by assumption. cbn [app].
  now destruct (get (root s) q).
Qed.

Lemma namei_names_to_Ok s p q q' :
  names_to p q -> is_dir (root s) [] = true ->
  namei s p = Ok q' -> q' = q /\ get (root s) q <> None.
Proof.
  intros (Hs & Hq & lead & Hne & Hl & Hsplit) Hr. unfold namei, start_of.
  unfold isabs. rewrite Hs.
  destruct p as [|c p]; [discriminate|]. cbn [is_empty].
  rewrite Hsplit, walk_comps_lead by assumption.
  destruct (walk_comps (root s) [] q) as [pos|e] eqn:E; [|discriminate].
  apply walk_comps_Ok in E; [|assumption]. cbn in E. subst pos.
  destruct (get (root s) q); [|discriminate]. intros [= <-].
  split; [reflexivity | discriminate].
Qed.

Lemma namei_names_to_none s p q :
  names_to p q -> is_dir (root s) [] = true ->
  get (root s) q = None -> exists e, namei s p = Raise e.
Proof.
  intros Hn Hr Hg. destruct (namei s p) as [q'|e] eqn:E; [|now exists e].
  destruct (namei_names_to_Ok _ _ _ _ Hn Hr E) as [_ H]. contradiction.
Qed.

Lemma last_app_one {A} (l : list A) x d : last (l ++ [x]) d = x.
Proof. apply last_last. Qed.

Lemma namei_create_names_to s p d n :
  names_to p (d ++ [n]) -> is_dir (root s) [] = true ->
  namei_create s p
  = match get (root s) d with
    | Some (Dir _) => Ok (d, n)
    | Some (File _) => Raise NotADirectoryError
    | None =>
        match walk_comps (root s) [] d with
        | Ok _ => Raise FileNotFoundError
        | Raise e => Raise e
        end
    end.
Proof.
  intros (Hs & Hq & lead & Hne & Hl & Hsplit) Hr. unfold namei_create, start_of.
  unfold isabs. rewrite Hs.
  destruct p as [|c p]; [discriminate|]. cbn [is_empty].
  rewrite Hsplit, app_assoc, removelast_last, last_last.
  rewrite walk_comps_lead by assumption.
  apply Forall_app in Hq as [Hd Hn]. inversion Hn as [|? ? Hn' _]; subst.
  destruct (get (root s) d) as [x|] eqn:Eg.
  - rewrite (walk_comps_exists (root s) [] d) by (cbn; congruence || assumption).
    cbn [app]. rewrite Eg. destruct x; [reflexivity|].
    destruct (valid_name_plain n Hn') as [-> ->]. reflexivity.
  - destruct (walk_comps (root s) [] d) as [pos|e] eqn:E; [|reflexivity].
    apply walk_comps_Ok in E; [|assumption]. cbn in E. subst pos.
    now rewrite Eg.
Qed.

Lemma startswith_slash_app p x :
  startswith p "/" = true -> startswith (p ++ x) "/" = true.
Proof. destruct p as [|c p]; [discriminate|]. cbn. auto. Qed.

Lemma startswith_slash_valid n :
  valid_name n = true -> startswith n "/" = false.
Proof.
  intros Hn. pose proof (valid_name_nonempty _ Hn).
  apply valid_name_no_slash in Hn. destruct n as [|c n]; [contradiction|].
  cbn [no_slash] in Hn. cbn [startswith].
  apply andb_true_iff in Hn as [Hc _].
  apply negb_true_iff in Hc. rewrite Ascii.eqb_sym, Hc. reflexivity.
Qed.

Lemma names_to_unique p q q' : names_to p q -> names_to p q' -> q = q'.
Proof.
  intros (_ & Hq & lead & _ & Hl & Hs) (_ & Hq' & lead' & _ & Hl' & Hs').
  rewrite Hs in Hs'. clear Hs. revert lead' Hl' Hs'.
  induction Hl as [|c lead -> _ IH]; intros lead' Hl' Hs'.
  - destruct Hl' as [|c' lead' -> _]; [exact Hs'|].
    cbn in Hs'. subst q. inversion Hq; subst. discriminate.
  - destruct Hl' as [|c' lead' -> Hl'].
    + cbn in Hs'. subst q'. inversion Hq'; subst. discriminate.
    + injection Hs' as Hs'. now apply (IH lead').
Qed.

(** [os.path.join] goes one name down. *)
Lemma names_to_join p q n :
  names_to p q -> valid_name n = true -> names_to (join p n) (q ++ [n]).
Proof.
  intros (Hs & Hq & lead & Hne & Hl & Hsplit) Hn. unfold join.
  rewrite startswith_slash_valid by assumption.
  assert (Hp : is_empty p = false) by (destruct p; [discriminate|reflexivity]).
  rewrite Hp. cbn [orb].
  assert (Hqn : Forall (fun n => valid_name n = true) (q ++ [n]))
    by (apply Forall_app; auto).
  destruct (endswith p "/") eqn:E.
  - apply PyStrFacts.endswith_spec in E as [a ->].
    rewrite split_slash_app_slash in Hsplit. cbn [split_slash] in Hsplit.
    assert (q = []).
    { destruct q as [|x q] using rev_ind; [reflexivity|].
      rewrite app_assoc in Hsplit. apply app_inj_tail in Hsplit as [_ Hx].
      apply Forall_app in Hq as [_ Hq]. inversion Hq as [|? ? Hv _]; subst.
      discriminate. }
    subst q. rewrite app_nil_r in Hsplit.
    split; [now apply startswith_slash_app|]. split; [assumption|].
    exists (split_slash a). split; [apply split_slash_nonnil|]. split.
    + rewrite <- Hsplit in Hl. now apply Forall_app in Hl.
    + rewrite PyStrFacts.append_assoc.
      change ("/" ++ n)%string with (String "/" n).
      rewrite split_slash_app_slash.
      now rewrite (split_slash_no_slash n) by now apply valid_name_no_slash.
  - split; [now apply startswith_slash_app|]. split; [assumption|].
    exists lead. split; [assumption|]. split; [assumption|].
    change ("/" ++ n)%string with (String "/" n).
    rewrite split_slash_app_slash, Hsplit, <- app_assoc.
    now rewrite (split_slash_no_slash n) by now apply valid_name_no_slash.
Qed.

Lemma no_slash_app a b : no_slash (a ++ b) = no_slash a && no_slash b.
Proof.
  induction a as [|c a IH]; cbn; [reflexivity|].
  now rewrite IH, andb_assoc.
Qed.

Lemma valid_name_new n :
  valid_name n = true -> valid_name (n ++ ".new") = true.
Proof.
  intros Hn. apply valid_name_no_slash in Hn. unfold valid_name.
  rewrite no_slash_app, Hn.
  assert (L : 4 <= String.length (n ++ ".new")).
  { clear Hn. induction n as [|a n IH]; cbn in *; lia. }
  assert (E : forall x, String.length x < 4 ->
                        String.eqb (n ++ ".new") x = false).
  { intros x Hx. apply String.eqb_neq. intros H. rewrite H in L. lia. }
  rewrite !E by (cbn; lia). reflexivity.
Qed.

(** The temporary file of a rewrite lies next to the file. *)
Lemma join_new p n :
  valid_name n = true -> (join p n ++ ".new")%string = join p (n ++ ".new").
Proof.
  intros Hn. unfold join.
  rewrite (startswith_slash_valid _ (valid_name_new _ Hn)).
  rewrite (startswith_slash_valid _ Hn).
  destruct (is_empty p || endswith p "/"); now rewrite !PyStrFacts.append_assoc.
Qed.

Lemma names_to_joins top tpos names :
  names_to top tpos -> Forall (fun n => valid_name n = true) names ->
  names_to (joins top names) (tpos ++ names).
Proof.
  intros Ht Hn. revert top tpos Ht. unfold joins.
  induction Hn as [|n names Hn _ IH]; intros top tpos Ht; cbn [fold_left].
  - now rewrite app_nil_r.
  - change (n :: names) with ([n] ++ names). rewrite app_assoc.
    apply IH. now apply names_to_join.
Qed.

Lemma joins_snoc top names n : joins top (names ++ [n]) = join (joins top names) n.
Proof. unfold joins. now rewrite fold_left_app. Qed.

(** *** [normpath] of an absolute path spells a location *)

Lemma split_slash_comps_no_slash s :
  Forall (fun c => no_slash c = true) (split_slash s).
Proof.
  induction s as [|c s IH]; cbn [split_slash]; [repeat constructor|].
  destruct (Ascii.eqb c "/") eqn:E; [now constructor|].
  destruct (split_slash s) as [|h t]; [repeat constructor; cbn; now rewrite E|].
  inversion IH; subst. constructor; [|assumption]. cbn. now rewrite E.
Qed.

Lemma normpath_comps_absolute k comps acc :
  k <> 0 ->
  Forall (fun c => no_slash c = true) comps ->
  Forall (fun n => valid_name n = true) acc ->
  Forall (fun n => valid_name n = true) (normpath_comps k comps acc).
Proof.
  intros Hk Hc. revert acc. induction Hc as [|c comps Hc _ IH]; intros acc Ha;
    cbn [normpath_comps]; [assumption|].
  destruct (String.eqb c "" || String.eqb c ".") eqn:E1; [now apply IH|].
  destruct (String.eqb c "..") eqn:E2.
  - apply String.eqb_eq in E2. subst c. cbn [negb orb].
    destruct k; [contradiction|]. cbn [Nat.eqb andb orb].
    destruct (negb (is_nil acc) && String.eqb (last acc "") "..") eqn:E3.
    + apply andb_true_iff in E3 as [_ E3]. apply String.eqb_eq in E3.
      destruct acc as [|a acc] using rev_ind; [discriminate|].
      rewrite last_last in E3. subst a.
      apply Forall_app in Ha as [_ Ha]. inversion Ha; subst. discriminate.
    + apply IH. destruct acc as [|a acc] using rev_ind; [constructor|].
      rewrite removelast_last. now apply Forall_app in Ha as [Ha _].
  - cbn [negb orb]. apply IH. apply Forall_app. split; [assumption|].
    constructor; [|constructor]. unfold valid_name.
    apply orb_false_iff in E1 as [-> ->]. now rewrite E2, Hc.
Qed.

Lemma names_to_slashes pre q :
  pre = "/" \/ pre = "//" ->
  Forall (fun n => valid_name n = true) q ->
  names_to (pre ++ join_slash q) q.
Proof.
  intros Hpre Hq. split; [destruct Hpre as [-> | ->]; reflexivity|].
  split; [assumption|].
  destruct q as [|n q].
  - destruct Hpre as [-> | ->].
    + exists [""; ""]. repeat split; try discriminate; repeat constructor.
    + exists [""; ""; ""]. repeat split; try discriminate; repeat constructor.
  - pose proof (split_slash_join_slash (n :: q) Hq) as Hs.
    destruct Hpre as [-> | ->].
    + exists [""]. repeat split; try discriminate; [repeat constructor|].
      cbn [append split_slash]. change (Ascii.eqb "/" "/") with true.
      cbn iota. now rewrite Hs.
    + exists [""; ""]. repeat split; try discriminate; [repeat constructor|].
      cbn [append split_slash]. change (Ascii.eqb "/" "/") with true.
      cbn iota. now rewrite Hs.
Qed.

Lemma normpath_names_to p :
  startswith p "/" = true -> exists q, names_to (normpath p) q.
Proof.
  intros Hp. unfold normpath. rewrite Hp.
  destruct p as [|c p]; [discriminate|]. cbn [is_empty].
  set (k := if startswith (String c p) "//" && negb (startswith (String c p) "///")
            then 2 else 1).
  set (q := normpath_comps k (split_slash (String c p)) []).
  assert (Hq : Forall (fun n => valid_name n = true) q).
  { apply normpath_comps_absolute; [|apply split_slash_comps_no_slash|constructor].
    subst k. now destruct (_ && _). }
  exists q.
  assert (Hk : k = 1 \/ k = 2) by (subst k; destruct (_ && _); auto).
  destruct Hk as [-> | ->]; cbn [append is_empty].
  - apply (names_to_slashes "/"); auto.
  - apply (names_to_slashes "//"); auto.
Qed.

Lemma startswith_slash_render c b : startswith (render c ++ b) "/" = true.
Proof. reflexivity. Qed.

(** *** The walk *)

Lemma entry_get_In n x es : entry_get n es = Some x -> In (n, x) es.
Proof.
  induction es as [|[k y] es IH]; cbn; [discriminate|].
  destruct (String.eqb k n) eqn:E.
  - apply String.eqb_eq in E. subst k. intros [= ->]. now left.
  - intros H. right. now apply IH.
Qed.

Lemma In_name_in n x es : In (n, x) es -> name_in n es = true.
Proof.
  unfold name_in. intros H. apply existsb_exists. exists n.
  split; [|apply String.eqb_refl]. apply in_map_iff. now exists (n, x).
Qed.

Lemma In_entry_get n x es :
  wf_node (Dir es) = true -> In (n, x) es -> entry_get n es = Some x.
Proof.
  induction es as [|[k y] es IH]; intros Hes; [contradiction|].
  apply wf_node_cons_inv in Hes as (Hk & _ & _ & Hes).
  intros [[= -> ->] | Hin]; cbn.
  - now rewrite String.eqb_refl.
  - destruct (String.eqb k n) eqn:E; [|now apply IH].
    apply String.eqb_eq in E. subst k.
    rewrite (In_name_in _ _ _ Hin) in Hk. discriminate.
Qed.

Lemma In_wf_child n x es :
  wf_node (Dir es) = true -> In (n, x) es -> wf_node x = true.
Proof.
  intros Hes Hin. apply (In_entry_get _ _ _ Hes) in Hin.
  now destruct (wf_entry_get _ _ _ Hes Hin).
Qed.

Lemma In_filenames n es :
  In n (filenames es) <-> exists lines, In (n, File lines) es.
Proof.
  induction es as [|[k [c|sub]] es IH]; cbn.
  - split; [contradiction | now intros [? ?]].
  - rewrite IH. split.
    + intros [-> | [c' H]]; [exists c; now left | exists c'; now right].
    + intros [c' [[= -> ->] | H]]; [now left | right; now exists c'].
  - rewrite IH. split.
    + intros [c' H]. exists c'. now right.
    + intros [c' [[=] | H]]. now exists c'.
Qed.

(** Every triple of the walk is that of a directory of the tree, reported
    under the names that lead to it. *)
Lemma walk_node_sound t :
  forall top e,
    wf_node t = true -> In e (walk_node top t) ->
    exists names es,
      e = (joins top names, dirnames es, filenames es)
      /\ get t names = Some (Dir es).
Proof.
  induction t as [c|es IH] using node_induction; intros top e Ht;
    [contradiction|].
  cbn [walk_node]. intros [<- | Hin].
  - now exists [], es.
  - apply in_flat_map in Hin as ([n x] & Hnx & Hin).
    rewrite Forall_forall in IH.
    destruct (IH _ Hnx (join top n) e (In_wf_child _ _ _ Ht Hnx) Hin)
      as (names & es' & -> & Hg).
    exists (n :: names), es'. split; [reflexivity|].
    cbn [get]. now rewrite (In_entry_get _ _ _ Ht Hnx).
Qed.

(** Every directory of the tree has its triple in the walk. *)
Lemma walk_node_complete top t names es :
  get t names = Some (Dir es) ->
  In (joins top names, dirnames es, filenames es) (walk_node top t).
Proof.
  revert top t. induction names as [|n names IH]; intros top t; cbn [get].
  - intros [= ->]. now left.
  - destruct t as [c|es0]; [discriminate|].
    destruct (entry_get n es0) as [x|] eqn:Ex; [|discriminate].
    intros Hg. cbn [walk_node]. right. apply in_flat_map.
    exists (n, x). split; [now apply entry_get_In|]. now apply IH.
Qed.

(** *** Removal *)

Lemma shape_app t d r :
  shape t (d ++ r)
  = match get t d with Some x => shape x r | None => Missing end.
Proof. unfold shape. rewrite get_app. now destruct (get t d). Qed.

Lemma remove_at_snoc t d n : remove_at t (d ++ [n]) = update t d (entry_del n).
Proof. unfold remove_at. now rewrite removelast_last, last_last. Qed.

Lemma shape_entry_del n es m r :
  shape (Dir (entry_del n es)) (m :: r)
  = if String.eqb n m then Missing else shape (Dir es) (m :: r).
Proof.
  rewrite !shape_cons. destruct (String.eqb n m) eqn:E.
  - apply String.eqb_eq in E. subst m. now rewrite entry_get_del_eq.
  - apply String.eqb_neq in E. now rewrite entry_get_del_ne.
Qed.

Lemma shape_entry_set n x es m r :
  shape (Dir (entry_set n x es)) (m :: r)
  = if String.eqb n m then shape x r else shape (Dir es) (m :: r).
Proof.
  rewrite !shape_cons. destruct (String.eqb n m) eqn:E.
  - apply String.eqb_eq in E. subst m. now rewrite entry_get_set_eq.
  - apply String.eqb_neq in E. now rewrite entry_get_set_ne.
Qed.

Lemma shape_remove_at t q q' :
  shape (remove_at t q) q' = Missing \/ shape (remove_at t q) q' = shape t q'.
Proof.
  unfold remove_at. rewrite shape_update.
  destruct (strip_prefix (removelast q) q') as [[|m r]|] eqn:E; auto.
  destruct (get t (removelast q)) as [[c|es]|] eqn:G; auto.
  rewrite shape_entry_del. destruct (String.eqb (last q "") m); auto.
  right. apply strip_prefix_Some in E. subst q'.
  now rewrite shape_app, G.
Qed.

Lemma shape_remove_at_below t q r :
  q <> [] -> shape (remove_at t q) (q ++ r) = Missing.
Proof.
  intros Hq. destruct (exists_last Hq) as (d & n & ->).
  rewrite remove_at_snoc, shape_update, <- app_assoc, strip_prefix_app.
  cbn [app]. destruct (get t d) as [[c|es]|] eqn:G.
  - now rewrite shape_app, G.
  - now rewrite shape_entry_del, String.eqb_refl.
  - now rewrite shape_app, G.
Qed.

Lemma remove_at_missing t q : get t q = None -> remove_at t q = t.
Proof.
  intros Hg. destruct q as [|n q] using rev_ind; [discriminate|].
  rewrite remove_at_snoc. apply update_id. intros es Hes.
  rewrite get_app, Hes in Hg. cbn in Hg.
  apply entry_del_absent. now destruct (entry_get n es).
Qed.

Lemma is_dir_shape t q :
  is_dir t q = match shape t q with IsDir => true | _ => false end.
Proof. unfold is_dir, shape. now destruct (get t q) as [[|]|]. Qed.

Lemma is_dir_root_update t d f : is_dir (update t d f) [] = is_dir t [].
Proof.
  rewrite !is_dir_shape, shape_update. now destruct d.
Qed.

Lemma wf_remove_at t q : wf_node t = true -> wf_node (remove_at t q) = true.
Proof. intros Ht. apply wf_update; [assumption|]. apply wf_entry_del. Qed.

(** *** What is left of a tree *)

Lemma left_of_refl t : left_of t t.
Proof. intros q. auto. Qed.

Lemma left_of_trans t1 t2 t3 : left_of t1 t2 -> left_of t2 t3 -> left_of t1 t3.
Proof.
  intros H12 H23 q.
  destruct (H12 q) as [H | [H | (c & c' & Hc & Hc')]]; [now left | |].
  - rewrite H. apply H23.
  - destruct (H23 q) as [H | [H | (c0 & c0' & Hc0 & Hc0')]].
    + congruence.
    + right. right. exists c, c'. split; congruence.
    + right. right. exists c0, c'. split; congruence.
Qed.

Lemma left_of_remove_at t q : left_of (remove_at t q) t.
Proof. intros q'. destruct (shape_remove_at t q q'); auto. Qed.

Lemma left_of_Missing t' t q :
  left_of t' t -> shape t q = Missing -> shape t' q = Missing.
Proof.
  intros H Hq. destruct (H q) as [H1 | [H1 | (c & c' & Hc & _)]]; congruence.
Qed.

Lemma left_of_IsDir t' t q :
  left_of t' t -> shape t' q = IsDir -> shape t q = IsDir.
Proof.
  intros H Hq. destruct (H q) as [H1 | [H1 | (c & c' & _ & Hc)]]; congruence.
Qed.

Lemma left_of_IsFile t' t q lines' :
  left_of t' t -> shape t' q = IsFile lines' ->
  exists lines, shape t q = IsFile lines.
Proof.
  intros H Hq. destruct (H q) as [H1 | [H1 | (c & c' & Hc & _)]];
    [congruence | | now exists c].
  exists lines'. congruence.
Qed.

(** *** One rewrite *)

Lemma get_snoc_entry t d n x :
  get t (d ++ [n]) = Some x ->
  exists es, get t d = Some (Dir es) /\ entry_get n es = Some x.
Proof.
  rewrite get_app. destruct (get t d) as [[c|es]|]; try discriminate.
  cbn. destruct (entry_get n es) as [y|] eqn:E; [|discriminate].
  intros [= ->]. now exists es.
Qed.

Lemma get_snoc_None t d n es :
  get t (d ++ [n]) = None -> get t d = Some (Dir es) -> entry_get n es = None.
Proof.
  rewrite get_app. intros H Hd. rewrite Hd in H. cbn in H.
  now destruct (entry_get n es).
Qed.

Lemma rewrite_at_snoc flt t d n lines :
  get t (d ++ [n]) = Some (File lines) ->
  rewrite_at flt t (d ++ [n])
  = update t d (fun es => entry_set n (File (flt lines))
                            (entry_del (n ++ ".new") es)).
Proof.
  intros Hg. unfold rewrite_at. now rewrite Hg, removelast_last, last_last.
Qed.

Lemma new_name_differs n : (n ++ ".new")%string <> n.
Proof.
  intros H. apply (f_equal String.length) in H.
  assert (L : forall a b, String.length (a ++ b) = String.length a + String.length b).
  { intros a b. induction a as [|c a IH]; cbn; [reflexivity | now rewrite IH]. }
  rewrite L in H. cbn in H. lia.
Qed.

Lemma left_of_rewrite_at flt t q : left_of (rewrite_at flt t q) t.
Proof.
  unfold rewrite_at. destruct (get t q) as [[c|es]|] eqn:G;
    try apply left_of_refl.
  intros q'. rewrite shape_update.
  destruct (strip_prefix (removelast q) q') as [[|m r]|] eqn:E; auto.
  destruct (get t (removelast q)) as [[c0|es]|] eqn:G0; auto.
  apply strip_prefix_Some in E. subst q'.
  rewrite shape_entry_set, shape_entry_del.
  assert (Hq : q = removelast q ++ [last q ""]).
  { apply app_removelast_last. intros ->. cbn in G, G0. congruence. }
  destruct (String.eqb (last q "") m) eqn:E1.
  - apply String.eqb_eq in E1. subst m. destruct r as [|x r].
    + right. right. exists c, (flt c). rewrite <- Hq. unfold shape.
      rewrite G. auto.
    + left. reflexivity.
  - destruct (String.eqb (last q "" ++ ".new") m); auto.
    right. left. now rewrite shape_app, G0.
Qed.

(** After a rewrite the file holds the filtered lines and there is no
    temporary file. *)
Lemma shape_rewrite_at_self flt t d n lines :
  get t (d ++ [n]) = Some (File lines) ->
  shape (rewrite_at flt t (d ++ [n])) (d ++ [n]) = IsFile (flt lines)
  /\ forall r, shape (rewrite_at flt t (d ++ [n])) (d ++ (n ++ ".new")%string :: r)
               = Missing.
Proof.
  intros Hg. rewrite (rewrite_at_snoc _ _ _ _ _ Hg).
  destruct (get_snoc_entry _ _ _ _ Hg) as (es & Hd & He).
  split; [|intros r]; rewrite shape_update, strip_prefix_app, Hd,
    shape_entry_set.
  - now rewrite String.eqb_refl.
  - destruct (String.eqb n (n ++ ".new")) eqn:E.
    + apply String.eqb_eq in E. symmetry in E. now apply new_name_differs in E.
    + now rewrite shape_entry_del, String.eqb_refl.
Qed.

(** A rewrite shows at the file only: elsewhere a location is as before, or
    gone. *)
Lemma shape_rewrite_at_other flt t d n q' :
  q' <> d ++ [n] ->
  shape (rewrite_at flt t (d ++ [n])) q' = Missing
  \/ shape (rewrite_at flt t (d ++ [n])) q' = shape t q'.
Proof.
  intros Hne. destruct (get t (d ++ [n])) as [[c|es]|] eqn:G.
  2,3: unfold rewrite_at; rewrite G; now right.
  rewrite (rewrite_at_snoc _ _ _ _ _ G), shape_update.
  destruct (get_snoc_entry _ _ _ _ G) as (es & Hd & He). rewrite Hd.
  destruct (strip_prefix d q') as [[|m r]|] eqn:E; auto.
  apply strip_prefix_Some in E. subst q'.
  rewrite shape_entry_set, shape_entry_del.
  destruct (String.eqb n m) eqn:E1.
  - apply String.eqb_eq in E1. subst m. destruct r; [contradiction | now left].
  - destruct (String.eqb (n ++ ".new") m); auto.
    right. now rewrite shape_app, Hd.
Qed.

Lemma wf_rewrite_at flt t q :
  wf_node t = true -> wf_node (rewrite_at flt t q) = true.
Proof.
  intros Ht. unfold rewrite_at. destruct (get t q) as [[c|es]|] eqn:G;
    try assumption.
  destruct (wf_get _ _ _ Ht G) as [_ Hq].
  destruct q as [|n q _] using rev_ind.
  - cbn in G. injection G as ->. exact Ht.
  - apply wf_update; [assumption|]. intros es Hes.
    apply wf_entry_set; [now apply wf_entry_del | | reflexivity].
    rewrite last_last. apply Forall_app in Hq as [_ Hq]. now inversion Hq.
Qed.

Lemma is_dir_root_rewrite_at flt t q :
  is_dir (rewrite_at flt t q) [] = is_dir t [].
Proof.
  unfold rewrite_at. destruct (get t q) as [[c|es]|]; try reflexivity.
  apply is_dir_root_update.
Qed.

(** A rewrite of a file that the filter leaves as it is, with no file under
    the temporary name, leaves the tree as it is. *)
Lemma rewrite_at_settled flt t d n lines :
  get t (d ++ [n]) = Some (File lines) ->
  flt lines = lines ->
  get t (d ++ [(n ++ ".new")%string]) = None ->
  rewrite_at flt t (d ++ [n]) = t.
Proof.
  intros Hg Hf Hn. rewrite (rewrite_at_snoc _ _ _ _ _ Hg), Hf.
  apply update_id. intros es Hes.
  rewrite (entry_del_absent _ _ (get_snoc_None _ _ _ _ Hn Hes)).
  apply entry_set_same.
  destruct (get_snoc_entry _ _ _ _ Hg) as (es' & Hd & He). congruence.
Qed.

(** *** Prefixes of locations *)

Lemma strip_prefix_None_app d q r :
  strip_prefix d q = None -> strip_prefix (d ++ r) q = None.
Proof.
  revert q; induction d as [|a d IH]; intros q; cbn; [discriminate|].
  destruct q as [|b q]; [destruct (d ++ r); reflexivity|].
  destruct (String.eqb a b); [apply IH | reflexivity].
Qed.

Lemma strip_prefix_app_app d a b :
  strip_prefix (d ++ a) (d ++ b) = strip_prefix a b.
Proof.
  induction d as [|x d IH]; cbn; [reflexivity|]. now rewrite String.eqb_refl.
Qed.

(** Two prefixes of one location: one is a prefix of the other. *)
Lemma strip_prefix_comparable a b q x y :
  strip_prefix a q = Some x -> strip_prefix b q = Some y ->
  strip_prefix a b <> None \/ strip_prefix b a <> None.
Proof.
  revert b q x y; induction a as [|u a IH]; intros b q x y; cbn.
  - intros _ _. left. discriminate.
  - destruct q as [|v q]; [discriminate|].
    destruct (String.eqb u v) eqn:E; [|discriminate].
    apply String.eqb_eq in E. subst v. intros Ha.
    destruct b as [|w b]; [intros _; right; discriminate|].
    cbn. destruct (String.eqb w u) eqn:E'; [|discriminate].
    apply String.eqb_eq in E'. subst w. rewrite String.eqb_refl.
    intros Hb. exact (IH _ _ _ _ Ha Hb).
Qed.

Lemma firstn_length_app {A} (a r : list A) :
  firstn (List.length a) (a ++ r) = a.
Proof. induction a as [|x a IH]; cbn; [now destruct r | now rewrite IH]. Qed.

Lemma strip_prefix_firstn a b r :
  strip_prefix a b = Some r -> a = firstn (List.length a) b.
Proof.
  intros H. apply strip_prefix_Some in H. subst b.
  now rewrite firstn_length_app.
Qed.

(** *** What a removal and a rewrite leave at a location *)

Lemma shape_remove_at_frame t q q' :
  strip_prefix q q' = None -> shape (remove_at t q) q' = shape t q'.
Proof.
  intros Hn. destruct q as [|n d _] using rev_ind; [discriminate|].
  rewrite remove_at_snoc, shape_update.
  destruct (strip_prefix d q') as [[|m r]|] eqn:E; try reflexivity.
  destruct (get t d) as [[c|es]|] eqn:G; try reflexivity.
  rewrite shape_entry_del.
  apply strip_prefix_Some in E. subst q'.
  destruct (String.eqb n m) eqn:E1.
  - apply String.eqb_eq in E1. subst m.
    change (d ++ n :: r) with (d ++ [n] ++ r) in Hn.
    rewrite app_assoc, strip_prefix_app in Hn. discriminate.
  - now rewrite shape_app, G.
Qed.

Lemma shape_rewrite_at_frame flt t d n q' :
  q' <> d ++ [n] ->
  strip_prefix (d ++ [(n ++ ".new")%string]) q' = None ->
  shape (rewrite_at flt t (d ++ [n])) q' = shape t q'.
Proof.
  intros Hne Hnew. destruct (get t (d ++ [n])) as [[c|es]|] eqn:G.
  2,3: unfold rewrite_at; now rewrite G.
  rewrite (rewrite_at_snoc _ _ _ _ _ G), shape_update.
  destruct (get_snoc_entry _ _ _ _ G) as (es & Hd & He). rewrite Hd.
  destruct (strip_prefix d q') as [[|m r]|] eqn:E; try reflexivity.
  apply strip_prefix_Some in E. subst q'.
  rewrite shape_entry_set, shape_entry_del.
  destruct (String.eqb n m) eqn:E1.
  - apply String.eqb_eq in E1. subst m. destruct r as [|x r]; [contradiction|].
    rewrite shape_app, Hd, shape_cons, He. reflexivity.
  - destruct (String.eqb (n ++ ".new") m) eqn:E2.
    + apply String.eqb_eq in E2. subst m.
      change (d ++ (n ++ ".new")%string :: r)
        with (d ++ [(n ++ ".new")%string] ++ r) in Hnew.
      rewrite app_assoc, strip_prefix_app in Hnew. discriminate.
    + now rewrite shape_app, Hd.
Qed.

(** There is nothing below a location that is not a directory. *)
Lemma shape_below_not_dir t q r :
  r <> [] -> is_dir t q = false -> shape t (q ++ r) = Missing.
Proof.
  intros Hr Hd. rewrite shape_app. unfold is_dir in Hd.
  destruct (get t q) as [[c|es]|]; [|discriminate|reflexivity].
  destruct r; [contradiction | reflexivity].
Qed.

(** One rewrite leaves every other location that holds something, the
    temporary name apart. *)
Lemma rewrite_at_keeps flt t d n lines q' :
  get t (d ++ [n]) = Some (File lines) ->
  is_dir t (d ++ [(n ++ ".new")%string]) = false ->
  shape t q' <> Missing ->
  q' <> d ++ [n] -> q' <> d ++ [(n ++ ".new")%string] ->
  shape (rewrite_at flt t (d ++ [n])) q' = shape t q'.
Proof.
  intros G Hd Hex Hne Hne'. apply shape_rewrite_at_frame; [assumption|].
  destruct (strip_prefix (d ++ [(n ++ ".new")%string]) q') as [r|] eqn:E;
    [exfalso | reflexivity].
  apply strip_prefix_Some in E. subst q'.
  destruct r as [|x r]; [rewrite app_nil_r in Hne'; contradiction|].
  apply Hex. apply shape_below_not_dir; [discriminate | assumption].
Qed.

(** A new entry shows at its location and below it. *)
Lemma shape_set_new t pos c x q :
  get t (pos ++ [c]) = None ->
  shape (update t pos (entry_set c x)) q
  = match strip_prefix (pos ++ [c]) q, get t pos with
    | Some r, Some (Dir _) => shape x r
    | _, _ => shape t q
    end.
Proof.
  intros Hg. rewrite shape_update.
  destruct (get t pos) as [[l|es]|] eqn:G.
  - destruct (strip_prefix pos q) as [[|m r]|];
      destruct (strip_prefix (pos ++ [c]) q); reflexivity.
  - destruct (strip_prefix pos q) as [[|m r]|] eqn:E.
    + apply strip_prefix_Some in E. subst q. rewrite app_nil_r.
      replace (strip_prefix (pos ++ [c]) pos) with (@None path); [reflexivity|].
      symmetry. clear. induction pos as [|a pos IH]; cbn; [reflexivity|].
      now rewrite String.eqb_refl.
    + apply strip_prefix_Some in E. subst q.
      rewrite shape_entry_set.
      change (pos ++ m :: r) with (pos ++ [m] ++ r).
      rewrite strip_prefix_app_app. cbn [strip_prefix app].
      destruct (String.eqb c m) eqn:E1; [reflexivity|].
      now rewrite shape_app, G.
    + now rewrite (strip_prefix_None_app _ _ [c] E).
  - destruct (strip_prefix pos q) as [[|m r]|];
      destruct (strip_prefix (pos ++ [c]) q); reflexivity.
Qed.

Lemma is_dir_update_set t d n x q :
  is_dir t q = true -> get t (d ++ [n]) = None ->
  is_dir (update t d (entry_set n x)) q = true.
Proof.
  intros Hq Hg. rewrite is_dir_shape, (shape_set_new _ _ _ _ _ Hg).
  destruct (strip_prefix (d ++ [n]) q) as [r|] eqn:E.
  - apply strip_prefix_Some in E. subst q.
    rewrite is_dir_shape, shape_app, Hg in Hq. discriminate.
  - destruct (get t d) as [[|]|]; now rewrite <- is_dir_shape.
Qed.

(** *** More on paths that spell locations *)

Lemma normpath_comps_lead k lead comps acc :
  Forall (fun c => c = "") lead ->
  normpath_comps k (lead ++ comps) acc = normpath_comps k comps acc.
Proof.
  induction 1 as [|c lead -> _ IH]; [reflexivity|]. exact IH.
Qed.

(** [normpath] of a path that spells a location spells the location. *)
Lemma names_to_normpath p q : names_to p q -> names_to (normpath p) q.
Proof.
  intros (Hs & Hq & lead & Hne & Hl & Hsplit). unfold normpath. rewrite Hs.
  destruct p as [|c p]; [discriminate|]. cbn [is_empty].
  set (k := if startswith (String c p) "//" && negb (startswith (String c p) "///")
            then 2 else 1).
  rewrite Hsplit, normpath_comps_lead by assumption.
  pose proof (normpath_comps_valid k q [] [] Hq) as E.
  rewrite app_nil_r in E. rewrite E. cbn [normpath_comps app].
  assert (Hk : k = 1 \/ k = 2) by (subst k; destruct (_ && _); auto).
  destruct Hk as [-> | ->]; cbn [append is_empty].
  - apply (names_to_slashes "/"); auto.
  - apply (names_to_slashes "//"); auto.
Qed.

Lemma names_to_split p q :
  names_to p q ->
  exists lead, Forall (fun c => c = "") lead /\ split_slash p = lead ++ q
               /\ isabs p = true /\ is_empty p = false
               /\ Forall (fun n => valid_name n = true) q.
Proof.
  intros (Hs & Hq & lead & _ & Hl & Hsplit). exists lead.
  repeat split; auto. now destruct p.
Qed.

Lemma removelast_cons_nonnil {A} (x : A) l :
  l <> [] -> removelast (x :: l) = x :: removelast l.
Proof. destruct l; [contradiction | reflexivity]. Qed.

Lemma last_cons_nonnil {A} (x : A) l d : l <> [] -> last (x :: l) d = last l d.
Proof. destruct l; [contradiction | reflexivity]. Qed.

Lemma split_slash_app_no_slash a b :
  no_slash b = true ->
  split_slash (a ++ b)
  = removelast (split_slash a)
    ++ [(last (split_slash a) EmptyString ++ b)%string].
Proof.
  intros Hb. induction a as [|c a IH]; cbn [append].
  - now rewrite split_slash_no_slash.
  - pose proof (split_slash_nonnil a) as Hne.
    cbn [split_slash]. rewrite IH. destruct (Ascii.eqb c "/").
    + rewrite removelast_cons_nonnil, last_cons_nonnil by assumption.
      reflexivity.
    + destruct (split_slash a) as [|h t]; [contradiction|].
      destruct t as [|h2 t]; [reflexivity|].
      cbn [removelast last app]. reflexivity.
Qed.

(** The temporary name of a file is in the directory of the file. *)
Lemma names_to_new file d n :
  names_to file (d ++ [n]) ->
  names_to (file ++ ".new") (d ++ [(n ++ ".new")%string]).
Proof.
  intros (Hs & Hq & lead & Hne & Hl & Hsplit).
  apply Forall_app in Hq as [Hd Hn]. inversion Hn as [|? ? Hn' _]; subst.
  split; [now apply startswith_slash_app|]. split.
  - apply Forall_app. split; [assumption|]. constructor; [|constructor].
    now apply valid_name_new.
  - exists lead. split; [assumption|]. split; [assumption|].
    rewrite split_slash_app_no_slash by reflexivity.
    rewrite Hsplit, app_assoc, removelast_last, last_last.
    now rewrite <- app_assoc.
Qed.

Lemma walk_comps_snoc t pos d n :
  Forall (fun n => valid_name n = true) d -> valid_name n = true ->
  is_dir t (pos ++ d) = true ->
  walk_comps t pos (d ++ [n]) = Ok (pos ++ d ++ [n]).
Proof.
  intros Hd Hn. revert pos. induction Hd as [|c d Hc _ IH]; intros pos Hdir.
  - rewrite app_nil_r in Hdir. cbn [app walk_comps]. unfold is_dir in Hdir.
    destruct (get t pos) as [[|es]|]; try discriminate.
    destruct (valid_name_plain n Hn) as [-> ->]. reflexivity.
  - cbn [app walk_comps]. pose proof (is_dir_prefix _ _ _ Hdir) as Hp.
    unfold is_dir in Hp. destruct (get t pos) as [[|es]|]; try discriminate.
    destruct (valid_name_plain c Hc) as [-> ->].
    change (c :: d) with ([c] ++ d) in Hdir. rewrite app_assoc in Hdir.
    rewrite (IH _ Hdir). now rewrite <- app_assoc.
Qed.

(** The lookup of a name, from the working directory. *)
Lemma namei_name s n :
  valid_name n = true -> is_dir (root s) (cwd s) = true ->
  namei s n = match get (root s) (cwd s ++ [n]) with
              | Some _ => Ok (cwd s ++ [n])
              | None => Raise FileNotFoundError
              end.
Proof.
  intros Hn Hd. unfold namei, start_of.
  rewrite (startswith_slash_valid _ Hn : isabs n = false).
  pose proof (valid_name_nonempty _ Hn) as Hne.
  destruct n as [|x n']; [contradiction|]. cbn [is_empty].
  rewrite (split_slash_no_slash (String x n'))
    by now apply valid_name_no_slash.
  cbn [walk_comps]. unfold is_dir in Hd.
  destruct (get (root s) (cwd s)) as [[|es]|]; try discriminate.
  destruct (valid_name_plain _ Hn) as [-> ->]. reflexivity.
Qed.

Lemma path_exists_Ok p s : exists b, path_exists p s = (Ok b, s).
Proof. unfold path_exists. destruct (namei s p); eauto. Qed.

Lemma path_exists_false s p q :
  names_to p q -> root_is_dir s ->
  path_exists p s = (Ok false, s) -> get (root s) q = None.
Proof.
  intros Hn Hr. unfold path_exists.
  destruct (get (root s) q) as [x|] eqn:G; [|reflexivity].
  rewrite (namei_names_to_some _ _ _ Hn Hr) by congruence.
  discriminate.
Qed.

Lemma path_exists_none s p q :
  names_to p q -> root_is_dir s -> get (root s) q = None ->
  path_exists p s = (Ok false, s).
Proof.
  intros Hn Hr Hm. unfold path_exists.
  now destruct (namei_names_to_none _ _ _ Hn Hr Hm) as [e ->].
Qed.

(** The text [os.path.join] makes ends as the name ends. *)
Lemma endswith_join d n suf :
  endswith n suf = true -> endswith (join d n) suf = true.
Proof.
  rewrite !PyStrFacts.endswith_spec. intros [x ->]. unfold join.
  destruct (startswith (x ++ suf) "/"); [now exists x|].
  destruct (is_empty d || endswith d "/").
  - exists (d ++ x)%string. now rewrite PyStrFacts.append_assoc.
  - exists (d ++ "/" ++ x)%string. now rewrite !PyStrFacts.append_assoc.
Qed.

Lemma endswith_any_join d n t :
  endswith_any n t = true -> endswith_any (join d n) t = true.
Proof.
  unfold endswith_any. rewrite !existsb_exists.
  intros (suf & Hin & H). exists suf. split; [assumption|].
  now apply endswith_join.
Qed.

(** *** [makedirs] along names *)

Lemma makedirs_comps_lead t lead q :
  is_dir t [] = true -> Forall (fun c => c = "") lead ->
  makedirs_comps t [] (lead ++ q) = makedirs_comps t [] q.
Proof.
  intros Hr Hl. induction Hl as [|c lead -> _ IH]; [reflexivity|].
  cbn [app makedirs_comps]. unfold is_dir in Hr.
  destruct (get t []) as [[|es]|]; try discriminate. exact IH.
Qed.

Lemma get_update_new t d n x :
  is_dir t d = true -> get (update t d (entry_set n x)) (d ++ [n]) = Some x.
Proof.
  unfold is_dir. destruct (get t d) as [[c|es]|] eqn:Hd; try discriminate.
  intros _. rewrite get_app, (get_update_self _ _ (entry_set n x) _ Hd).
  cbn. now rewrite entry_get_set_eq.
Qed.

(** The directories that were missing are made, and nothing else
    changes. *)
Lemma makedirs_comps_names comps :
  forall t pos t' pos',
    Forall (fun n => valid_name n = true) comps ->
    makedirs_comps t pos comps = Ok (t', pos') ->
    pos' = pos ++ comps
    /\ (forall q, strip_prefix q (pos ++ comps) = None -> shape t' q = shape t q)
    /\ (comps <> [] -> get t (pos ++ comps) = None ->
        get t' (pos ++ comps) = Some (Dir [])).
Proof.
  induction comps as [|c comps IH]; intros t pos t' pos' Hv; cbn [makedirs_comps].
  - intros [= <- <-]. rewrite app_nil_r. repeat split; auto. contradiction.
  - inversion Hv as [|? ? Hc Hv']; subst.
    destruct (get t pos) as [[l|es]|] eqn:G; try discriminate.
    destruct (valid_name_plain c Hc) as [-> ->].
    change (pos ++ c :: comps) with (pos ++ [c] ++ comps). rewrite app_assoc.
    destruct (get t (pos ++ [c])) as [x|] eqn:Gc.
    + intros H. destruct (IH _ _ _ _ Hv' H) as (-> & F & N).
      split; [reflexivity|]. split; [exact F|].
      intros _ Hg. apply N; [|exact Hg].
      intros ->. rewrite app_nil_r in Hg. congruence.
    + intros H. destruct (IH _ _ _ _ Hv' H) as (-> & F & N).
      split; [reflexivity|]. split.
      * intros q Hq. rewrite (F q Hq), (shape_set_new _ _ _ _ _ Gc), G.
        destruct (strip_prefix (pos ++ [c]) q) as [r|] eqn:E; [|reflexivity].
        apply strip_prefix_Some in E. subst q.
        rewrite shape_app, Gc.
        destruct r; [|reflexivity].
        rewrite app_nil_r in Hq. rewrite <- (app_nil_r (pos ++ [c])) in Hq at 1.
        rewrite strip_prefix_app_app in Hq. discriminate.
      * intros _ _. destruct comps as [|c2 comps].
        -- cbn in H. injection H as <- _. rewrite app_nil_r.
           apply get_update_new. unfold is_dir. now rewrite G.
        -- apply N; [discriminate|].
           rewrite get_app.
           rewrite (get_update_new t pos c (Dir []));
             [|unfold is_dir; now rewrite G].
           reflexivity.
Qed.

End OSFacts.

Module LibsFacts.
Import PyStr OS Libs.

Lemma bind_run {A B} (m : M A) (k : A -> M B) s :
  bind m k s = match m s with
               | (Ok a, s1) => k a s1
               | (Raise e, s1) => (Raise e, s1)
               end.
Proof. reflexivity. Qed.

(** An [open] that raises leaves the state as it was. *)
Lemma os_open_raise p m s e s1 : os_open p m s = (Raise e, s1) -> s1 = s.
Proof.
  destruct m; unfold os_open, lookup, lookup_create, bind, get_state.
  - destruct (namei s p) as [pos|e0]; [|intros [= _ <-]; reflexivity].
    destruct (is_dir (root s) pos); cbn; [intros [= _ <-]; reflexivity|].
    discriminate.
  - destruct (namei_create s p) as [d|e0]; [|intros [= _ <-]; reflexivity].
    destruct (is_dir (root s) (fst d ++ [snd d])); cbn;
      [intros [= _ <-]; reflexivity | discriminate].
Qed.

(** An [open] for reading that returns adds an open file object to the
    table and changes nothing else. *)
Lemma os_open_R_ok p s fp s1 :
  os_open p ModeR s = (Ok fp, s1) ->
  exists pos,
    s1 = mkState (root s) (cwd s) (handles s ++ [mkHandle pos ModeR false])
    /\ fp = List.length (handles s).
Proof.
  unfold os_open, lookup, bind, get_state.
  destruct (namei s p) as [pos|e0]; [|discriminate].
  destruct (is_dir (root s) pos); cbn; [discriminate|].
  intros [= <- <-]. now exists pos.
Qed.

(** C9. [open_inout] opens the input first: when that [open] raises, the
    call raises and the state is the one before the call, so the output file
    was neither created nor truncated; with the four parameters set the
    exception is that of the [open]. *)
Theorem open_inout_input_first {A} in_file out_file in_enc out_enc
    (body : nat * nat -> M A) s e s1 :
  os_open in_file ModeR s = (Raise e, s1) ->
  exists e',
    open_inout in_file out_file in_enc out_enc body s = (Raise e', s)
    /\ (some_unset in_file out_file in_enc out_enc = false -> e' = e).
Proof.
  intros Hopen. pose proof (os_open_raise _ _ _ _ _ Hopen) as ->.
  unfold open_inout, some_unset.
  destruct (is_empty in_file || is_empty out_file).
  - eexists. split; [reflexivity | discriminate].
  - cbn [orb]. destruct (is_empty in_enc || is_empty out_enc) eqn:E.
    + eexists. split; [reflexivity|].
      destruct (is_empty in_enc); cbn in *; congruence.
    + exists e. rewrite bind_run, Hopen. split; [reflexivity|].
      reflexivity.
Qed.

Lemma open_inout_input_first_witness :
  exists e',
    open_inout "in.txt" "out.txt" "utf-8" "utf-8"
      (fun _ => ret tt) (mkState (Dir [("out.txt", File ["kept"])]) [] [])
    = (Raise e', mkState (Dir [("out.txt", File ["kept"])]) [] [])
    /\ (some_unset "in.txt" "out.txt" "utf-8" "utf-8" = false ->
        e' = FileNotFoundError).
Proof.
  apply (open_inout_input_first "in.txt" "out.txt" "utf-8" "utf-8"
           (fun _ => ret tt) _ FileNotFoundError
           (mkState (Dir [("out.txt", File ["kept"])]) [] [])).
  reflexivity.
Defined.

(** C3 fails on the program. With the four parameters set, when the [open]
    of the input returns and the [open] of the output raises, [open_inout]
    raises that exception and the file object of the input is still in the
    table, not closed: the two calls of [open] stand before the [try]. *)
Theorem open_inout_leaves_input_open {A} in_file out_file in_enc out_enc
    (body : nat * nat -> M A) s in_fp s1 e s2 :
  some_unset in_file out_file in_enc out_enc = false ->
  os_open in_file ModeR s = (Ok in_fp, s1) ->
  os_open out_file ModeW s1 = (Raise e, s2) ->
  open_inout in_file out_file in_enc out_enc body s = (Raise e, s1)
  /\ exists pos,
       nth_error (handles s1) in_fp = Some (mkHandle pos ModeR false).
Proof.
  intros Hset Hin Hout. pose proof (os_open_raise _ _ _ _ _ Hout) as ->.
  unfold some_unset in Hset. unfold open_inout.
  destruct (is_empty in_file || is_empty out_file); [discriminate|].
  cbn [orb] in Hset. rewrite Hset. rewrite bind_run, Hin, bind_run, Hout.
  split; [reflexivity|].
  destruct (os_open_R_ok _ _ _ _ Hin) as (pos & -> & ->). exists pos.
  cbn [handles]. rewrite nth_error_app2 by reflexivity.
  now rewrite Nat.sub_diag.
Qed.

Lemma open_inout_leaves_input_open_witness :
  open_inout "/in.txt" "/missing/out.txt" "utf-8" "utf-8"
    (fun _ => ret tt) with_input
  = (Raise FileNotFoundError,
     mkState (root with_input) [] [mkHandle ["in.txt"] ModeR false])
  /\ exists pos,
       nth_error
         (handles (mkState (root with_input) []
                     [mkHandle ["in.txt"] ModeR false])) 0
       = Some (mkHandle pos ModeR false).
Proof.
  apply (open_inout_leaves_input_open "/in.txt" "/missing/out.txt" "utf-8"
           "utf-8" (fun _ => ret tt) with_input 0 _ FileNotFoundError
           (mkState (root with_input) [] [mkHandle ["in.txt"] ModeR false]));
    reflexivity.
Defined.

(** [abspath] returns wherever the working directory exists. *)
Lemma abspath_ok p s :
  is_dir (root s) (cwd s) = true ->
  abspath p s
  = (Ok (if isabs p then normpath p else normpath (join (render (cwd s)) p)),
     s).
Proof.
  intros Hd. unfold abspath. destruct (isabs p); [reflexivity|].
  unfold bind, getcwd. now rewrite Hd.
Qed.

Lemma os_chdir_ok p s pos :
  namei s p = Ok pos -> is_dir (root s) pos = true ->
  os_chdir p s = (Ok tt, mkState (root s) pos (handles s)).
Proof.
  intros Hn Hd. unfold os_chdir, bind, lookup, get_state. rewrite Hn, Hd.
  reflexivity.
Qed.

(** Up to its [yield], [chdir] records the text of the working directory
    and enters the target: what is left is the body, in the target, and the
    [finally] that returns to the text recorded. *)
Lemma chdir_enters {A} directory (body : string -> M A) s pos :
  Forall (fun n => valid_name n = true) (cwd s) ->
  is_dir (root s) (cwd s) = true ->
  namei s directory = Ok pos ->
  is_dir (root s) pos = true ->
  chdir (Some directory) body s
  = try_finally (body (yielded directory pos)) (os_chdir (render (cwd s)))
      (mkState (root s) pos (handles s)).
Proof.
  intros Hv Hcwd Hn Hd.
  unfold chdir. rewrite bind_run. unfold path_exists. rewrite Hn. cbn [negb].
  rewrite bind_run, (abspath_ok "." s Hcwd).
  change (isabs ".") with false. cbn iota.
  rewrite OSFacts.normpath_join_render_dot by assumption.
  unfold try_finally.
  rewrite bind_run, (os_chdir_ok _ _ _ Hn Hd), bind_run.
  rewrite abspath_ok by exact Hd. reflexivity.
Qed.

(** A [chdir] that returns a value entered an existing directory from an
    existing working directory. *)
Lemma chdir_Ok_inv {A} directory (body : string -> M A) s a s' :
  chdir (Some directory) body s = (Ok a, s') ->
  exists pos,
    namei s directory = Ok pos /\ is_dir (root s) pos = true
    /\ is_dir (root s) (cwd s) = true.
Proof.
  unfold chdir. rewrite bind_run. unfold path_exists.
  destruct (namei s directory) as [pos|e] eqn:Hn; [|discriminate].
  cbn [negb]. rewrite bind_run. unfold abspath.
  change (isabs ".") with false. cbn iota. rewrite bind_run. unfold getcwd.
  destruct (is_dir (root s) (cwd s)) eqn:Hcwd; [|discriminate].
  cbn beta iota. unfold ret at 1. unfold try_finally. rewrite bind_run.
  unfold os_chdir at 1. rewrite bind_run. unfold lookup. rewrite Hn.
  unfold bind at 1, get_state.
  destruct (is_dir (root s) pos) eqn:Hd.
  - intros _. exists pos. auto.
  - unfold raise.
    match goal with
    | |- context [os_chdir ?o s] => destruct (os_chdir o s) as [[[]|e] s1]
    end; discriminate.
Qed.

(** C7. Let the working directory exist, under names a directory can hold,
    and let the target be an existing directory. The body runs in the state
    where the working directory is the target; whatever its outcome, a
    value or an exception, the [with] statement ends with that outcome and
    with the working directory that was recorded on entry, as long as that
    directory still exists when the body is left. *)
Theorem chdir_restores {A} directory (body : string -> M A) s pos :
  Forall (fun n => valid_name n = true) (cwd s) ->
  is_dir (root s) (cwd s) = true ->
  namei s directory = Ok pos ->
  is_dir (root s) pos = true ->
  forall r s2,
    body (yielded directory pos) (mkState (root s) pos (handles s)) = (r, s2) ->
    is_dir (root s2) (cwd s) = true ->
    chdir (Some directory) body s
    = (r, mkState (root s2) (cwd s) (handles s2)).
Proof.
  intros Hv Hcwd Hn Hd r s2 Hbody Hstill.
  rewrite (chdir_enters _ _ _ _ Hv Hcwd Hn Hd).
  unfold try_finally. rewrite Hbody.
  rewrite (os_chdir_ok (render (cwd s)) s2 (cwd s));
    [reflexivity | now apply OSFacts.namei_render | assumption].
Qed.

Lemma chdir_restores_witness :
  chdir (Some "/w/sub") (fun _ => raise (OtherError "body") : M unit) in_w
  = (Raise (OtherError "body"), mkState (root in_w) (cwd in_w) (handles in_w)).
Proof.
  apply (chdir_restores "/w/sub" (fun _ => raise (OtherError "body") : M unit)
           in_w ["w"; "sub"]) with (s2 := mkState (root in_w) ["w"; "sub"] []).
  - repeat constructor.
  - reflexivity.
  - reflexivity.
  - reflexivity.
  - reflexivity.
  - reflexivity.
Defined.

(** C7 as it is written fails: a body that removes the directory recorded
    on entry leaves nothing to go back to. From [/w], with the existing
    target [/t], the [with] statement ends with the exception of the
    [os.chdir] of the [finally] block, after a body that returned and after
    a body that raised, and the working directory is [/t], not [/w]. *)
Lemma chdir_origin_removed_counterexample :
  cwd beside_t = ["w"]
  /\ is_dir (root beside_t) ["t"] = true
  /\ chdir (Some "/t") (fun _ => shutil_rmtree "/w") beside_t
     = (Raise FileNotFoundError, mkState (Dir [("t", Dir [])]) ["t"] [])
  /\ chdir (Some "/t")
       (fun _ => shutil_rmtree "/w" ;;; (raise (OtherError "body") : M unit))
       beside_t
     = (Raise FileNotFoundError, mkState (Dir [("t", Dir [])]) ["t"] []).
Proof. repeat split. Qed.

(** [abspath] of a name, in the directory [q]. *)
Lemma normpath_join_render_name q n :
  Forall (fun n => valid_name n = true) q -> valid_name n = true ->
  normpath (join (render q) n) = render (q ++ [n]).
Proof.
  intros Hq Hn. unfold join.
  rewrite (OSFacts.startswith_slash_valid _ Hn).
  change (is_empty (render q)) with false. cbn [orb].
  assert (Hqn : Forall (fun n => valid_name n = true) (q ++ [n]))
    by (apply Forall_app; auto).
  destruct q as [|m q].
  - change (endswith (render []) "/") with true. cbn iota.
    change (render [] ++ n)%string with (String "/" n).
    unfold normpath. cbn [is_empty].
    change (startswith (String "/" n) "/") with true. cbn iota.
    assert (E : startswith (String "/" n) "//" = false).
    { cbn [startswith]. rewrite Ascii.eqb_refl.
      exact (OSFacts.startswith_slash_valid _ Hn). }
    rewrite E. cbn [andb split_slash].
    change (Ascii.eqb "/" "/") with true. cbn iota.
    rewrite (OSFacts.split_slash_no_slash n)
      by now apply OSFacts.valid_name_no_slash.
    change (normpath_comps 1 [""; n] []) with (normpath_comps 1 ([n] ++ []) []).
    rewrite OSFacts.normpath_comps_valid by (repeat constructor; assumption).
    destruct n; [discriminate | reflexivity].
  - assert (Hs : split_slash (render (m :: q) ++ "/" ++ n)
                 = "" :: (m :: q) ++ [n]).
    { change (render (m :: q) ++ "/" ++ n)%string
        with (render (m :: q) ++ String "/" n)%string.
      rewrite OSFacts.split_slash_app_slash, OSFacts.split_slash_render
        by assumption.
      now rewrite (OSFacts.split_slash_no_slash n)
        by now apply OSFacts.valid_name_no_slash. }
    rewrite OSFacts.endswith_slash_render by (assumption || discriminate).
    unfold normpath.
    change (is_empty (render (m :: q) ++ "/" ++ n)) with false. cbn iota.
    change (startswith (render (m :: q) ++ "/" ++ n) "/") with true.
    cbn iota.
    assert (E : startswith (render (m :: q) ++ "/" ++ n) "//" = false).
    { inversion Hq as [|? ? Hm _]; subst.
      pose proof (OSFacts.startswith_slash_valid _ Hm) as Hx.
      destruct m as [|x m']; [discriminate|]. cbn [startswith] in Hx.
      unfold render.
      assert (J : exists r, join_slash (String x m' :: q) = String x r)
        by (destruct q; eexists; reflexivity).
      destruct J as [r ->]. cbn [append startswith].
      rewrite Ascii.eqb_refl. cbn [andb].
      now destruct (Ascii.eqb "/" x). }
    rewrite E, Hs. cbn [andb].
    change (normpath_comps 1 ("" :: (m :: q) ++ [n]) [])
      with (normpath_comps 1 ((m :: q) ++ [n]) []).
    pose proof (OSFacts.normpath_comps_valid 1 ((m :: q) ++ [n]) [] [] Hqn)
      as Hv.
    rewrite app_nil_r in Hv. rewrite Hv. reflexivity.
Qed.

Lemma render_injective q q' :
  Forall (fun n => valid_name n = true) q ->
  Forall (fun n => valid_name n = true) q' ->
  render q = render q' -> q = q'.
Proof.
  intros Hq Hq' E. apply (OSFacts.names_to_unique (render q)).
  - now apply (OSFacts.names_to_slashes "/"); auto.
  - rewrite E. now apply (OSFacts.names_to_slashes "/"); auto.
Qed.

(** C8 fails on the program. For a target given as a name [n] of a
    directory of the working directory [c], [chdir] switches into [c/n] and
    runs the body with the text of [c/n/n], which is not the text of the
    directory switched into: [abspath] is applied to the relative path after
    the working directory has changed. *)
Theorem chdir_relative_yields_other_path {A} n (body : string -> M A) s :
  Forall (fun n => valid_name n = true) (cwd s) ->
  is_dir (root s) (cwd s) = true ->
  valid_name n = true ->
  is_dir (root s) (cwd s ++ [n]) = true ->
  chdir (Some n) body s
  = try_finally (body (render ((cwd s ++ [n]) ++ [n])))
      (os_chdir (render (cwd s)))
      (mkState (root s) (cwd s ++ [n]) (handles s))
  /\ render ((cwd s ++ [n]) ++ [n]) <> render (cwd s ++ [n]).
Proof.
  intros Hc Hcwd Hn Hd.
  assert (Hcn : Forall (fun n => valid_name n = true) (cwd s ++ [n]))
    by (apply Forall_app; auto).
  assert (Hrel : isabs n = false)
    by exact (OSFacts.startswith_slash_valid _ Hn).
  split.
  - rewrite (chdir_enters n body s (cwd s ++ [n])); auto.
    + unfold yielded. rewrite Hrel.
      now rewrite normpath_join_render_name.
    + unfold namei, start_of. rewrite Hrel.
      destruct n as [|x n']; [discriminate|]. cbn [is_empty].
      rewrite (OSFacts.split_slash_no_slash (String x n'))
        by now apply OSFacts.valid_name_no_slash.
      rewrite (OSFacts.walk_comps_exists (root s) (cwd s) [String x n']).
      * unfold is_dir in Hd.
        now destruct (get (root s) (cwd s ++ [String x n'])).
      * now repeat constructor.
      * unfold is_dir in Hd.
        now destruct (get (root s) (cwd s ++ [String x n'])).
  - intros E. apply render_injective in E; auto.
    + apply (f_equal (@List.length string)) in E.
      rewrite !length_app in E. cbn in E. lia.
    + apply Forall_app; auto.
Qed.

Lemma chdir_relative_yields_other_path_witness :
  chdir (Some "sub") (fun current_dir => c <- getcwd ;; ret (current_dir, c))
    in_w
  = try_finally
      ((fun current_dir => c <- getcwd ;; ret (current_dir, c))
         (render ((cwd in_w ++ ["sub"]) ++ ["sub"])))
      (os_chdir (render (cwd in_w)))
      (mkState (root in_w) (cwd in_w ++ ["sub"]) (handles in_w))
  /\ render ((cwd in_w ++ ["sub"]) ++ ["sub"]) <> render (cwd in_w ++ ["sub"]).
Proof.
  apply (chdir_relative_yields_other_path "sub").
  - repeat constructor.
  - reflexivity.
  - reflexivity.
  - reflexivity.
Defined.

(** From [/w], [chdir("sub")] switches into [/w/sub] and yields
    [/w/sub/sub]. *)
Example chdir_sub_from_w :
  chdir (Some "sub") (fun current_dir => c <- getcwd ;; ret (current_dir, c))
    in_w
  = (Ok ("/w/sub/sub", "/w/sub"), in_w).
Proof. reflexivity. Qed.

(** With an absolute target the value is [normpath] of the target. *)
Example chdir_absolute_yields_target :
  chdir (Some "/w/sub") (fun current_dir => c <- getcwd ;; ret (current_dir, c))
    in_w
  = (Ok ("/w/sub", "/w/sub"), in_w).
Proof. reflexivity. Qed.

(** *** The calls of the operating system on paths that spell locations *)

Lemma shape_IsFile t q lines :
  shape t q = IsFile lines <-> get t q = Some (File lines).
Proof.
  unfold shape. destruct (get t q) as [[c|es]|]; split; congruence.
Qed.

Lemma shape_Missing t q : shape t q = Missing <-> get t q = None.
Proof.
  unfold shape. destruct (get t q) as [[c|es]|]; split; congruence.
Qed.

Lemma shape_IsDir t q : shape t q = IsDir <-> is_dir t q = true.
Proof. rewrite OSFacts.is_dir_shape. destruct (shape t q); split; congruence. Qed.

Lemma lookup_some s p q :
  names_to p q -> root_is_dir s -> get (root s) q <> None ->
  lookup p s = (Ok q, s).
Proof.
  intros Hn Hr Hg. unfold lookup.
  now rewrite (OSFacts.namei_names_to_some _ _ _ Hn Hr Hg).
Qed.

Lemma lookup_none s p q :
  names_to p q -> root_is_dir s -> get (root s) q = None ->
  exists e, lookup p s = (Raise e, s).
Proof.
  intros Hn Hr Hg. unfold lookup.
  destruct (OSFacts.namei_names_to_none _ _ _ Hn Hr Hg) as [e ->]. now exists e.
Qed.

Lemma lookup_create_dir s p d n :
  names_to p (d ++ [n]) -> root_is_dir s -> is_dir (root s) d = true ->
  lookup_create p s = (Ok (d, n), s).
Proof.
  intros Hn Hr Hd. unfold lookup_create.
  rewrite (OSFacts.namei_create_names_to _ _ _ _ Hn Hr).
  unfold is_dir in Hd. now destruct (get (root s) d) as [[|]|].
Qed.

Lemma is_dir_parent t d n x : get t (d ++ [n]) = Some x -> is_dir t d = true.
Proof.
  intros H. destruct (OSFacts.get_snoc_entry _ _ _ _ H) as (es & Hd & _).
  unfold is_dir. now rewrite Hd.
Qed.

Lemma os_open_R_run s p q lines :
  names_to p q -> root_is_dir s -> get (root s) q = Some (File lines) ->
  os_open p ModeR s
  = (Ok (List.length (handles s)),
     mkState (root s) (cwd s) (handles s ++ [mkHandle q ModeR false])).
Proof.
  intros Hn Hr Hg. unfold os_open. rewrite bind_run, (lookup_some s p q);
    [|assumption|assumption|congruence].
  unfold bind, get_state, is_dir. rewrite Hg. reflexivity.
Qed.

Lemma os_open_W_run s p d n :
  names_to p (d ++ [n]) -> root_is_dir s ->
  is_dir (root s) d = true -> is_dir (root s) (d ++ [n]) = false ->
  os_open p ModeW s
  = (Ok (List.length (handles s)),
     mkState (update (root s) d (entry_set n (File []))) (cwd s)
       (handles s ++ [mkHandle (d ++ [n]) ModeW false])).
Proof.
  intros Hn Hr Hd Hf. unfold os_open.
  rewrite bind_run, (lookup_create_dir s p d n) by assumption.
  unfold bind, get_state. cbn [fst snd]. rewrite Hf. reflexivity.
Qed.

Lemma os_readlines_run s fp q lines :
  nth_error (handles s) fp = Some (mkHandle q ModeR false) ->
  get (root s) q = Some (File lines) ->
  os_readlines fp s = (Ok lines, s).
Proof.
  intros Hh Hg. unfold os_readlines, bind, get_state. now rewrite Hh, Hg.
Qed.

Lemma os_write_run s fp d n cur line :
  nth_error (handles s) fp = Some (mkHandle (d ++ [n]) ModeW false) ->
  get (root s) (d ++ [n]) = Some (File cur) ->
  os_write fp line s
  = (Ok tt,
     mkState (update (root s) d (entry_set n (File (cur ++ [line]))))
       (cwd s) (handles s)).
Proof.
  intros Hh Hg. unfold os_write, bind, get_state. rewrite Hh, Hg.
  now rewrite removelast_last, last_last.
Qed.

Lemma os_close_run s fp :
  os_close fp s
  = (Ok tt, mkState (root s) (cwd s) (mark_closed (handles s) fp)).
Proof. reflexivity. Qed.

Lemma shutil_copystat_run s p q p' q' :
  names_to p q -> names_to p' q' -> root_is_dir s ->
  get (root s) q <> None -> get (root s) q' <> None ->
  shutil_copystat p p' s = (Ok tt, s).
Proof.
  intros Hn Hn' Hr Hg Hg'. unfold shutil_copystat.
  rewrite bind_run, (lookup_some _ _ _ Hn Hr Hg).
  rewrite bind_run, (lookup_some _ _ _ Hn' Hr Hg'). reflexivity.
Qed.

Lemma path_isdir_run s p q :
  names_to p q -> root_is_dir s -> get (root s) q <> None ->
  path_isdir p s = (Ok (is_dir (root s) q), s).
Proof.
  intros Hn Hr Hg. unfold path_isdir.
  now rewrite (OSFacts.namei_names_to_some _ _ _ Hn Hr Hg).
Qed.

Lemma os_rename_run s src spos dst d n lines :
  names_to src spos -> names_to dst (d ++ [n]) -> root_is_dir s ->
  get (root s) spos = Some (File lines) ->
  is_dir (root s) d = true -> is_dir (root s) (d ++ [n]) = false ->
  spos <> d ++ [n] ->
  os_rename src dst s
  = (Ok tt,
     mkState (update (remove_at (root s) spos) d (entry_set n (File lines)))
       (cwd s) (handles s)).
Proof.
  intros Hs Hd Hr Hg Hdir Hnd Hne. unfold os_rename.
  rewrite bind_run, (lookup_some _ _ _ Hs Hr) by congruence.
  rewrite bind_run, (lookup_create_dir _ _ _ _ Hd Hr Hdir).
  unfold bind, get_state. cbn [fst snd]. rewrite Hg, Hnd.
  now destruct (list_eq_dec string_dec spos (d ++ [n])).
Qed.

(** *** The parameters and the two file objects of [open_inout] *)

(** X6. [open_inout] tests its parameters before it opens a file: with an
    empty path or an empty encoding it raises [ValueError] and leaves the
    state as it is, so that no file is opened, created or emptied. *)
Theorem open_inout_rejects_unset_parameters {A} in_file out_file in_enc
    out_enc (body : nat * nat -> M A) s :
  some_unset in_file out_file in_enc out_enc = true ->
  exists msg,
    open_inout in_file out_file in_enc out_enc body s
    = (Raise (ValueError msg), s).
Proof.
  unfold some_unset, open_inout.
  destruct (is_empty in_file || is_empty out_file);
    [intros _; eexists; reflexivity|].
  cbn [orb]. intros ->. eexists. reflexivity.
Qed.

Lemma open_inout_rejects_unset_parameters_witness :
  exists msg,
    open_inout "/in.txt" "" "utf-8" "utf-8" (fun _ => ret tt) with_input
    = (Raise (ValueError msg), with_input).
Proof.
  apply (open_inout_rejects_unset_parameters "/in.txt" "" "utf-8" "utf-8").
  reflexivity.
Defined.

Lemma nth_error_mark_closed_same hs fp h :
  nth_error hs fp = Some h ->
  nth_error (mark_closed hs fp) fp = Some (mkHandle (h_path h) (h_mode h) true).
Proof.
  revert fp; induction hs as [|x hs IH]; intros [|fp]; cbn; try discriminate.
  - now intros [= ->].
  - apply IH.
Qed.

Lemma nth_error_mark_closed_other hs fp k :
  k <> fp -> nth_error (mark_closed hs fp) k = nth_error hs k.
Proof.
  revert fp k; induction hs as [|x hs IH]; intros [|fp] [|k] H; cbn;
    try reflexivity; try contradiction.
  apply IH. congruence.
Qed.

Lemma nth_error_mark_closed_None hs fp k :
  nth_error hs k = None -> nth_error (mark_closed hs fp) k = None.
Proof.
  revert fp k; induction hs as [|x hs IH]; intros [|fp] [|k]; cbn;
    try reflexivity; try discriminate; auto.
Qed.

Lemma is_closed_mark_same hs fp : is_closed (mark_closed hs fp) fp.
Proof.
  unfold is_closed. destruct (nth_error hs fp) as [h|] eqn:E.
  - now rewrite (nth_error_mark_closed_same _ _ _ E).
  - now rewrite (nth_error_mark_closed_None _ _ _ E).
Qed.

Lemma is_closed_mark_other hs fp k :
  is_closed hs k -> is_closed (mark_closed hs fp) k.
Proof.
  destruct (Nat.eq_dec k fp) as [->|Hne]; [intros _; apply is_closed_mark_same|].
  unfold is_closed. now rewrite nth_error_mark_closed_other.
Qed.

(** A closed file object raises on a read and on a write. *)
Lemma closed_read s fp :
  is_closed (handles s) fp -> os_readlines fp s = (Raise closed_file, s).
Proof.
  unfold is_closed, os_readlines, bind, get_state.
  destruct (nth_error (handles s) fp) as [[pos m c]|]; [|reflexivity].
  cbn. intros ->. now destruct m.
Qed.

Lemma closed_write s fp line :
  is_closed (handles s) fp -> os_write fp line s = (Raise closed_file, s).
Proof.
  unfold is_closed, os_write, bind, get_state.
  destruct (nth_error (handles s) fp) as [[pos m c]|]; [|reflexivity].
  cbn. intros ->. now destruct m.
Qed.

(** X7. Once both files are open, [open_inout] ends with the outcome of
    the body, a value or an exception, and with both file objects closed,
    whatever the body did: the directory tree and the working directory are
    as the body left them, and a later read of the input object or write to
    the output object raises. *)
Theorem open_inout_closes_both_files {A} in_file out_file in_enc out_enc
    (body : nat * nat -> M A) s in_fp s1 out_fp s2 r s3 :
  some_unset in_file out_file in_enc out_enc = false ->
  os_open in_file ModeR s = (Ok in_fp, s1) ->
  os_open out_file ModeW s1 = (Ok out_fp, s2) ->
  body (in_fp, out_fp) s2 = (r, s3) ->
  exists s4,
    open_inout in_file out_file in_enc out_enc body s = (r, s4)
    /\ root s4 = root s3 /\ cwd s4 = cwd s3
    /\ is_closed (handles s4) in_fp /\ is_closed (handles s4) out_fp
    /\ os_readlines in_fp s4 = (Raise closed_file, s4)
    /\ (forall line, os_write out_fp line s4 = (Raise closed_file, s4)).
Proof.
  intros Hset Hin Hout Hbody. unfold some_unset in Hset. unfold open_inout.
  destruct (is_empty in_file || is_empty out_file); [discriminate|].
  cbn [orb] in Hset. rewrite Hset.
  rewrite bind_run, Hin, bind_run, Hout.
  unfold try_finally. rewrite Hbody.
  rewrite bind_run, os_close_run, os_close_run.
  cbn [root cwd handles]. eexists. split; [reflexivity|].
  assert (C1 : is_closed (mark_closed (mark_closed (handles s3) in_fp) out_fp)
                 in_fp)
    by apply is_closed_mark_other, is_closed_mark_same.
  assert (C2 : is_closed (mark_closed (mark_closed (handles s3) in_fp) out_fp)
                 out_fp)
    by apply is_closed_mark_same.
  cbn [root cwd handles]. repeat split; auto.
  - now apply closed_read.
  - intros line. now apply closed_write.
Qed.

Lemma open_inout_closes_both_files_witness :
  exists s4,
    open_inout "/in.txt" "/out.txt" "utf-8" "utf-8"
      (fun _ => raise (OtherError "body") : M unit) with_input
    = (Raise (OtherError "body"), s4)
    /\ root s4 = Dir [("in.txt", File ["line"]); ("out.txt", File [])]
    /\ cwd s4 = []
    /\ is_closed (handles s4) 0 /\ is_closed (handles s4) 1
    /\ os_readlines 0 s4 = (Raise closed_file, s4)
    /\ (forall line, os_write 1 line s4 = (Raise closed_file, s4)).
Proof.
  apply (open_inout_closes_both_files "/in.txt" "/out.txt" "utf-8" "utf-8"
           (fun _ => raise (OtherError "body") : M unit) with_input 0
           (mkState (root with_input) [] [mkHandle ["in.txt"] ModeR false]) 1
           (mkState (Dir [("in.txt", File ["line"]); ("out.txt", File [])]) []
              [mkHandle ["in.txt"] ModeR false;
               mkHandle ["out.txt"] ModeW false])
           (Raise (OtherError "body"))
           (mkState (Dir [("in.txt", File ["line"]); ("out.txt", File [])]) []
              [mkHandle ["in.txt"] ModeR false;
               mkHandle ["out.txt"] ModeW false]));
    reflexivity.
Defined.

(** X8. With one path for the input and for the output, the file is
    emptied when it is opened for writing, before the body reads it: the
    body reads no line, and the file is left empty. *)
Theorem open_inout_same_file_reads_nothing file d n lines in_enc out_enc s :
  names_to file (d ++ [n]) -> root_is_dir s ->
  get (root s) (d ++ [n]) = Some (File lines) ->
  is_empty in_enc = false -> is_empty out_enc = false ->
  exists s',
    open_inout file file in_enc out_enc (fun fps => os_readlines (fst fps)) s
    = (Ok [], s')
    /\ get (root s') (d ++ [n]) = Some (File []).
Proof.
  intros Hn Hr Hg He1 He2. unfold open_inout.
  assert (Hf : is_empty file = false)
    by (destruct Hn as [H _]; now destruct file).
  rewrite Hf, He1, He2. cbn [orb].
  rewrite bind_run, (os_open_R_run _ _ _ _ Hn Hr Hg).
  cbn beta iota. rewrite bind_run.
  pose proof (is_dir_parent _ _ _ _ Hg) as Hd.
  rewrite (os_open_W_run _ _ d n Hn);
    [|exact Hr|exact Hd|cbn [root]; unfold is_dir; now rewrite Hg].
  cbn [root cwd handles fst]. unfold try_finally.
  set (r1 := update (root s) d (entry_set n (File []))).
  assert (G1 : get r1 (d ++ [n]) = Some (File []))
    by (subst r1; now apply OSFacts.get_update_new).
  rewrite (os_readlines_run _ _ (d ++ [n]) []).
  2:{ cbn [handles]. rewrite nth_error_app1 by (rewrite length_app; cbn; lia).
      rewrite nth_error_app2 by lia. now rewrite Nat.sub_diag. }
  2:{ exact G1. }
  rewrite bind_run, os_close_run, os_close_run.
  cbn [root cwd handles]. eexists. split; [reflexivity|]. exact G1.
Qed.

Lemma open_inout_same_file_reads_nothing_witness :
  exists s',
    open_inout "/in.txt" "/in.txt" "utf-8" "utf-8"
      (fun fps => os_readlines (fst fps)) with_input
    = (Ok [], s')
    /\ get (root s') ([] ++ ["in.txt"]) = Some (File []).
Proof.
  apply (open_inout_same_file_reads_nothing "/in.txt" [] "in.txt" ["line"]).
  - apply (OSFacts.names_to_slashes "/" ["in.txt"]); [now left|].
    repeat constructor.
  - reflexivity.
  - reflexivity.
  - reflexivity.
  - reflexivity.
Defined.

(** *** The ways in and out of [chdir] *)

Lemma os_chdir_back s c :
  Forall (fun n => valid_name n = true) c -> is_dir (root s) c = true ->
  os_chdir (render c) s = (Ok tt, mkState (root s) c (handles s)).
Proof.
  intros Hc Hd. apply os_chdir_ok; [now apply OSFacts.namei_render | exact Hd].
Qed.

(** X9. [chdir] raises before the body runs, and leaves the state as it
    is, in three cases: without a directory and with a path that names
    nothing the exception is [ValueError]; with a path that names a file,
    which passes the test of line 52, it is the [NotADirectoryError] of
    [os.chdir]. *)
Theorem chdir_rejects_before_the_body {A} (body : string -> M A) s :
  (exists msg, chdir None body s = (Raise (ValueError msg), s))
  /\ (forall directory,
        path_exists directory s = (Ok false, s) ->
        exists msg, chdir (Some directory) body s = (Raise (ValueError msg), s))
  /\ (forall directory pos,
        Forall (fun n => valid_name n = true) (cwd s) ->
        is_dir (root s) (cwd s) = true ->
        namei s directory = Ok pos ->
        is_dir (root s) pos = false ->
        chdir (Some directory) body s = (Raise NotADirectoryError, s)).
Proof.
  split; [eexists; reflexivity|]. split.
  - intros directory Hex. unfold chdir. rewrite bind_run, Hex.
    eexists. reflexivity.
  - intros directory pos Hv Hcwd Hn Hd. unfold chdir.
    rewrite bind_run. unfold path_exists. rewrite Hn. cbn [negb].
    rewrite bind_run, (abspath_ok "." s Hcwd).
    change (isabs ".") with false. cbn iota.
    rewrite OSFacts.normpath_join_render_dot by assumption.
    unfold try_finally. rewrite bind_run.
    unfold os_chdir at 1. rewrite bind_run. unfold lookup.
    rewrite Hn. unfold bind at 1, get_state. rewrite Hd. unfold raise.
    rewrite (os_chdir_back s (cwd s) Hv Hcwd).
    now destruct s.
Qed.

Lemma chdir_rejects_before_the_body_witness :
  (exists msg,
     chdir (Some "/missing") (fun _ => ret tt) with_input
     = (Raise (ValueError msg), with_input))
  /\ chdir (Some "/in.txt") (fun _ => ret tt) with_input
     = (Raise NotADirectoryError, with_input).
Proof.
  split.
  - apply (proj1 (proj2 (chdir_rejects_before_the_body (fun _ => ret tt)
                           with_input))).
    reflexivity.
  - apply (proj2 (proj2 (chdir_rejects_before_the_body (fun _ => ret tt)
                           with_input)) "/in.txt" ["in.txt"]).
    + constructor.
    + reflexivity.
    + reflexivity.
    + reflexivity.
Defined.

(** X10. For an absolute path that spells the location of a directory,
    [chdir] runs the body in that directory and yields [normpath] of the
    path, which spells the same location: here the value is a path of the
    directory switched into. *)
Theorem chdir_absolute_yields_entered_directory {A} directory pos
    (body : string -> M A) s :
  names_to directory pos ->
  Forall (fun n => valid_name n = true) (cwd s) ->
  is_dir (root s) (cwd s) = true ->
  is_dir (root s) pos = true ->
  chdir (Some directory) body s
  = try_finally (body (normpath directory)) (os_chdir (render (cwd s)))
      (mkState (root s) pos (handles s))
  /\ names_to (normpath directory) pos.
Proof.
  intros Hn Hv Hcwd Hd. split; [|now apply OSFacts.names_to_normpath].
  rewrite (chdir_enters directory body s pos); auto.
  - unfold yielded. destruct Hn as [Ha _]. unfold isabs. now rewrite Ha.
  - apply OSFacts.namei_names_to_some; [assumption| |].
    + rewrite <- (app_nil_l (cwd s)) in Hcwd.
      exact (OSFacts.is_dir_prefix _ _ _ Hcwd).
    + unfold is_dir in Hd. now destruct (get (root s) pos).
Qed.

Lemma chdir_absolute_yields_entered_directory_witness :
  chdir (Some "//w/sub") (fun current_dir => ret current_dir) in_w
  = try_finally ((fun current_dir => ret current_dir) (normpath "//w/sub"))
      (os_chdir (render (cwd in_w)))
      (mkState (root in_w) ["w"; "sub"] (handles in_w))
  /\ names_to (normpath "//w/sub") ["w"; "sub"].
Proof.
  apply (chdir_absolute_yields_entered_directory "//w/sub" ["w"; "sub"]).
  - split; [reflexivity|]. split; [repeat constructor|].
    exists [""; ""]. split; [discriminate|]. split; [repeat constructor|].
    reflexivity.
  - repeat constructor.
  - reflexivity.
  - reflexivity.
Defined.

(** X11. When the body has removed the directory that was the working
    directory on entry, the [finally] block of [chdir] raises: the [with]
    statement ends with that exception, also after a body that returned a
    value, and the process stays where the body left it. *)
Theorem chdir_exit_fails_when_origin_is_gone {A} directory pos
    (body : string -> M A) s r s2 :
  Forall (fun n => valid_name n = true) (cwd s) ->
  is_dir (root s) (cwd s) = true ->
  namei s directory = Ok pos ->
  is_dir (root s) pos = true ->
  body (yielded directory pos) (mkState (root s) pos (handles s)) = (r, s2) ->
  root_is_dir s2 ->
  is_dir (root s2) (cwd s) = false ->
  exists e, chdir (Some directory) body s = (Raise e, s2).
Proof.
  intros Hv Hcwd Hn Hd Hbody Hr2 Hgone.
  rewrite (chdir_enters _ _ _ _ Hv Hcwd Hn Hd).
  unfold try_finally. rewrite Hbody.
  unfold os_chdir. rewrite bind_run. unfold lookup.
  destruct (namei s2 (render (cwd s))) as [c|e] eqn:E; [|now exists e].
  assert (Hc : names_to (render (cwd s)) (cwd s))
    by (apply (OSFacts.names_to_slashes "/"); auto).
  destruct (OSFacts.namei_names_to_Ok _ _ _ _ Hc Hr2 E) as [-> _].
  unfold bind, get_state. rewrite Hgone. now exists NotADirectoryError.
Qed.

Lemma chdir_exit_fails_when_origin_is_gone_witness :
  exists e,
    chdir (Some "/t") (fun _ => shutil_rmtree "/w" ;;; ret 1) beside_t
    = (Raise e, mkState (Dir [("t", Dir [])]) ["t"] []).
Proof.
  apply (chdir_exit_fails_when_origin_is_gone "/t" ["t"]
           (fun _ => shutil_rmtree "/w" ;;; ret 1) beside_t (Ok 1)).
  - repeat constructor.
  - reflexivity.
  - reflexivity.
  - reflexivity.
  - reflexivity.
  - reflexivity.
  - reflexivity.
Defined.

End LibsFacts.

Module UnbinderFacts.
Import PyStr Filters OS Libs Unbinder.

(** *** One rewrite of a file *)

Lemma update_set_twice t d n x y :
  update (update t d (entry_set n x)) d (entry_set n y)
  = update t d (entry_set n y).
Proof.
  rewrite OSFacts.update_update. apply OSFacts.update_ext.
  intros es _. apply OSFacts.entry_set_set.
Qed.

Lemma update_set_same t d n x :
  get t (d ++ [n]) = Some x -> update t d (entry_set n x) = t.
Proof.
  intros Hg. apply OSFacts.update_id. intros es Hes.
  destruct (OSFacts.get_snoc_entry _ _ _ _ Hg) as (es' & Hd & He).
  apply OSFacts.entry_set_same. congruence.
Qed.

Lemma get_update_set t d n x :
  is_dir t d = true -> get (update t d (entry_set n x)) (d ++ [n]) = Some x.
Proof.
  unfold is_dir. destruct (get t d) as [[c|es]|] eqn:Hd; try discriminate.
  intros _. rewrite OSFacts.get_app,
    (OSFacts.get_update_self _ _ (entry_set n x) _ Hd).
  cbn. now rewrite OSFacts.entry_get_set_eq.
Qed.

Lemma state_eta s : mkState (root s) (cwd s) (handles s) = s.
Proof. now destruct s. Qed.

(** The loop of [_update_sln] appends to the output file the lines that
    the filter keeps. *)
Lemma sln_write_loop_run lines :
  forall s fp d n cur b,
    nth_error (handles s) fp = Some (mkHandle (d ++ [n]) ModeW false) ->
    get (root s) (d ++ [n]) = Some (File cur) ->
    sln_write_loop fp b lines s
    = (Ok tt,
       mkState
         (update (root s) d
            (entry_set n (File (cur ++ fst (sln_loop b lines)))))
         (cwd s) (handles s)).
Proof.
  induction lines as [|line rest IH]; intros s fp d n cur b Hh Hg.
  - cbn. now rewrite app_nil_r, (update_set_same _ _ _ _ Hg), state_eta.
  - cbn [sln_write_loop sln_loop].
    destruct (sln_line b line) as [written flag].
    specialize (IH (if written
                    then mkState (update (root s) d
                                    (entry_set n (File (cur ++ [line]))))
                           (cwd s) (handles s)
                    else s) fp d n
                   (if written then cur ++ [line] else cur) flag).
    destruct (sln_loop flag rest) as [out final]. cbn [fst] in *.
    rewrite LibsFacts.bind_run. destruct written.
    + rewrite (LibsFacts.os_write_run _ _ _ _ _ _ Hh Hg), IH.
      * cbn [root cwd handles]. rewrite update_set_twice, <- app_assoc.
        reflexivity.
      * exact Hh.
      * cbn [root]. apply get_update_set.
        exact (LibsFacts.is_dir_parent _ _ _ _ Hg).
    + cbn. now rewrite IH.
Qed.

Lemma proj_write_loop_run lines :
  forall s fp d n cur,
    nth_error (handles s) fp = Some (mkHandle (d ++ [n]) ModeW false) ->
    get (root s) (d ++ [n]) = Some (File cur) ->
    proj_write_loop fp lines s
    = (Ok tt,
       mkState
         (update (root s) d (entry_set n (File (cur ++ proj_filter lines))))
         (cwd s) (handles s)).
Proof.
  unfold proj_write_loop.
  induction lines as [|line rest IH]; intros s fp d n cur Hh Hg.
  - cbn. now rewrite app_nil_r, (update_set_same _ _ _ _ Hg), state_eta.
  - cbn [for_each proj_filter]. rewrite LibsFacts.bind_run.
    destruct (proj_line line).
    + rewrite (LibsFacts.os_write_run _ _ _ _ _ _ Hh Hg), (IH _ fp d n (cur ++ [line])).
      * cbn [root cwd handles]. rewrite update_set_twice, <- app_assoc.
        reflexivity.
      * exact Hh.
      * cbn [root]. apply get_update_set.
        exact (LibsFacts.is_dir_parent _ _ _ _ Hg).
    + cbn. now rewrite (IH _ fp d n cur).
Qed.

Section Rewrite.

(** The line loop of a rewriter, and the filter that it writes out. *)
Variable loop : nat -> list string -> M unit.
Variable flt : list string -> list string.

Hypothesis loop_run :
  forall lines s fp d n cur,
    nth_error (handles s) fp = Some (mkHandle (d ++ [n]) ModeW false) ->
    get (root s) (d ++ [n]) = Some (File cur) ->
    loop fp lines s
    = (Ok tt,
       mkState (update (root s) d (entry_set n (File (cur ++ flt lines))))
         (cwd s) (handles s)).

Variables (file : string) (d : path) (n : string).
Hypothesis file_names : names_to file (d ++ [n]).
Hypothesis new_names : names_to (file ++ ".new") (d ++ [(n ++ ".new")%string]).

Lemma nonempty_names p q : names_to p q -> is_empty p = false.
Proof. intros [H _]. now destruct p. Qed.

Lemma open_inout_set :
  is_empty file || is_empty (file ++ ".new") = false.
Proof.
  now rewrite (nonempty_names _ _ file_names),
    (nonempty_names _ _ new_names).
Qed.

(** Without a file at the location the rewrite raises. *)
Lemma rewrite_file_no_file s :
  root_is_dir s ->
  (forall lines, get (root s) (d ++ [n]) <> Some (File lines)) ->
  exists e s', rewrite_file loop file s = (Raise e, s').
Proof.
  intros Hr Hno. unfold rewrite_file, open_inout.
  rewrite open_inout_set. cbn [is_empty orb].
  rewrite !LibsFacts.bind_run.
  destruct (get (root s) (d ++ [n])) as [[c|es]|] eqn:G.
  - now destruct (Hno c).
  - unfold os_open. rewrite LibsFacts.bind_run,
      (LibsFacts.lookup_some _ _ _ file_names Hr) by congruence.
    unfold bind, get_state, is_dir. rewrite G. unfold raise. eauto.
  - unfold os_open. rewrite LibsFacts.bind_run.
    destruct (LibsFacts.lookup_none _ _ _ file_names Hr G) as [e ->]. eauto.
Qed.

(** With a directory under the temporary name the rewrite raises. *)
Lemma rewrite_file_new_is_dir s lines :
  root_is_dir s ->
  get (root s) (d ++ [n]) = Some (File lines) ->
  is_dir (root s) (d ++ [(n ++ ".new")%string]) = true ->
  exists e s', rewrite_file loop file s = (Raise e, s').
Proof.
  intros Hr Hg Hd. unfold rewrite_file, open_inout.
  rewrite open_inout_set. cbn [is_empty orb].
  rewrite !LibsFacts.bind_run.
  rewrite (LibsFacts.os_open_R_run _ _ _ _ file_names Hr Hg).
  cbn beta iota. rewrite LibsFacts.bind_run.
  unfold os_open. rewrite LibsFacts.bind_run,
    (LibsFacts.lookup_create_dir _ _ _ _ new_names);
    [|exact Hr|exact (LibsFacts.is_dir_parent _ _ _ _ Hg)].
  unfold bind, get_state. cbn [fst snd root]. rewrite Hd. unfold raise. eauto.
Qed.

(** Otherwise it returns, and leaves [rewrite_at] of the tree. *)
Lemma rewrite_file_run s lines :
  root_is_dir s ->
  get (root s) (d ++ [n]) = Some (File lines) ->
  is_dir (root s) (d ++ [(n ++ ".new")%string]) = false ->
  exists hs,
    rewrite_file loop file s
    = (Ok tt, mkState (rewrite_at flt (root s) (d ++ [n])) (cwd s) hs).
Proof.
  intros Hr Hg Hnd.
  pose proof (LibsFacts.is_dir_parent _ _ _ _ Hg) as Hd.
  assert (Hne : (n ++ ".new")%string <> n) by apply OSFacts.new_name_differs.
  set (n' := (n ++ ".new")%string) in *.
  set (r1 := update (root s) d (entry_set n' (File []))).
  set (r2 := update (root s) d (entry_set n' (File (flt lines)))).
  assert (Hd1 : is_dir r1 d = true).
  { subst r1. apply LibsFacts.shape_IsDir.
    rewrite OSFacts.shape_update.
    replace (strip_prefix d d) with (Some (@nil string))
      by (rewrite <- (app_nil_r d) at 2; now rewrite OSFacts.strip_prefix_app).
    now apply LibsFacts.shape_IsDir. }
  assert (G1 : get r1 (d ++ [n]) = Some (File lines)).
  { subst r1. apply LibsFacts.shape_IsFile.
    rewrite OSFacts.shape_update, OSFacts.strip_prefix_app.
    destruct (OSFacts.get_snoc_entry _ _ _ _ Hg) as (es & Hes & He).
    rewrite Hes, OSFacts.shape_entry_set.
    destruct (String.eqb n' n) eqn:E;
      [apply String.eqb_eq in E; contradiction|].
    rewrite OSFacts.shape_cons, He. reflexivity. }
  assert (G1' : get r1 (d ++ [n']) = Some (File [])).
  { subst r1. now apply get_update_set. }
  assert (E12 : update r1 d (entry_set n' (File ([] ++ flt lines))) = r2).
  { subst r1 r2. apply update_set_twice. }
  assert (G2 : get r2 (d ++ [n]) = Some (File lines)).
  { subst r2. apply LibsFacts.shape_IsFile.
    rewrite OSFacts.shape_update, OSFacts.strip_prefix_app.
    destruct (OSFacts.get_snoc_entry _ _ _ _ Hg) as (es & Hes & He).
    rewrite Hes, OSFacts.shape_entry_set.
    destruct (String.eqb n' n) eqn:E;
      [apply String.eqb_eq in E; contradiction|].
    rewrite OSFacts.shape_cons, He. reflexivity. }
  assert (G2' : get r2 (d ++ [n']) = Some (File (flt lines))).
  { subst r2. now apply get_update_set. }
  assert (Hd2 : is_dir r2 d = true)
    by exact (LibsFacts.is_dir_parent _ _ _ _ G2).
  assert (Hr2 : is_dir r2 [] = true).
  { subst r2. rewrite OSFacts.is_dir_root_update. exact Hr. }
  unfold rewrite_file, open_inout.
  rewrite open_inout_set. cbn [is_empty orb].
  rewrite !LibsFacts.bind_run.
  rewrite (LibsFacts.os_open_R_run _ _ _ _ file_names Hr Hg).
  cbn beta iota. rewrite LibsFacts.bind_run.
  rewrite (LibsFacts.os_open_W_run _ _ _ _ new_names);
    [|exact Hr|exact Hd|exact Hnd].
  cbn [root cwd handles]. fold r1.
  unfold try_finally. rewrite LibsFacts.bind_run.
  rewrite (LibsFacts.os_readlines_run _ _ (d ++ [n]) lines).
  2:{ cbn [handles]. rewrite nth_error_app1
        by (rewrite length_app; cbn; lia).
      rewrite nth_error_app2 by lia. now rewrite Nat.sub_diag. }
  2:{ exact G1. }
  rewrite (loop_run lines _ _ d n' []).
  2:{ cbn [handles]. rewrite nth_error_app2 by lia. now rewrite Nat.sub_diag. }
  2:{ exact G1'. }
  cbn [root cwd handles]. rewrite E12.
  rewrite LibsFacts.bind_run, LibsFacts.os_close_run, LibsFacts.os_close_run.
  cbn [root cwd handles]. cbn beta iota. rewrite LibsFacts.bind_run.
  match goal with
  | |- context [mkState r2 (cwd s) ?h] => set (hs := h)
  end.
  rewrite (LibsFacts.shutil_copystat_run (mkState r2 (cwd s) hs) _
             (d ++ [n]) _ (d ++ [n']));
    [|exact file_names|exact new_names|exact Hr2
     |cbn [root]; congruence|cbn [root]; congruence].
  cbn beta iota. unfold shutil_move. rewrite LibsFacts.bind_run.
  rewrite (LibsFacts.path_isdir_run _ _ (d ++ [n]));
    [|exact file_names|exact Hr2|cbn [root]; congruence].
  cbn [root]. unfold is_dir at 1. rewrite G2.
  rewrite (LibsFacts.os_rename_run _ _ (d ++ [n']) _ d n (flt lines));
    [|exact new_names|exact file_names|exact Hr2|exact G2'|exact Hd2
     |cbn [root]; unfold is_dir; now rewrite G2
     |intros H; apply app_inj_tail in H as [_ H]; contradiction].
  cbn [root cwd handles]. exists hs. f_equal. f_equal.
  rewrite (OSFacts.rewrite_at_snoc _ _ _ _ _ Hg).
  rewrite OSFacts.remove_at_snoc. subst r2.
  rewrite !OSFacts.update_update. apply OSFacts.update_ext.
  intros es _. fold n'. now rewrite OSFacts.entry_del_set.
Qed.

End Rewrite.

(** *** The lists of [_collect] *)

Lemma fold_collect_file dirpath filenames acc :
  fold_left (collect_file dirpath) filenames acc
  = mkCollected
      (del_dirs acc)
      (del_files acc ++ map (join dirpath) (filter unnecessary_file filenames))
      (sln_files acc ++ map (join dirpath) (filter is_sln filenames))
      (proj_files acc ++ map (join dirpath) (filter is_proj filenames)).
Proof.
  revert acc. induction filenames as [|fname rest IH]; intros acc.
  - cbn. rewrite !app_nil_r. now destruct acc.
  - cbn [fold_left filter]. rewrite IH. unfold collect_file.
    fold (unnecessary_file fname) (is_sln fname) (is_proj fname).
    destruct (unnecessary_file fname), (is_sln fname), (is_proj fname);
      cbn [del_dirs del_files sln_files proj_files map];
      rewrite <- ?app_assoc; reflexivity.
Qed.

Lemma fold_collect_entry entries acc :
  fold_left collect_entry entries acc
  = mkCollected
      (del_dirs acc ++ flat_map entry_dirs entries)
      (del_files acc ++ flat_map (entry_files unnecessary_file) entries)
      (sln_files acc ++ flat_map (entry_files is_sln) entries)
      (proj_files acc ++ flat_map (entry_files is_proj) entries).
Proof.
  revert acc. induction entries as [|[[dirpath dirnames] filenames] rest IH];
    intros acc.
  - cbn. rewrite !app_nil_r. now destruct acc.
  - cbn [fold_left flat_map]. rewrite IH. unfold collect_entry, entry_dirs,
      entry_files. fold (unnecessary_dir dirpath).
    destruct (unnecessary_dir dirpath).
    + cbn [del_dirs del_files sln_files proj_files app].
      now rewrite <- app_assoc.
    + rewrite fold_collect_file.
      cbn [del_dirs del_files sln_files proj_files app].
      now rewrite <- !app_assoc.
Qed.

(** *** Deletion *)

Lemma for_each_cons {A} (x : A) xs (body : A -> M unit) s :
  for_each (x :: xs) body s
  = match body x s with
    | (Ok _, s1) => for_each xs body s1
    | (Raise e, s1) => (Raise e, s1)
    end.
Proof. reflexivity. Qed.

Lemma rmtree_tolerant s p q s' :
  names_to p q -> root_is_dir s ->
  except_FileNotFoundError (shutil_rmtree p) (ret tt) s = (Ok tt, s') ->
  s' = mkState (remove_at (root s) q) (cwd s) (handles s) /\ q <> [].
Proof.
  intros Hn Hr. unfold except_FileNotFoundError, shutil_rmtree.
  rewrite LibsFacts.bind_run.
  destruct (get (root s) q) as [x|] eqn:G.
  - rewrite (LibsFacts.lookup_some _ _ _ Hn Hr) by congruence.
    unfold bind, get_state, is_dir. rewrite G.
    destruct x as [c|es]; [discriminate|].
    destruct q as [|n q]; [discriminate|]. cbn [is_nil].
    unfold set_root. intros [= <-]. split; [reflexivity | discriminate].
  - destruct (LibsFacts.lookup_none _ _ _ Hn Hr G) as [e ->].
    destruct e; try discriminate. unfold ret. intros [= <-].
    rewrite (OSFacts.remove_at_missing _ _ G), state_eta.
    split; [reflexivity|]. intros ->. discriminate.
Qed.

Lemma unlink_tolerant s p q s' :
  names_to p q -> root_is_dir s ->
  except_FileNotFoundError (os_unlink p) (ret tt) s = (Ok tt, s') ->
  s' = mkState (remove_at (root s) q) (cwd s) (handles s) /\ q <> [].
Proof.
  intros Hn Hr. unfold except_FileNotFoundError, os_unlink.
  rewrite LibsFacts.bind_run.
  destruct (get (root s) q) as [x|] eqn:G.
  - rewrite (LibsFacts.lookup_some _ _ _ Hn Hr) by congruence.
    unfold bind, get_state, is_dir. rewrite G.
    destruct x as [c|es]; [|discriminate].
    unfold set_root. intros [= <-]. split; [reflexivity|].
    intros ->. unfold root_is_dir, is_dir in Hr. rewrite G in Hr. discriminate.
  - destruct (LibsFacts.lookup_none _ _ _ Hn Hr G) as [e ->].
    destruct e; try discriminate. unfold ret. intros [= <-].
    rewrite (OSFacts.remove_at_missing _ _ G), state_eta.
    split; [reflexivity|]. intros ->. discriminate.
Qed.

Lemma kept_trans s1 s2 s3 : kept s1 s2 -> kept s2 s3 -> kept s1 s3.
Proof.
  intros (L1 & W1 & R1 & C1) (L2 & W2 & R2 & C2). repeat split; auto.
  - eapply OSFacts.left_of_trans; eauto.
  - congruence.
Qed.

Lemma kept_remove_at s q :
  wf_node (root s) = true -> root_is_dir s ->
  kept s (mkState (remove_at (root s) q) (cwd s) (handles s)).
Proof.
  intros Hw Hr. repeat split; cbn [root cwd].
  - apply OSFacts.left_of_remove_at.
  - now apply OSFacts.wf_remove_at.
  - unfold root_is_dir. cbn [root]. unfold remove_at.
    now rewrite OSFacts.is_dir_root_update.
Qed.

(** A loop of tolerant removals leaves nothing at the locations of its
    paths. *)
Lemma removal_loop (body : string -> M unit) :
  (forall p q s s',
     names_to p q -> root_is_dir s -> body p s = (Ok tt, s') ->
     s' = mkState (remove_at (root s) q) (cwd s) (handles s) /\ q <> []) ->
  forall ps s s',
    (forall p, In p ps -> exists q, names_to p q) ->
    wf_node (root s) = true -> root_is_dir s ->
    for_each ps body s = (Ok tt, s') ->
    kept s s'
    /\ forall p q r, In p ps -> names_to p q ->
                     shape (root s') (q ++ r) = Missing.
Proof.
  intros Hbody ps. induction ps as [|p ps IH]; intros s s' Hps Hw Hr.
  - cbn. intros [= <-]. split; [|contradiction].
    repeat split; auto. apply OSFacts.left_of_refl.
  - rewrite for_each_cons. destruct (body p s) as [[[]|e] s1] eqn:E;
      [|discriminate].
    destruct (Hps p (or_introl eq_refl)) as [q Hq].
    destruct (Hbody _ _ _ _ Hq Hr E) as [-> Hne].
    pose proof (kept_remove_at s q Hw Hr) as K1.
    intros Hloop. destruct K1 as (L1 & W1 & R1 & C1).
    destruct (IH _ _ (fun p' H => Hps p' (or_intror H)) W1 R1 Hloop)
      as [K2 M2].
    split; [eapply kept_trans; [|exact K2]; repeat split; auto|].
    intros p' q' r [<- | Hin] Hq'.
    + destruct (Hbody _ _ _ _ Hq' Hr E) as [Hs' Hne'].
      destruct K2 as (L2 & _). apply (OSFacts.left_of_Missing _ _ _ L2).
      injection Hs' as Hroot. cbn [root]. rewrite Hroot.
      now apply OSFacts.shape_remove_at_below.
    + now apply (M2 p').
Qed.

Section RewriteLoop.

Variable loop : nat -> list string -> M unit.
Variable flt : list string -> list string.

Hypothesis loop_run :
  forall lines s fp d n cur,
    nth_error (handles s) fp = Some (mkHandle (d ++ [n]) ModeW false) ->
    get (root s) (d ++ [n]) = Some (File cur) ->
    loop fp lines s
    = (Ok tt,
       mkState (update (root s) d (entry_set n (File (cur ++ flt lines))))
         (cwd s) (handles s)).

(** A rewrite that returns found a file and left [rewrite_at] of the
    tree. *)
Lemma rewrite_file_Ok file d n s s' :
  names_to file (d ++ [n]) ->
  names_to (file ++ ".new") (d ++ [(n ++ ".new")%string]) ->
  root_is_dir s ->
  rewrite_file loop file s = (Ok tt, s') ->
  exists lines,
    get (root s) (d ++ [n]) = Some (File lines)
    /\ root s' = rewrite_at flt (root s) (d ++ [n])
    /\ cwd s' = cwd s.
Proof.
  intros Hf Hn Hr Hrun.
  destruct (get (root s) (d ++ [n])) as [[c|es]|] eqn:G.
  - exists c. split; [reflexivity|].
    destruct (is_dir (root s) (d ++ [(n ++ ".new")%string])) eqn:Hd.
    + destruct (rewrite_file_new_is_dir loop file d n Hf Hn s c Hr G Hd)
        as (e & s1 & H). congruence.
    + destruct (rewrite_file_run loop flt loop_run file d n Hf Hn s c Hr G Hd)
        as (hs & H). rewrite H in Hrun. injection Hrun as <-. auto.
  - destruct (rewrite_file_no_file loop file d n Hf Hn s Hr) as (e & s1 & H);
      [intros c; congruence | congruence].
  - destruct (rewrite_file_no_file loop file d n Hf Hn s Hr) as (e & s1 & H);
      [intros c; congruence | congruence].
Qed.

Lemma settled_file_rewrite_at A t d n d2 n2 :
  (forall lines, Forall A lines -> Forall A (flt lines)) ->
  settled_file A t d n ->
  settled_file A (rewrite_at flt t (d2 ++ [n2])) d n.
Proof.
  intros HA [Hc Ht]. split.
  - intros lines Hg.
    destruct (list_eq_dec string_dec (d ++ [n]) (d2 ++ [n2])) as [E|E].
    + rewrite <- E in Hg.
      destruct (get t (d ++ [n])) as [[c|es]|] eqn:G.
      * destruct (OSFacts.shape_rewrite_at_self flt _ _ _ _ G) as [Hs _].
        apply LibsFacts.shape_IsFile in Hs. rewrite Hs in Hg.
        injection Hg as <-. apply HA, Hc. reflexivity.
      * unfold rewrite_at in Hg. rewrite G in Hg. congruence.
      * unfold rewrite_at in Hg. rewrite G in Hg. congruence.
    + destruct (OSFacts.shape_rewrite_at_other flt t d2 n2 (d ++ [n]) E)
        as [H | H].
      * apply LibsFacts.shape_Missing in H. congruence.
      * apply Hc. apply LibsFacts.shape_IsFile. rewrite <- H.
        now apply LibsFacts.shape_IsFile.
  - apply LibsFacts.shape_Missing.
    apply (OSFacts.left_of_Missing _ t); [apply OSFacts.left_of_rewrite_at|].
    now apply LibsFacts.shape_Missing.
Qed.

Lemma settled_file_after A t d n lines :
  (forall lines, Forall A (flt lines)) ->
  get t (d ++ [n]) = Some (File lines) ->
  settled_file A (rewrite_at flt t (d ++ [n])) d n.
Proof.
  intros HA Hg.
  destruct (OSFacts.shape_rewrite_at_self flt _ _ _ _ Hg) as [Hs Hn].
  split.
  - intros c Hc. apply LibsFacts.shape_IsFile in Hs.
    rewrite Hs in Hc. injection Hc as <-. apply HA.
  - apply LibsFacts.shape_Missing. apply (Hn []).
Qed.

Lemma kept_rewrite_at s s' q :
  wf_node (root s) = true -> root_is_dir s ->
  root s' = rewrite_at flt (root s) q -> cwd s' = cwd s ->
  kept s s'.
Proof.
  intros Hw Hr Hroot Hcwd. unfold kept, root_is_dir. rewrite Hroot.
  repeat split; auto.
  - apply OSFacts.left_of_rewrite_at.
  - now apply OSFacts.wf_rewrite_at.
  - now rewrite OSFacts.is_dir_root_rewrite_at.
Qed.

(** A loop of rewrites settles its files and keeps the files settled
    that were. *)
Lemma rewrite_loop ps :
  forall s s',
    (forall p, In p ps ->
       exists d n, names_to p (d ++ [n])
                   /\ names_to (p ++ ".new") (d ++ [(n ++ ".new")%string])) ->
    wf_node (root s) = true -> root_is_dir s ->
    for_each ps (rewrite_file loop) s = (Ok tt, s') ->
    kept s s'
    /\ (forall A d n,
          (forall lines, Forall A lines -> Forall A (flt lines)) ->
          settled_file A (root s) d n -> settled_file A (root s') d n)
    /\ (forall A p d n,
          (forall lines, Forall A (flt lines)) ->
          In p ps -> names_to p (d ++ [n]) ->
          settled_file A (root s') d n).
Proof.
  induction ps as [|p ps IH]; intros s s' Hps Hw Hr.
  - cbn. intros [= <-]. split; [|split].
    + unfold kept. repeat split; auto. apply OSFacts.left_of_refl.
    + intros A d n _ H. exact H.
    + intros A p d n _ [].
  - rewrite for_each_cons.
    destruct (rewrite_file loop p s) as [[[]|e] s1] eqn:E; [|discriminate].
    destruct (Hps p (or_introl eq_refl)) as (d0 & n0 & Hp & Hp').
    destruct (rewrite_file_Ok _ _ _ _ _ Hp Hp' Hr E)
      as (c & G & Hroot & Hcwd).
    pose proof (kept_rewrite_at _ _ _ Hw Hr Hroot Hcwd) as K1.
    intros Hloop. pose proof K1 as (L1 & W1 & R1 & C1).
    destruct (IH _ _ (fun p' H => Hps p' (or_intror H)) W1 R1 Hloop)
      as (K2 & P2 & S2).
    split; [eapply kept_trans; eauto|]. split.
    + intros A d n HA HJ. apply P2; [assumption|]. rewrite Hroot.
      now apply settled_file_rewrite_at.
    + intros A p' d n HA [<- | Hin] Hn.
      * pose proof (OSFacts.names_to_unique _ _ _ Hp Hn) as Eq.
        apply app_inj_tail in Eq as [<- <-].
        apply P2; [intros; apply HA|]. rewrite Hroot.
        now apply (settled_file_after A _ _ _ c).
      * now apply (S2 A p').
Qed.

(** A loop of rewrites over settled files leaves the tree as it is. *)
Lemma rewrite_loop_settled t ps :
  (forall p, In p ps ->
     exists d n lines,
       names_to p (d ++ [n])
       /\ names_to (p ++ ".new") (d ++ [(n ++ ".new")%string])
       /\ get t (d ++ [n]) = Some (File lines)
       /\ flt lines = lines
       /\ get t (d ++ [(n ++ ".new")%string]) = None) ->
  is_dir t [] = true ->
  forall c hs, exists hs',
    for_each ps (rewrite_file loop) (mkState t c hs)
    = (Ok tt, mkState t c hs').
Proof.
  intros Hps Hr c. induction ps as [|p ps IH]; intros hs.
  - now exists hs.
  - destruct (Hps p (or_introl eq_refl)) as (d & n & lines & Hp & Hp' & G & Hf & Hn).
    destruct (rewrite_file_run loop flt loop_run p d n Hp Hp'
                (mkState t c hs) lines Hr G) as (hs1 & H1).
    { cbn [root]. unfold is_dir. now rewrite Hn. }
    cbn [root cwd] in H1. rewrite (OSFacts.rewrite_at_settled flt t d n lines) in H1
      by assumption.
    destruct (IH (fun p' H => Hps p' (or_intror H)) hs1) as (hs' & H2).
    exists hs'. now rewrite for_each_cons, H1.
Qed.

End RewriteLoop.

(** *** The body of [unbind] on a clean top *)

Lemma for_each_skip {A} (xs : list A) (body : A -> M unit) s :
  (forall x, In x xs -> body x s = (Ok tt, s)) ->
  for_each xs body s = (Ok tt, s).
Proof.
  induction xs as [|x xs IH]; intros H; [reflexivity|].
  rewrite for_each_cons, (H x (or_introl eq_refl)).
  apply IH. intros y Hy. apply H. now right.
Qed.

Lemma flat_map_nil {A B} (f : A -> list B) xs :
  (forall x, In x xs -> f x = []) -> flat_map f xs = [].
Proof.
  induction xs as [|x xs IH]; intros H; [reflexivity|].
  cbn. rewrite (H x (or_introl eq_refl)). apply IH. intros y Hy. apply H.
  now right.
Qed.

Lemma filter_nil {A} (f : A -> bool) xs :
  (forall x, In x xs -> f x = false) -> filter f xs = [].
Proof.
  induction xs as [|x xs IH]; intros H; [reflexivity|].
  cbn. rewrite (H x (or_introl eq_refl)). apply IH. intros y Hy. apply H.
  now right.
Qed.

Section Body.

Variables (top : string) (tpos : path).
Hypothesis top_names : names_to top tpos.

#[local] Abbreviation walk_of := (Unbinder.walk_of top tpos).
#[local] Abbreviation settled := (Unbinder.settled top tpos).

Lemma os_walk_run s : root_is_dir s -> os_walk top s = (Ok (walk_of s), s).
Proof.
  intros Hr. unfold os_walk, walk_of.
  destruct (get (root s) tpos) as [t|] eqn:G.
  - rewrite (OSFacts.namei_names_to_some _ _ _ top_names Hr) by congruence.
    now rewrite G.
  - now destruct (OSFacts.namei_names_to_none _ _ _ top_names Hr G) as [e ->].
Qed.

Lemma walked_dir s e :
  wf_node (root s) = true -> In e (walk_of s) ->
  exists names es,
    e = (joins top names, dirnames es, filenames es)
    /\ get (root s) (tpos ++ names) = Some (Dir es)
    /\ Forall (fun n => valid_name n = true) names
    /\ names_to (joins top names) (tpos ++ names).
Proof.
  intros Hw. unfold walk_of.
  destruct (get (root s) tpos) as [t|] eqn:G; [|contradiction].
  destruct (OSFacts.wf_get _ _ _ Hw G) as [Ht _]. intros Hin.
  destruct (OSFacts.walk_node_sound t top e Ht Hin) as (names & es & -> & Hg).
  destruct (OSFacts.wf_get _ _ _ Ht Hg) as [_ Hv].
  exists names, es. split; [reflexivity|]. split.
  { now rewrite OSFacts.get_app, G. }
  split; [assumption|]. now apply OSFacts.names_to_joins.
Qed.

Lemma walked_file s names es n :
  wf_node (root s) = true ->
  get (root s) (tpos ++ names) = Some (Dir es) ->
  In n (filenames es) ->
  exists lines,
    get (root s) ((tpos ++ names) ++ [n]) = Some (File lines)
    /\ valid_name n = true.
Proof.
  intros Hw Hg Hin. apply OSFacts.In_filenames in Hin as [c Hin].
  destruct (OSFacts.wf_get _ _ _ Hw Hg) as [Hes _].
  pose proof (OSFacts.In_entry_get _ _ _ Hes Hin) as He.
  exists c. split.
  - rewrite OSFacts.get_app, Hg. cbn. now rewrite He.
  - now destruct (OSFacts.wf_entry_get _ _ _ Hes He).
Qed.

Lemma is_walked s names es :
  get (root s) (tpos ++ names) = Some (Dir es) ->
  In (joins top names, dirnames es, filenames es) (walk_of s).
Proof.
  rewrite OSFacts.get_app. unfold walk_of.
  destruct (get (root s) tpos) as [t|]; [|discriminate].
  apply OSFacts.walk_node_complete.
Qed.

Lemma in_filenames es n lines :
  entry_get n es = Some (File lines) -> In n (filenames es).
Proof.
  intros H. apply OSFacts.In_filenames. exists lines.
  now apply OSFacts.entry_get_In.
Qed.

(** The paths of the list of directories. *)
Lemma entry_dirs_names s p :
  wf_node (root s) = true ->
  In p (flat_map entry_dirs (walk_of s)) ->
  exists names,
    p = joins top names /\ names_to p (tpos ++ names)
    /\ is_dir (root s) (tpos ++ names) = true
    /\ unnecessary_dir p = true.
Proof.
  intros Hw Hin. apply in_flat_map in Hin as (e & He & Hp).
  destruct (walked_dir _ _ Hw He) as (names & es & -> & Hg & Hv & Hn).
  cbn [entry_dirs] in Hp.
  destruct (unnecessary_dir (joins top names)) eqn:E; [|contradiction].
  destruct Hp as [<- | []]. exists names.
  split; [reflexivity|]. split; [assumption|]. split; [|assumption].
  unfold is_dir. now rewrite Hg.
Qed.

(** The paths of the three lists of files. *)
Lemma entry_files_names test s p :
  wf_node (root s) = true ->
  In p (flat_map (entry_files test) (walk_of s)) ->
  exists names n lines,
    p = join (joins top names) n
    /\ names_to p ((tpos ++ names) ++ [n])
    /\ names_to (p ++ ".new") ((tpos ++ names) ++ [(n ++ ".new")%string])
    /\ get (root s) ((tpos ++ names) ++ [n]) = Some (File lines)
    /\ test n = true
    /\ unnecessary_dir (joins top names) = false.
Proof.
  intros Hw Hin. apply in_flat_map in Hin as (e & He & Hp).
  destruct (walked_dir _ _ Hw He) as (names & es & -> & Hg & Hv & Hn).
  cbn [entry_files] in Hp.
  destruct (unnecessary_dir (joins top names)) eqn:E; [contradiction|].
  apply in_map_iff in Hp as (n & <- & Hf).
  apply filter_In in Hf as [Hf Ht].
  destruct (walked_file _ _ _ _ Hw Hg Hf) as (c & Hc & Hvn).
  exists names, n, c. split; [reflexivity|].
  split; [now apply OSFacts.names_to_join|]. split; [|auto].
  rewrite OSFacts.join_new by assumption.
  apply OSFacts.names_to_join; [assumption|].
  now apply OSFacts.valid_name_new.
Qed.

Lemma in_entry_dirs s names :
  is_dir (root s) (tpos ++ names) = true ->
  unnecessary_dir (joins top names) = true ->
  In (joins top names) (flat_map entry_dirs (walk_of s)).
Proof.
  unfold is_dir. destruct (get (root s) (tpos ++ names)) as [[c|es]|] eqn:G;
    try discriminate.
  intros _ Hu. apply in_flat_map. eexists. split; [exact (is_walked _ _ _ G)|].
  cbn [entry_dirs]. rewrite Hu. now left.
Qed.

Lemma in_entry_files test s names n lines :
  get (root s) ((tpos ++ names) ++ [n]) = Some (File lines) ->
  unnecessary_dir (joins top names) = false ->
  test n = true ->
  In (join (joins top names) n) (flat_map (entry_files test) (walk_of s)).
Proof.
  intros Hg Hu Ht.
  destruct (OSFacts.get_snoc_entry _ _ _ _ Hg) as (es & Hd & He).
  apply in_flat_map. eexists. split; [exact (is_walked _ _ _ Hd)|].
  cbn [entry_files]. rewrite Hu. apply in_map. apply filter_In.
  split; [exact (in_filenames _ _ _ He) | exact Ht].
Qed.

Lemma make_writeable_run s :
  wf_node (root s) = true -> root_is_dir s ->
  _make_writeable top s = (Ok tt, s).
Proof.
  intros Hw Hr. unfold _make_writeable.
  rewrite LibsFacts.bind_run, (os_walk_run _ Hr).
  apply for_each_skip. intros e He.
  destruct (walked_dir _ _ Hw He) as (names & es & -> & Hg & Hv & Hn).
  apply for_each_skip. intros n Hin.
  destruct (walked_file _ _ _ _ Hw Hg Hin) as (c & Hc & Hvn).
  rewrite LibsFacts.bind_run. unfold os_access_W_OK, path_exists.
  rewrite (OSFacts.namei_names_to_some s (join (joins top names) n)
             ((tpos ++ names) ++ [n]));
    [reflexivity | now apply OSFacts.names_to_join | assumption | congruence].
Qed.

Lemma collect_run s :
  root_is_dir s ->
  _collect top s
  = (Ok (mkCollected
           (flat_map entry_dirs (walk_of s))
           (flat_map (entry_files unnecessary_file) (walk_of s))
           (flat_map (entry_files is_sln) (walk_of s))
           (flat_map (entry_files is_proj) (walk_of s))),
     s).
Proof.
  intros Hr. unfold _collect.
  rewrite LibsFacts.bind_run, (os_walk_run _ Hr), fold_collect_entry.
  reflexivity.
Qed.

Lemma names_of_location s names x :
  wf_node (root s) = true -> get (root s) (tpos ++ names) = Some x ->
  Forall (fun n => valid_name n = true) names.
Proof.
  intros Hw Hg. destruct (OSFacts.wf_get _ _ _ Hw Hg) as [_ H].
  now apply Forall_app in H.
Qed.

(** The first run: when the body returns, the tree is settled. *)
Lemma unbind_body_settles s s' :
  wf_node (root s) = true -> root_is_dir s ->
  unbind_body top s = (Ok tt, s') ->
  kept s s' /\ settled (root s').
Proof.
  intros Hw Hr. unfold unbind_body.
  rewrite LibsFacts.bind_run, (make_writeable_run _ Hw Hr).
  rewrite LibsFacts.bind_run, (collect_run _ Hr).
  cbn [del_dirs del_files sln_files proj_files].
  set (dd := flat_map entry_dirs (walk_of s)).
  set (df := flat_map (entry_files unnecessary_file) (walk_of s)).
  set (sf := flat_map (entry_files is_sln) (walk_of s)).
  set (pf := flat_map (entry_files is_proj) (walk_of s)).
  rewrite LibsFacts.bind_run. unfold _delete. rewrite LibsFacts.bind_run.
  match goal with
  | |- context [for_each dd ?b s] =>
      destruct (for_each dd b s) as [[[]|e1] s1] eqn:E1;
      [|intros H; discriminate H]
  end.
  match goal with
  | |- context [for_each df ?b s1] =>
      destruct (for_each df b s1) as [[[]|e2] s2] eqn:E2;
      [|intros H; discriminate H]
  end.
  rewrite LibsFacts.bind_run.
  change (_update_sln sf)
    with (for_each sf (rewrite_file (fun o ls => sln_write_loop o false ls))).
  change (_update_proj pf) with (for_each pf (rewrite_file proj_write_loop)).
  match goal with
  | |- context [for_each sf ?b s2] =>
      destruct (for_each sf b s2) as [[[]|e3] s3] eqn:E3;
      [|intros H; discriminate H]
  end.
  intros E4.
  (* the two loops of [_delete] *)
  destruct (removal_loop _ (fun p q s s' => rmtree_tolerant s p q s')
              dd s s1) as [K1 M1]; auto.
  { intros p Hp. destruct (entry_dirs_names _ _ Hw Hp) as (names & _ & Hn & _).
    eauto. }
  pose proof K1 as (L1 & W1 & R1 & C1).
  destruct (removal_loop _ (fun p q s s' => unlink_tolerant s p q s')
              df s1 s2) as [K2 M2]; auto.
  { intros p Hp.
    destruct (entry_files_names _ _ _ Hw Hp) as (names & n & c & _ & Hn & _).
    eauto. }
  pose proof K2 as (L2 & W2 & R2 & C2).
  (* the loops of the two rewriters *)
  destruct (rewrite_loop (fun o ls => sln_write_loop o false ls) sln_filter
              (fun lines s fp d n cur =>
                 sln_write_loop_run lines s fp d n cur false)
              sf s2 s3) as (K3 & P3 & S3); auto.
  { intros p Hp.
    destruct (entry_files_names _ _ _ Hw Hp)
      as (names & n & c & _ & Hn & Hn' & _). eauto. }
  pose proof K3 as (L3 & W3 & R3 & C3).
  destruct (rewrite_loop proj_write_loop proj_filter proj_write_loop_run
              pf s3 s') as (K4 & P4 & S4); auto.
  { intros p Hp.
    destruct (entry_files_names _ _ _ Hw Hp)
      as (names & n & c & _ & Hn & Hn' & _). eauto. }
  pose proof K4 as (L4 & W4 & R4 & C4).
  assert (K : kept s s')
    by (eapply kept_trans; [eapply kept_trans; [eapply kept_trans|]|]; eauto).
  split; [exact K|]. destruct K as (L & _).
  pose proof (OSFacts.left_of_trans _ _ _ L4 L3) as L42.
  pose proof (OSFacts.left_of_trans _ _ _ L42 L2) as L41.
  assert (S1 : forall names,
             is_dir (root s') (tpos ++ names) = true ->
             unnecessary_dir (joins top names) = false).
  { intros names Hd. destruct (unnecessary_dir (joins top names)) eqn:E;
      [exfalso | reflexivity].
    apply LibsFacts.shape_IsDir in Hd.
    pose proof (OSFacts.left_of_IsDir _ _ _ L Hd) as Hd0.
    apply LibsFacts.shape_IsDir in Hd0.
    pose proof (in_entry_dirs _ _ Hd0 E) as Hin.
    assert (Hn : names_to (joins top names) (tpos ++ names)).
    { apply OSFacts.names_to_joins; [assumption|].
      unfold is_dir in Hd0.
      destruct (get (root s) (tpos ++ names)) as [x|] eqn:G; [|discriminate].
      exact (names_of_location _ _ _ Hw G). }
    pose proof (M1 _ _ [] Hin Hn) as HM. rewrite app_nil_r in HM.
    pose proof (OSFacts.left_of_Missing _ _ _ L41 HM). congruence. }
  split; [exact S1|].
  intros names n lines Hg.
  pose proof (S1 names (LibsFacts.is_dir_parent _ _ _ _ Hg)) as Hu.
  assert (Hs : shape (root s') ((tpos ++ names) ++ [n]) = IsFile lines)
    by now apply LibsFacts.shape_IsFile.
  destruct (OSFacts.left_of_IsFile _ _ _ _ L Hs) as (c0 & Hc0).
  apply LibsFacts.shape_IsFile in Hc0.
  assert (Hvn : Forall (fun n => valid_name n = true) (names ++ [n])).
  { apply (names_of_location s _ (File c0) Hw). now rewrite app_assoc. }
  apply Forall_app in Hvn as [Hv Hvn]. inversion Hvn as [|? ? Hvn' _]; subst.
  assert (Hn : names_to (join (joins top names) n) ((tpos ++ names) ++ [n])).
  { apply OSFacts.names_to_join; [|assumption].
    now apply OSFacts.names_to_joins. }
  split; [|split].
  - destruct (unnecessary_file n) eqn:E; [exfalso | reflexivity].
    pose proof (in_entry_files unnecessary_file _ _ _ _ Hc0 Hu E) as Hin.
    pose proof (M2 _ _ [] Hin Hn) as HM. rewrite app_nil_r in HM.
    pose proof (OSFacts.left_of_Missing _ _ _ L4 (OSFacts.left_of_Missing _ _ _ L3 HM)).
    congruence.
  - intros E.
    pose proof (in_entry_files is_sln _ _ _ _ Hc0 Hu E) as Hin.
    assert (J3 : settled_file not_opener (root s3) (tpos ++ names) n).
    { apply (S3 not_opener (join (joins top names) n)); auto.
      intros c. apply (FiltersFacts.sln_loop_output_no_opener false). }
    assert (J4 : settled_file not_opener (root s') (tpos ++ names) n).
    { apply P4; [|exact J3]. intros c. apply FiltersFacts.Forall_proj_filter. }
    destruct J4 as [J4 J4']. split; [|exact J4'].
    unfold sln_filter. now rewrite (FiltersFacts.sln_loop_no_opener _ (J4 _ Hg)).
  - intros E.
    pose proof (in_entry_files is_proj _ _ _ _ Hc0 Hu E) as Hin.
    assert (J4 : settled_file (fun l => proj_line l = true) (root s')
                   (tpos ++ names) n).
    { apply (S4 _ (join (joins top names) n)); auto.
      apply FiltersFacts.proj_filter_all. }
    destruct J4 as [J4 J4']. split; [|exact J4'].
    apply FiltersFacts.proj_filter_fix, J4, Hg.
Qed.

(** The second run: on a settled tree the body returns and leaves the
    tree and the working directory as they are. *)
Lemma unbind_body_settled t c hs :
  wf_node t = true -> is_dir t [] = true -> settled t ->
  exists hs', unbind_body top (mkState t c hs) = (Ok tt, mkState t c hs').
Proof.
  intros Hw Hr [S1 S2]. set (s := mkState t c hs). unfold unbind_body.
  rewrite LibsFacts.bind_run, (make_writeable_run s Hw Hr).
  rewrite LibsFacts.bind_run, (collect_run s Hr).
  cbn [del_dirs del_files sln_files proj_files].
  assert (Edd : flat_map entry_dirs (walk_of s) = []).
  { apply flat_map_nil. intros e He.
    destruct (walked_dir s e Hw He) as (names & es & -> & Hg & _).
    cbn [entry_dirs]. rewrite S1; [reflexivity|].
    unfold is_dir. cbn [root s] in Hg. now rewrite Hg. }
  assert (Edf : flat_map (entry_files unnecessary_file) (walk_of s) = []).
  { apply flat_map_nil. intros e He.
    destruct (walked_dir s e Hw He) as (names & es & -> & Hg & _).
    cbn [entry_files].
    destruct (unnecessary_dir (joins top names)); [reflexivity|].
    rewrite filter_nil; [reflexivity|]. intros n Hn.
    destruct (walked_file s _ _ _ Hw Hg Hn) as (lines & Hl & _).
    now destruct (S2 _ _ _ Hl). }
  rewrite Edd, Edf. rewrite LibsFacts.bind_run.
  change (_delete [] [] s) with (Ok tt, s). cbn beta iota.
  rewrite LibsFacts.bind_run.
  set (sf := flat_map (entry_files is_sln) (walk_of s)).
  set (pf := flat_map (entry_files is_proj) (walk_of s)).
  change (_update_sln sf)
    with (for_each sf (rewrite_file (fun o ls => sln_write_loop o false ls))).
  change (_update_proj pf) with (for_each pf (rewrite_file proj_write_loop)).
  destruct (rewrite_loop_settled (fun o ls => sln_write_loop o false ls)
              sln_filter
              (fun lines s fp d n cur =>
                 sln_write_loop_run lines s fp d n cur false)
              t sf) with (c := c) (hs := hs) as (hs1 & H1); auto.
  { intros p Hp.
    destruct (entry_files_names is_sln s p Hw Hp)
      as (names & n & lines & _ & Hn & Hn' & Hg & Ht & _).
    destruct (S2 _ _ _ Hg) as (_ & Hs & _). destruct (Hs Ht) as [Hf Hnew].
    exists (tpos ++ names), n, lines. auto. }
  fold s in H1. rewrite H1.
  destruct (rewrite_loop_settled proj_write_loop proj_filter
              proj_write_loop_run t pf) with (c := c) (hs := hs1)
    as (hs2 & H2); auto.
  { intros p Hp.
    destruct (entry_files_names is_proj s p Hw Hp)
      as (names & n & lines & _ & Hn & Hn' & Hg & Ht & _).
    destruct (S2 _ _ _ Hg) as (_ & _ & Hs). destruct (Hs Ht) as [Hf Hnew].
    exists (tpos ++ names), n, lines. auto. }
  exists hs2. exact H2.
Qed.

End Body.

(** *** The whole of [unbind] *)

Lemma Forall_removelast {A} (P : A -> Prop) l :
  Forall P l -> Forall P (removelast l).
Proof.
  intros H. destruct l as [|x l _] using rev_ind; [constructor|].
  rewrite removelast_last. now apply Forall_app in H.
Qed.

Lemma valid_last l :
  l <> [] -> Forall (fun n => valid_name n = true) l ->
  valid_name (last l "") = true.
Proof.
  intros Hne H. destruct l as [|x l _] using rev_ind; [contradiction|].
  rewrite last_last. apply Forall_app in H as [_ H]. now inversion H.
Qed.

Lemma makedirs_comps_kept comps :
  forall t pos t' pos',
    makedirs_comps t pos comps = Ok (t', pos') ->
    wf_node t = true ->
    Forall (fun n => valid_name n = true) pos ->
    Forall (fun c => no_slash c = true) comps ->
    wf_node t' = true
    /\ Forall (fun n => valid_name n = true) pos'
    /\ is_dir t' [] = is_dir t [].
Proof.
  induction comps as [|c comps IH]; intros t pos t' pos'; cbn [makedirs_comps].
  - intros [= <- <-]. auto.
  - intros H Hw Hp Hc. inversion Hc as [|? ? Hc1 Hc2]; subst.
    destruct (get t pos) as [[l|es]|]; try discriminate.
    destruct (String.eqb c "" || String.eqb c ".") eqn:E1;
      [now apply (IH _ _ _ _ H)|].
    destruct (String.eqb c "..") eqn:E2.
    { apply (IH _ _ _ _ H); auto. now apply Forall_removelast. }
    assert (Hv : valid_name c = true).
    { unfold valid_name. apply orb_false_iff in E1 as [-> ->].
      now rewrite E2, Hc1. }
    assert (Hp' : Forall (fun n => valid_name n = true) (pos ++ [c]))
      by (apply Forall_app; auto).
    destruct (get t (pos ++ [c])).
    + now apply (IH _ _ _ _ H).
    + destruct (IH _ _ _ _ H) as (W & P & D); auto.
      * apply OSFacts.wf_update; [assumption|]. intros es' Hes'.
        now apply OSFacts.wf_entry_set.
      * repeat split; auto. now rewrite D, OSFacts.is_dir_root_update.
Qed.

Lemma wf_state_inv s :
  wf_state s = true ->
  wf_node (root s) = true /\ root_is_dir s
  /\ Forall (fun n => valid_name n = true) (cwd s).
Proof.
  unfold wf_state. intros H. apply andb_true_iff in H as [H H3].
  apply andb_true_iff in H as [H1 H2]. repeat split; auto.
  apply Forall_forall. now apply forallb_forall.
Qed.

(** [_copytree] keeps the state well formed and the working directory. *)
Lemma copytree_kept orig dest s s0 :
  wf_state s = true ->
  _copytree orig dest s = (Ok tt, s0) ->
  wf_node (root s0) = true /\ root_is_dir s0 /\ cwd s0 = cwd s.
Proof.
  intros Hs. destruct (wf_state_inv _ Hs) as (Hw & Hr & Hc).
  unfold _copytree. rewrite LibsFacts.bind_run.
  unfold path_exists at 1.
  destruct (namei s dest) as [pos|e] eqn:Hn; cbn [negb].
  { intros [= <-]. auto. }
  unfold shutil_copytree. rewrite LibsFacts.bind_run. unfold lookup.
  destruct (namei s orig) as [spos|e'] eqn:Ho; [|discriminate].
  rewrite LibsFacts.bind_run. unfold path_exists. rewrite Hn.
  unfold bind, get_state.
  destruct (get (root s) spos) as [[l|es]|] eqn:G; try discriminate.
  destruct (is_empty dest); [discriminate|].
  destruct (makedirs_comps (root s) (start_of s dest) (split_slash dest))
    as [[t dpos]|e''] eqn:Em; [|discriminate].
  destruct (is_nil dpos) eqn:En; [discriminate|].
  destruct (copies_into_itself es spos dpos); [discriminate|].
  unfold set_root. intros [= <-]. cbn [root cwd].
  destruct (makedirs_comps_kept _ _ _ _ _ Em Hw) as (Wt & Pd & Dt).
  { unfold start_of. destruct (isabs dest); [constructor | assumption]. }
  { apply OSFacts.split_slash_comps_no_slash. }
  split; [|split; [|reflexivity]].
  - apply OSFacts.wf_update; [assumption|]. intros es' Hes'.
    apply OSFacts.wf_entry_set; [assumption| |].
    + apply valid_last; [now destruct dpos | assumption].
    + now destruct (OSFacts.wf_get _ _ _ Hw G).
  - unfold root_is_dir. cbn [root].
    now rewrite OSFacts.is_dir_root_update, Dt.
Qed.

Lemma walk_comps_same_location comps :
  forall t t' pos p p',
    walk_comps t pos comps = Ok p -> walk_comps t' pos comps = Ok p' ->
    p = p'.
Proof.
  induction comps as [|c comps IH]; intros t t' pos p p'; cbn [walk_comps].
  - congruence.
  - destruct (get t pos) as [[l|es]|]; try discriminate.
    destruct (get t' pos) as [[l'|es']|]; try discriminate.
    destruct (String.eqb c "" || String.eqb c "."); [apply IH|].
    destruct (String.eqb c ".."); apply IH.
Qed.

(** A path names the same location in two states with the same working
    directory, if it names one in both. *)
Lemma namei_same_location s s' p pos pos' :
  cwd s' = cwd s -> namei s p = Ok pos -> namei s' p = Ok pos' -> pos' = pos.
Proof.
  intros Hc. unfold namei, start_of. rewrite Hc.
  destruct (is_empty p); [discriminate|].
  destruct (walk_comps (root s) _ _) as [q|] eqn:E; [|discriminate].
  destruct (walk_comps (root s') _ _) as [q'|] eqn:E'; [|discriminate].
  rewrite (walk_comps_same_location _ _ _ _ _ _ E E').
  destruct (get (root s) q'); [|discriminate].
  destruct (get (root s') q'); [|discriminate]. congruence.
Qed.

(** The value that [chdir] yields spells a location. *)
Lemma yielded_names_to directory pos :
  exists tpos, names_to (yielded directory pos) tpos.
Proof.
  unfold yielded, isabs. destruct (startswith directory "/") eqn:E.
  - now apply OSFacts.normpath_names_to.
  - apply OSFacts.normpath_names_to. unfold join. rewrite E.
    now destruct (is_empty (render pos) || endswith (render pos) "/").
Qed.

Lemma names_to_render c :
  Forall (fun n => valid_name n = true) c -> names_to (render c) c.
Proof. intros Hc. apply (OSFacts.names_to_slashes "/"); auto. Qed.

(** Two runs of [unbind]: after a run that returned, with the destination
    still a directory, a second run returns and leaves the tree and the
    working directory as the first run left them. *)
Lemma unbind_twice orig dest s s' :
  wf_state s = true ->
  unbind orig dest s = (Ok tt, s') ->
  path_isdir dest s' = (Ok true, s') ->
  exists hs,
    unbind orig dest s' = (Ok tt, mkState (root s') (cwd s') hs).
Proof.
  intros Hs Hrun Hdir. destruct (wf_state_inv _ Hs) as (Hw & Hr & Hc).
  unfold unbind in Hrun. rewrite LibsFacts.bind_run in Hrun.
  destruct (_copytree orig dest s) as [[[]|e] s0] eqn:Ecopy; [|discriminate].
  destruct (copytree_kept _ _ _ _ Hs Ecopy) as (Hw0 & Hr0 & Hc0).
  destruct (LibsFacts.chdir_Ok_inv _ _ _ _ _ Hrun) as (pos & Hn & Hd & Hcwd).
  rewrite <- Hc0 in Hc.
  rewrite (LibsFacts.chdir_enters _ _ _ _ Hc Hcwd Hn Hd) in Hrun.
  unfold try_finally in Hrun.
  destruct (yielded_names_to dest pos) as [tpos Htop].
  set (top := yielded dest pos) in *.
  destruct (unbind_body top (mkState (root s0) pos (handles s0)))
    as [r s2] eqn:Ebody.
  destruct (os_chdir (render (cwd s0)) s2) as [[[]|e] s3] eqn:Eback;
    [|discriminate].
  injection Hrun as -> ->.
  destruct (unbind_body_settles top tpos Htop
              (mkState (root s0) pos (handles s0)) s2 Hw0 Hr0 Ebody)
    as ((L & W2 & R2 & C2) & Hsettled).
  (* the way back *)
  unfold os_chdir in Eback. rewrite LibsFacts.bind_run in Eback.
  unfold lookup in Eback.
  destruct (namei s2 (render (cwd s0))) as [c'|e] eqn:Eb; [|discriminate].
  destruct (OSFacts.namei_names_to_Ok _ _ _ _ (names_to_render _ Hc) R2 Eb)
    as [-> _].
  unfold bind, get_state in Eback.
  destruct (is_dir (root s2) (cwd s0)) eqn:Hback; [|discriminate].
  injection Eback as <-. cbn [root cwd] in *.
  (* the second run *)
  unfold path_isdir in Hdir. cbn [root] in Hdir.
  set (s' := mkState (root s2) (cwd s0) (handles s2)) in *.
  destruct (namei s' dest) as [pos'|e] eqn:Hn'; [|discriminate].
  injection Hdir as Hd'.
  assert (pos' = pos) by (apply (namei_same_location s0 s' dest); auto).
  subst pos'.
  unfold unbind. rewrite LibsFacts.bind_run. unfold _copytree.
  rewrite LibsFacts.bind_run. unfold path_exists at 1. rewrite Hn'.
  cbn [negb]. unfold ret at 1. cbn beta iota.
  rewrite (LibsFacts.chdir_enters dest unbind_body s' pos); auto.
  cbn [root cwd handles s']. fold top.
  destruct (unbind_body_settled top tpos Htop (root s2) pos (handles s2)
              W2 R2 Hsettled) as (hs & Hsecond).
  unfold try_finally. rewrite Hsecond.
  rewrite (LibsFacts.os_chdir_ok (render (cwd s0)) _ (cwd s0));
    [|now apply OSFacts.namei_render | exact Hback].
  cbn [root handles]. now exists hs.
Qed.

(** C6. The transformation is idempotent. The filter of the solution files
    leaves its own output as it is, and so does the filter of the project
    files. And so, in a well-formed state, after a run of [unbind] that
    returned and left the destination a directory, a second run with the
    same arguments returns and leaves the directory tree and the working
    directory exactly as the first run left them: it removes no line and
    deletes nothing. *)
Theorem unbind_idempotent :
  (forall lines, sln_filter (sln_filter lines) = sln_filter lines)
  /\ (forall lines, proj_filter (proj_filter lines) = proj_filter lines)
  /\ (forall orig dest s s',
        wf_state s = true ->
        unbind orig dest s = (Ok tt, s') ->
        path_isdir dest s' = (Ok true, s') ->
        exists hs,
          unbind orig dest s' = (Ok tt, mkState (root s') (cwd s') hs)).
Proof.
  split; [exact FiltersFacts.sln_filter_idempotent|].
  split; [exact FiltersFacts.proj_filter_idempotent|].
  exact unbind_twice.
Qed.

Lemma unbind_idempotent_witness :
  exists hs,
    unbind "/o" "/d" (snd (unbind "/o" "/d" bound_tree))
    = (Ok tt,
       mkState (root (snd (unbind "/o" "/d" bound_tree)))
         (cwd (snd (unbind "/o" "/d" bound_tree))) hs).
Proof.
  apply (proj2 (proj2 unbind_idempotent) "/o" "/d" bound_tree).
  - reflexivity.
  - vm_compute. reflexivity.
  - vm_compute. reflexivity.
Defined.

(** C6 as it is written fails: a run may delete its own destination. The
    path of the destination [/x/Release] ends in [Release], so the first
    run, which finds the destination and copies nothing, lists and removes
    it, and returns. The second run finds no destination: it copies the
    source, removes the copy, and raises where the first run returned. *)
Lemma second_run_raises_counterexample :
  wf_state release_dest = true
  /\ unbind "/o" "/x/Release" release_dest
     = (Ok tt,
        mkState
          (Dir [("o", Dir [("sub", Dir [("a.sln", File ["Global"])])]);
                ("x", Dir [])])
          [] [])
  /\ unbind "/o" "/x/Release"
       (mkState
          (Dir [("o", Dir [("sub", Dir [("a.sln", File ["Global"])])]);
                ("x", Dir [])])
          [] [])
     = (Raise FileNotFoundError,
        mkState
          (Dir [("o", Dir [("sub", Dir [("a.sln", File ["Global"])])]);
                ("x", Dir [])])
          [] []).
Proof. repeat split. Qed.

(** What the first run makes of [bound_tree]: a copy without the region of
    the solution, the tag line of the project, the debug database and the
    build output. *)
Example unbind_bound_tree :
  root (snd (unbind "/o" "/d" bound_tree))
  = Dir [("o", Dir
           [("a.sln", File ["Global"; "  GlobalSection(TeamFoundationVersionControl) = preSolution";
                            "    SccNumberOfProjects = 2"; "  EndGlobalSection";
                            "EndGlobal"]);
            ("a.csproj", File ["<Project>"; "  <SccProjectName>x</SccProjectName>";
                               "</Project>"]);
            ("a.pdb", File []);
            ("bin", Dir [("Debug", Dir [("a.dll", File [])])])]);
         ("d", Dir
           [("a.sln", File ["Global"; "EndGlobal"]);
            ("a.csproj", File ["<Project>"; "</Project>"]);
            ("bin", Dir [])])].
Proof. vm_compute. reflexivity. Qed.

(** With a relative destination the body of [unbind] gets a path that
    names nothing, and the copy stays as it was copied. *)
Example unbind_relative_destination :
  get (root (snd (unbind "/o" "d" bound_tree))) ["d"]
  = get (root bound_tree) ["o"].
Proof. vm_compute. reflexivity. Qed.

(** The files that lie directly in a directory recorded for deletion are
    not classified. *)
Lemma collect_entry_skips_direct_files acc dirpath dirnames filenames :
  endswith_any dirpath unnecessary_dir_types = true ->
  let acc' := collect_entry acc (dirpath, dirnames, filenames) in
  del_dirs acc' = del_dirs acc ++ [dirpath]
  /\ del_files acc' = del_files acc
  /\ sln_files acc' = sln_files acc
  /\ proj_files acc' = proj_files acc.
Proof. intros H. unfold collect_entry. rewrite H. cbn. auto. Qed.

(** C2 fails on the program. The walk is not pruned. Let [top] spell a
    location, let the directory [names] below it be one that [_collect]
    records for deletion, and let it have a subdirectory [m] whose own path
    does not end in an unnecessary name. Then the path of the directory is
    in the list of directories to delete, and a file [n] of the
    subdirectory is classified by its name all the same: its path, which
    lies under the recorded directory, is in the list of solution files, of
    project files or of files to delete. *)
Theorem collect_descends_below_deleted_directory
    top tpos s names m n lines :
  names_to top tpos ->
  root_is_dir s ->
  unnecessary_dir (joins top names) = true ->
  unnecessary_dir (joins top (names ++ [m])) = false ->
  get (root s) ((tpos ++ names ++ [m]) ++ [n]) = Some (File lines) ->
  exists c,
    _collect top s = (Ok c, s)
    /\ In (joins top names) (del_dirs c)
    /\ (is_sln n = true ->
        In (join (join (joins top names) m) n) (sln_files c))
    /\ (is_proj n = true ->
        In (join (join (joins top names) m) n) (proj_files c))
    /\ (unnecessary_file n = true ->
        In (join (join (joins top names) m) n) (del_files c)).
Proof.
  intros Htop Hr Hdel Hsub Hg. eexists. split; [exact (collect_run top tpos Htop s Hr)|].
  cbn [del_dirs del_files sln_files proj_files].
  rewrite <- (OSFacts.joins_snoc top names m).
  split; [|split; [|split]].
  - apply in_entry_dirs; [|assumption].
    pose proof (LibsFacts.is_dir_parent _ _ _ _ Hg) as Hd.
    rewrite app_assoc in Hd. unfold is_dir in Hd.
    destruct (get (root s) ((tpos ++ names) ++ [m])) as [x|] eqn:G;
      [|discriminate].
    exact (LibsFacts.is_dir_parent _ _ _ _ G).
  - intros H. exact (in_entry_files top tpos is_sln s _ n lines Hg Hsub H).
  - intros H. exact (in_entry_files top tpos is_proj s _ n lines Hg Hsub H).
  - intros H.
    exact (in_entry_files top tpos unnecessary_file s _ n lines Hg Hsub H).
Qed.

Lemma collect_descends_below_deleted_directory_witness :
  exists c,
    _collect "/d" nested_debug = (Ok c, nested_debug)
    /\ In (joins "/d" ["bin"; "Debug"]) (del_dirs c)
    /\ (is_sln "a.sln" = true ->
        In (join (join (joins "/d" ["bin"; "Debug"]) "net") "a.sln")
          (sln_files c))
    /\ (is_proj "a.sln" = true ->
        In (join (join (joins "/d" ["bin"; "Debug"]) "net") "a.sln")
          (proj_files c))
    /\ (unnecessary_file "a.sln" = true ->
        In (join (join (joins "/d" ["bin"; "Debug"]) "net") "a.sln")
          (del_files c)).
Proof.
  apply (collect_descends_below_deleted_directory "/d" ["d"] nested_debug
           ["bin"; "Debug"] "net" "a.sln" ["Global"]).
  - apply (OSFacts.names_to_slashes "/" ["d"]); [now left|].
    repeat constructor.
  - reflexivity.
  - reflexivity.
  - reflexivity.
  - reflexivity.
Defined.

(** The lists for [nested_debug], and what becomes of the run: [unbind]
    raises when it opens the solution file that went with the directory. *)
Example collect_nested_debug :
  _collect "/d" nested_debug
  = (Ok (mkCollected
           ["/d/bin/Debug"]
           ["/d/bin/Debug/net/a.pdb"]
           ["/d/bin/Debug/net/a.sln"]
           ["/d/bin/Debug/net/a.csproj"]),
     nested_debug)
  /\ fst (unbind "/o" "/d" nested_debug) = Raise FileNotFoundError.
Proof. split; reflexivity. Qed.

(** *** The names that [_collect] tests, by their last character *)

Lemma unnecessary_dir_last p :
  unnecessary_dir p = true ->
  endswith p "g" = true \/ endswith p "e" = true \/ endswith p "p" = true.
Proof.
  unfold unnecessary_dir, endswith_any, unnecessary_dir_types. cbn [existsb].
  rewrite !orb_true_iff. intros [H | [H | [H | H]]]; [| | |discriminate].
  - left. exact (PyStrFacts.endswith_app p "Debu" "g" H).
  - right; left. exact (PyStrFacts.endswith_app p "Releas" "e" H).
  - right; right. exact (PyStrFacts.endswith_app p "StyleCo" "p" H).
Qed.

Lemma unnecessary_file_last p :
  unnecessary_file p = true ->
  endswith p "c" = true \/ endswith p "r" = true \/ endswith p "b" = true.
Proof.
  unfold unnecessary_file, endswith_any, unnecessary_file_types. cbn [existsb].
  rewrite !orb_true_iff. intros [H | [H | [H | [H | H]]]]; [| | | |discriminate].
  - left. exact (PyStrFacts.endswith_app p ".vsssc" "c" H).
  - right; left. exact (PyStrFacts.endswith_app p ".use" "r" H).
  - left. exact (PyStrFacts.endswith_app p ".vspsc" "c" H).
  - right; right. exact (PyStrFacts.endswith_app p ".pd" "b" H).
Qed.

Lemma is_sln_last p : is_sln p = true -> endswith p "n" = true.
Proof. exact (PyStrFacts.endswith_app p ".sl" "n"). Qed.

Lemma is_proj_last p : is_proj p = true -> endswith p "j" = true.
Proof. exact (PyStrFacts.endswith_app p "pro" "j"). Qed.

Lemma new_last m : endswith (m ++ ".new") "w" = true.
Proof.
  apply PyStrFacts.endswith_spec. exists (m ++ ".ne")%string.
  now rewrite PyStrFacts.append_assoc.
Qed.

Ltac last_clash :=
  match goal with
  | H1 : endswith ?p (String ?c "") = true,
    H2 : endswith ?p (String ?c' "") = true |- _ =>
      pose proof (PyStrFacts.endswith_char_unique p c c' H1 H2); discriminate
  end.

(** The four tests exclude one another. *)
Lemma classes_exclusive p :
  (unnecessary_dir p = true ->
   unnecessary_file p = false /\ is_sln p = false /\ is_proj p = false)
  /\ (unnecessary_file p = true -> is_sln p = false /\ is_proj p = false)
  /\ (is_sln p = true -> is_proj p = false).
Proof.
  split; [|split].
  - intros Hd. apply unnecessary_dir_last in Hd.
    repeat split.
    + destruct (unnecessary_file p) eqn:E; [|reflexivity].
      apply unnecessary_file_last in E.
      destruct Hd as [?|[?|?]], E as [?|[?|?]]; last_clash.
    + destruct (is_sln p) eqn:E; [|reflexivity]. apply is_sln_last in E.
      destruct Hd as [?|[?|?]]; last_clash.
    + destruct (is_proj p) eqn:E; [|reflexivity]. apply is_proj_last in E.
      destruct Hd as [?|[?|?]]; last_clash.
  - intros Hd. apply unnecessary_file_last in Hd. split.
    + destruct (is_sln p) eqn:E; [|reflexivity]. apply is_sln_last in E.
      destruct Hd as [?|[?|?]]; last_clash.
    + destruct (is_proj p) eqn:E; [|reflexivity]. apply is_proj_last in E.
      destruct Hd as [?|[?|?]]; last_clash.
  - intros Hd. apply is_sln_last in Hd.
    destruct (is_proj p) eqn:E; [|reflexivity]. apply is_proj_last in E.
    last_clash.
Qed.

(** A temporary name is a name of no class. *)
Lemma new_name_class m :
  unnecessary_file (m ++ ".new") = false
  /\ is_sln (m ++ ".new") = false /\ is_proj (m ++ ".new") = false.
Proof.
  pose proof (new_last m) as Hw. repeat split.
  - destruct (unnecessary_file (m ++ ".new")) eqn:E; [|reflexivity].
    apply unnecessary_file_last in E. destruct E as [?|[?|?]]; last_clash.
  - destruct (is_sln (m ++ ".new")) eqn:E; [|reflexivity].
    apply is_sln_last in E. last_clash.
  - destruct (is_proj (m ++ ".new")) eqn:E; [|reflexivity].
    apply is_proj_last in E. last_clash.
Qed.

Lemma in_entry_dirs_class entries p :
  In p (flat_map entry_dirs entries) -> unnecessary_dir p = true.
Proof.
  intros H. apply in_flat_map in H as ([[d dn] fn] & _ & H).
  cbn [entry_dirs] in H.
  destruct (unnecessary_dir d) eqn:E; [|contradiction].
  destruct H as [<- | []]. exact E.
Qed.

Lemma in_entry_files_class test entries p :
  (forall d n, test n = true -> test (join d n) = true) ->
  In p (flat_map (entry_files test) entries) -> test p = true.
Proof.
  intros Ht H. apply in_flat_map in H as ([[d dn] fn] & _ & H).
  cbn [entry_files] in H.
  destruct (unnecessary_dir d); [contradiction|].
  apply in_map_iff in H as (n & <- & Hn). apply filter_In in Hn as [_ Hn].
  now apply Ht.
Qed.

(** X4. [_collect] returns, whatever the directory, and leaves the state
    as it is. Every path of a list passes the test of the list, and no path
    is in two of the four lists: no path that goes to [_delete] goes to a
    rewriter, and none goes to both rewriters. (A file below a directory
    listed for deletion can be listed all the same.) *)
Theorem collect_lists_are_disjoint directory s :
  exists c,
    _collect directory s = (Ok c, s)
    /\ Forall (fun p => unnecessary_dir p = true) (del_dirs c)
    /\ Forall (fun p => unnecessary_file p = true) (del_files c)
    /\ Forall (fun p => is_sln p = true) (sln_files c)
    /\ Forall (fun p => is_proj p = true) (proj_files c)
    /\ (forall p, In p (del_dirs c) ->
                  ~ In p (del_files c) /\ ~ In p (sln_files c)
                  /\ ~ In p (proj_files c))
    /\ (forall p, In p (del_files c) ->
                  ~ In p (sln_files c) /\ ~ In p (proj_files c))
    /\ (forall p, In p (sln_files c) -> ~ In p (proj_files c)).
Proof.
  unfold _collect. rewrite LibsFacts.bind_run.
  assert (Hw : exists entries, os_walk directory s = (Ok entries, s)).
  { unfold os_walk. destruct (namei s directory) as [pos|e]; [|eauto].
    destruct (get (root s) pos); eauto. }
  destruct Hw as [entries ->]. unfold ret.
  rewrite fold_collect_entry. cbn [app].
  eexists. split; [reflexivity|].
  cbn [del_dirs del_files sln_files proj_files].
  assert (D : forall p, In p (flat_map entry_dirs entries) ->
                        unnecessary_dir p = true)
    by (intros p; apply in_entry_dirs_class).
  assert (F : forall p, In p (flat_map (entry_files unnecessary_file) entries) ->
                        unnecessary_file p = true).
  { intros p. apply in_entry_files_class. intros d n.
    apply OSFacts.endswith_any_join. }
  assert (S : forall p, In p (flat_map (entry_files is_sln) entries) ->
                        is_sln p = true).
  { intros p. apply in_entry_files_class. intros d n.
    apply OSFacts.endswith_join. }
  assert (P : forall p, In p (flat_map (entry_files is_proj) entries) ->
                        is_proj p = true).
  { intros p. apply in_entry_files_class. intros d n.
    apply OSFacts.endswith_join. }
  split; [now apply Forall_forall|]. split; [now apply Forall_forall|].
  split; [now apply Forall_forall|]. split; [now apply Forall_forall|].
  split; [|split].
  - intros p H1. apply D in H1.
    destruct (classes_exclusive p) as (Xd & _). destruct (Xd H1) as (N1 & N2 & N3).
    repeat split; intros H2.
    + apply F in H2. congruence.
    + apply S in H2. congruence.
    + apply P in H2. congruence.
  - intros p H1. apply F in H1.
    destruct (classes_exclusive p) as (_ & Xf & _). destruct (Xf H1) as (N2 & N3).
    split; intros H2.
    + apply S in H2. congruence.
    + apply P in H2. congruence.
  - intros p H1 H2. apply S in H1. apply P in H2.
    destruct (classes_exclusive p) as (_ & _ & Xs). rewrite (Xs H1) in H2.
    discriminate.
Qed.

(** X5. The lists of [_collect], location by location, for a top path that
    spells a location in a well-formed tree. The directories listed are the
    directories at and below the top whose path ends in one of the three
    names; the files of each of the three other lists are the files whose
    name passes the test of the list and whose own directory is not listed,
    wherever that directory lies. *)
Theorem collect_finds_exactly top tpos s :
  names_to top tpos -> wf_node (root s) = true -> root_is_dir s ->
  exists c,
    _collect top s = (Ok c, s)
    /\ (forall p,
          In p (del_dirs c) <->
          exists names,
            p = joins top names /\ is_dir (root s) (tpos ++ names) = true
            /\ unnecessary_dir p = true)
    /\ (forall p,
          In p (del_files c) <->
          exists names n lines,
            p = join (joins top names) n
            /\ get (root s) ((tpos ++ names) ++ [n]) = Some (File lines)
            /\ unnecessary_file n = true
            /\ unnecessary_dir (joins top names) = false)
    /\ (forall p,
          In p (sln_files c) <->
          exists names n lines,
            p = join (joins top names) n
            /\ get (root s) ((tpos ++ names) ++ [n]) = Some (File lines)
            /\ is_sln n = true
            /\ unnecessary_dir (joins top names) = false)
    /\ (forall p,
          In p (proj_files c) <->
          exists names n lines,
            p = join (joins top names) n
            /\ get (root s) ((tpos ++ names) ++ [n]) = Some (File lines)
            /\ is_proj n = true
            /\ unnecessary_dir (joins top names) = false).
Proof.
  intros Htop Hw Hr. eexists.
  split; [exact (collect_run top tpos Htop s Hr)|].
  cbn [del_dirs del_files sln_files proj_files].
  assert (G : forall test p,
            In p (flat_map (entry_files test) (Unbinder.walk_of top tpos s)) <->
            exists names n lines,
              p = join (joins top names) n
              /\ get (root s) ((tpos ++ names) ++ [n]) = Some (File lines)
              /\ test n = true
              /\ unnecessary_dir (joins top names) = false).
  { intros test p. split.
    - intros Hin.
      destruct (entry_files_names top tpos Htop _ _ _ Hw Hin)
        as (names & n & c & -> & _ & _ & Hg & Ht & Hu).
      exists names, n, c. auto.
    - intros (names & n & c & -> & Hg & Ht & Hu).
      now apply (in_entry_files top tpos test s names n c). }
  split; [|split; [apply G|split; apply G]].
  intros p. split.
  - intros Hin.
    destruct (entry_dirs_names top tpos Htop _ _ Hw Hin)
      as (names & -> & _ & Hd & Hu). eauto.
  - intros (names & -> & Hd & Hu). now apply in_entry_dirs.
Qed.

Lemma collect_finds_exactly_witness :
  exists c,
    _collect "/d" nested_debug = (Ok c, nested_debug)
    /\ (forall p,
          In p (del_dirs c) <->
          exists names,
            p = joins "/d" names
            /\ is_dir (root nested_debug) (["d"] ++ names) = true
            /\ unnecessary_dir p = true)
    /\ (forall p,
          In p (del_files c) <->
          exists names n lines,
            p = join (joins "/d" names) n
            /\ get (root nested_debug) ((["d"] ++ names) ++ [n])
               = Some (File lines)
            /\ unnecessary_file n = true
            /\ unnecessary_dir (joins "/d" names) = false)
    /\ (forall p,
          In p (sln_files c) <->
          exists names n lines,
            p = join (joins "/d" names) n
            /\ get (root nested_debug) ((["d"] ++ names) ++ [n])
               = Some (File lines)
            /\ is_sln n = true
            /\ unnecessary_dir (joins "/d" names) = false)
    /\ (forall p,
          In p (proj_files c) <->
          exists names n lines,
            p = join (joins "/d" names) n
            /\ get (root nested_debug) ((["d"] ++ names) ++ [n])
               = Some (File lines)
            /\ is_proj n = true
            /\ unnecessary_dir (joins "/d" names) = false).
Proof.
  apply (collect_finds_exactly "/d" ["d"] nested_debug).
  - apply (OSFacts.names_to_slashes "/" ["d"]); [now left|].
    repeat constructor.
  - reflexivity.
  - reflexivity.
Defined.

(** *** The loops, location by location *)

Lemma left_of_Missing_kept s s' q :
  kept s s' -> shape (root s) q = Missing -> shape (root s') q = Missing.
Proof. intros (L & _). now apply OSFacts.left_of_Missing. Qed.

Lemma path_exists_missing s p q :
  names_to p q -> root_is_dir s -> shape (root s) q = Missing ->
  path_exists p s = (Ok false, s).
Proof.
  intros Hn Hr Hm. apply LibsFacts.shape_Missing in Hm.
  now apply (OSFacts.path_exists_none s p q).
Qed.

(** A loop of tolerant removals leaves the locations that are not at or
    below the location of one of its paths. *)
Lemma removal_loop_frame (body : string -> M unit) :
  (forall p q s s',
     names_to p q -> root_is_dir s -> body p s = (Ok tt, s') ->
     s' = mkState (remove_at (root s) q) (cwd s) (handles s) /\ q <> []) ->
  forall ps s s' q',
    (forall p, In p ps -> exists q, names_to p q) ->
    root_is_dir s ->
    for_each ps body s = (Ok tt, s') ->
    (forall p q, In p ps -> names_to p q -> strip_prefix q q' = None) ->
    shape (root s') q' = shape (root s) q'.
Proof.
  intros Hbody ps. induction ps as [|p ps IH]; intros s s' q' Hps Hr.
  - cbn. now intros [= <-].
  - rewrite for_each_cons.
    destruct (body p s) as [[[]|e] s1] eqn:E; [|discriminate].
    destruct (Hps p (or_introl eq_refl)) as [q Hq].
    destruct (Hbody _ _ _ _ Hq Hr E) as [-> Hne].
    intros Hloop Hout.
    rewrite (IH (mkState (remove_at (root s) q) (cwd s) (handles s)) s' q'
               (fun p' H => Hps p' (or_intror H))); cbn [root].
    + apply OSFacts.shape_remove_at_frame.
      exact (Hout p q (or_introl eq_refl) Hq).
    + unfold root_is_dir. cbn [root]. unfold remove_at.
      now rewrite OSFacts.is_dir_root_update.
    + exact Hloop.
    + intros p' q0 Hin. apply Hout. now right.
Qed.

Section RewriteShape.

Variable loop : nat -> list string -> M unit.
Variable flt : list string -> list string.

Hypothesis loop_run :
  forall lines s fp d n cur,
    nth_error (handles s) fp = Some (mkHandle (d ++ [n]) ModeW false) ->
    get (root s) (d ++ [n]) = Some (File cur) ->
    loop fp lines s
    = (Ok tt,
       mkState (update (root s) d (entry_set n (File (cur ++ flt lines))))
         (cwd s) (handles s)).

(** A rewrite that returns found a file, no directory under the temporary
    name, and left [rewrite_at] of the tree. *)
Lemma rewrite_file_Ok_new file d n s s' :
  names_to file (d ++ [n]) ->
  names_to (file ++ ".new") (d ++ [(n ++ ".new")%string]) ->
  root_is_dir s ->
  rewrite_file loop file s = (Ok tt, s') ->
  exists lines,
    get (root s) (d ++ [n]) = Some (File lines)
    /\ is_dir (root s) (d ++ [(n ++ ".new")%string]) = false
    /\ root s' = rewrite_at flt (root s) (d ++ [n])
    /\ cwd s' = cwd s.
Proof.
  intros Hf Hn Hr Hrun.
  destruct (rewrite_file_Ok loop flt loop_run _ _ _ _ _ Hf Hn Hr Hrun)
    as (lines & G & Hroot & Hcwd).
  exists lines. repeat split; auto.
  destruct (is_dir (root s) (d ++ [(n ++ ".new")%string])) eqn:Hd;
    [|reflexivity].
  destruct (rewrite_file_new_is_dir loop file d n Hf Hn s lines Hr G Hd)
    as (e & s1 & H). congruence.
Qed.

Lemma root_is_dir_rewrite s s' q :
  root_is_dir s -> root s' = rewrite_at flt (root s) q -> root_is_dir s'.
Proof.
  unfold root_is_dir. intros H ->. now rewrite OSFacts.is_dir_root_rewrite_at.
Qed.

(** A location that holds something and is neither that of a file of the
    loop nor that of a temporary file is left as it is. *)
Lemma rewrite_loop_keeps ps :
  forall s s' q',
    (forall p, In p ps ->
       exists d n, names_to p (d ++ [n])
                   /\ names_to (p ++ ".new") (d ++ [(n ++ ".new")%string])) ->
    root_is_dir s ->
    for_each ps (rewrite_file loop) s = (Ok tt, s') ->
    shape (root s) q' <> Missing ->
    (forall p d n, In p ps -> names_to p (d ++ [n]) ->
                   q' <> d ++ [n] /\ q' <> d ++ [(n ++ ".new")%string]) ->
    shape (root s') q' = shape (root s) q'.
Proof.
  induction ps as [|p ps IH]; intros s s' q' Hps Hr.
  - cbn. now intros [= <-].
  - rewrite for_each_cons.
    destruct (rewrite_file loop p s) as [[[]|e] s1] eqn:E; [|discriminate].
    destruct (Hps p (or_introl eq_refl)) as (d & n & Hp & Hp').
    destruct (rewrite_file_Ok_new _ _ _ _ _ Hp Hp' Hr E)
      as (c & G & Hd & Hroot & Hcwd).
    intros Hloop Hex Hout.
    destruct (Hout p d n (or_introl eq_refl) Hp) as [N1 N2].
    assert (E1 : shape (root s1) q' = shape (root s) q').
    { rewrite Hroot. now apply (OSFacts.rewrite_at_keeps _ _ _ _ c). }
    rewrite <- E1. apply (IH s1 s' q').
    + intros p' H. apply Hps. now right.
    + exact (root_is_dir_rewrite _ _ _ Hr Hroot).
    + exact Hloop.
    + now rewrite E1.
    + intros p' d' n' Hin. apply Hout. now right.
Qed.

(** A directory stays through the loop. *)
Lemma rewrite_loop_keeps_dir ps :
  forall s s' q',
    (forall p, In p ps ->
       exists d n, names_to p (d ++ [n])
                   /\ names_to (p ++ ".new") (d ++ [(n ++ ".new")%string])) ->
    root_is_dir s ->
    for_each ps (rewrite_file loop) s = (Ok tt, s') ->
    is_dir (root s) q' = true ->
    is_dir (root s') q' = true.
Proof.
  induction ps as [|p ps IH]; intros s s' q' Hps Hr.
  - cbn. now intros [= <-].
  - rewrite for_each_cons.
    destruct (rewrite_file loop p s) as [[[]|e] s1] eqn:E; [|discriminate].
    destruct (Hps p (or_introl eq_refl)) as (d & n & Hp & Hp').
    destruct (rewrite_file_Ok_new _ _ _ _ _ Hp Hp' Hr E)
      as (c & G & Hd & Hroot & Hcwd).
    intros Hloop Hq.
    apply (IH s1 s' q').
    + intros p' H. apply Hps. now right.
    + exact (root_is_dir_rewrite _ _ _ Hr Hroot).
    + exact Hloop.
    + rewrite OSFacts.is_dir_shape, Hroot.
      rewrite (OSFacts.rewrite_at_keeps flt _ _ _ c); auto.
      * now rewrite <- OSFacts.is_dir_shape.
      * apply LibsFacts.shape_IsDir in Hq. rewrite Hq. discriminate.
      * intros ->. unfold is_dir in Hq. now rewrite G in Hq.
      * intros ->. congruence.
Qed.

Hypothesis flt_idempotent : forall lines, flt (flt lines) = flt lines.

(** The file at a location after the loop: filtered if the loop has a
    path of it, as it was if not. *)
Lemma rewrite_loop_file ps :
  forall s s' q lines,
    (forall p, In p ps ->
       exists d n, names_to p (d ++ [n])
                   /\ names_to (p ++ ".new") (d ++ [(n ++ ".new")%string])) ->
    root_is_dir s ->
    for_each ps (rewrite_file loop) s = (Ok tt, s') ->
    shape (root s) q = IsFile lines ->
    (forall p d n, In p ps -> names_to p (d ++ [n]) ->
                   q <> d ++ [(n ++ ".new")%string]) ->
    (shape (root s') q = IsFile lines
     \/ shape (root s') q = IsFile (flt lines))
    /\ ((exists p, In p ps /\ names_to p q) ->
        shape (root s') q = IsFile (flt lines))
    /\ ((forall p, In p ps -> ~ names_to p q) ->
        shape (root s') q = IsFile lines).
Proof.
  induction ps as [|p ps IH]; intros s s' q lines Hps Hr.
  - cbn. intros [= <-] Hs _. split; [now left|].
    split; [intros (p & [] & _) | auto].
  - rewrite for_each_cons.
    destruct (rewrite_file loop p s) as [[[]|e] s1] eqn:E; [|discriminate].
    destruct (Hps p (or_introl eq_refl)) as (d & n & Hp & Hp').
    destruct (rewrite_file_Ok_new _ _ _ _ _ Hp Hp' Hr E)
      as (c & G & Hd & Hroot & Hcwd).
    intros Hloop Hs Htemp.
    pose proof (root_is_dir_rewrite _ _ _ Hr Hroot) as Hr1.
    assert (Hps' : forall p', In p' ps ->
              exists d n, names_to p' (d ++ [n])
                   /\ names_to (p' ++ ".new") (d ++ [(n ++ ".new")%string]))
      by (intros p' H; apply Hps; now right).
    assert (Htemp' : forall p' d' n', In p' ps -> names_to p' (d' ++ [n']) ->
                       q <> d' ++ [(n' ++ ".new")%string])
      by (intros p' d' n' H; apply Htemp; now right).
    destruct (list_eq_dec string_dec q (d ++ [n])) as [-> | Hne].
    + apply LibsFacts.shape_IsFile in Hs. rewrite G in Hs. injection Hs as ->.
      assert (S1 : shape (root s1) (d ++ [n]) = IsFile (flt lines)).
      { rewrite Hroot. now apply OSFacts.shape_rewrite_at_self. }
      destruct (IH s1 s' (d ++ [n]) (flt lines) Hps' Hr1 Hloop S1 Htemp')
        as (I0 & _ & _).
      rewrite flt_idempotent in I0.
      assert (I : shape (root s') (d ++ [n]) = IsFile (flt lines))
        by now destruct I0.
      split; [now right|]. split; [intros _; exact I|].
      intros Hnot. exfalso. exact (Hnot p (or_introl eq_refl) Hp).
    + assert (S1 : shape (root s1) q = IsFile lines).
      { rewrite Hroot, <- Hs. apply (OSFacts.rewrite_at_keeps _ _ _ _ c); auto.
        - rewrite Hs. discriminate.
        - apply (Htemp p); [now left | assumption]. }
      destruct (IH s1 s' q lines Hps' Hr1 Hloop S1 Htemp') as (I0 & I1 & I2).
      split; [exact I0|]. split.
      * intros (p' & [<- | Hin] & Hq).
        -- exfalso. apply Hne. exact (OSFacts.names_to_unique _ _ _ Hq Hp).
        -- apply I1. eauto.
      * intros Hnot. apply I2. intros p' Hin. apply Hnot. now right.
Qed.

(** The loop on one file. *)
Lemma rewrite_one_file file d n lines s :
  names_to file (d ++ [n]) -> root_is_dir s ->
  get (root s) (d ++ [n]) = Some (File lines) ->
  is_dir (root s) (d ++ [(n ++ ".new")%string]) = false ->
  exists s',
    for_each [file] (rewrite_file loop) s = (Ok tt, s')
    /\ get (root s') (d ++ [n]) = Some (File (flt lines))
    /\ get (root s') (d ++ [(n ++ ".new")%string]) = None
    /\ (forall q,
          q <> d ++ [n] ->
          strip_prefix (d ++ [(n ++ ".new")%string]) q = None ->
          shape (root s') q = shape (root s) q)
    /\ cwd s' = cwd s.
Proof.
  intros Hn Hr Hg Hd.
  destruct (rewrite_file_run loop flt loop_run file d n Hn
              (OSFacts.names_to_new _ _ _ Hn) s lines Hr Hg Hd) as (hs & Hrun).
  eexists. split.
  { rewrite for_each_cons, Hrun. reflexivity. }
  cbn [root cwd].
  destruct (OSFacts.shape_rewrite_at_self flt _ _ _ _ Hg) as [S1 S2].
  split; [now apply LibsFacts.shape_IsFile|].
  split; [apply LibsFacts.shape_Missing; exact (S2 [])|].
  split; [|reflexivity].
  intros q H1 H2. now apply OSFacts.shape_rewrite_at_frame.
Qed.

(** The loop stops at a path that names nothing. *)
Lemma rewrite_missing_file file d n rest s :
  names_to file (d ++ [n]) -> root_is_dir s ->
  is_dir (root s) d = true -> get (root s) (d ++ [n]) = None ->
  for_each (file :: rest) (rewrite_file loop) s = (Raise FileNotFoundError, s).
Proof.
  intros Hn Hr Hd Hg. rewrite for_each_cons.
  unfold rewrite_file, open_inout.
  assert (Hf : is_empty file = false)
    by (destruct Hn as [H _]; now destruct file).
  assert (Hf' : is_empty (file ++ ".new") = false) by now destruct file.
  rewrite Hf, Hf'. cbn [is_empty orb].
  rewrite !LibsFacts.bind_run. unfold os_open. rewrite LibsFacts.bind_run.
  unfold lookup.
  assert (E : namei s file = Raise FileNotFoundError).
  { destruct Hn as (Hs & Hq & lead & Hne & Hl & Hsplit). unfold namei, start_of.
    unfold isabs. rewrite Hs, Hf, Hsplit, OSFacts.walk_comps_lead by assumption.
    apply Forall_app in Hq as [Hvd Hvn]. inversion Hvn as [|? ? Hvn' _]; subst.
    rewrite (OSFacts.walk_comps_snoc (root s) [] d n) by assumption.
    cbn [app]. now rewrite Hg. }
  now rewrite E.
Qed.

End RewriteShape.

(** *** [_delete], and the rewriters on one file *)

(** X13. When [_delete] returns, none of the paths of its two lists names
    anything any more, be it that the path was removed or that it named
    nothing; a location that is not at or below the location of a path
    listed holds what it held; and the working directory is the same. The
    paths are taken to spell locations. *)
Theorem delete_removes_what_is_listed del_dirs del_files s s' :
  wf_node (root s) = true -> root_is_dir s ->
  (forall p, In p (del_dirs ++ del_files) -> exists q, names_to p q) ->
  _delete del_dirs del_files s = (Ok tt, s') ->
  (forall p, In p (del_dirs ++ del_files) -> path_exists p s' = (Ok false, s'))
  /\ (forall q',
        (forall p q, In p (del_dirs ++ del_files) -> names_to p q ->
                     strip_prefix q q' = None) ->
        shape (root s') q' = shape (root s) q')
  /\ cwd s' = cwd s.
Proof.
  intros Hw Hr Hps. unfold _delete. rewrite LibsFacts.bind_run.
  fold rm_dir. fold rm_file.
  change (fun del_dir : string => rm_dir del_dir) with rm_dir.
  change (fun file : string => rm_file file) with rm_file.
  destruct (for_each del_dirs rm_dir s) as [[[]|e1] s1] eqn:E1; [|discriminate].
  intros E2.
  assert (Hd : forall p, In p del_dirs -> exists q, names_to p q)
    by (intros p H; apply Hps, in_or_app; now left).
  assert (Hf : forall p, In p del_files -> exists q, names_to p q)
    by (intros p H; apply Hps, in_or_app; now right).
  destruct (removal_loop rm_dir (fun p q s s' => rmtree_tolerant s p q s')
              _ s s1 Hd Hw Hr E1) as [K1 M1].
  pose proof K1 as (_ & W1 & R1 & C1).
  destruct (removal_loop rm_file (fun p q s s' => unlink_tolerant s p q s')
              _ s1 s' Hf W1 R1 E2) as [K2 M2].
  pose proof K2 as (_ & W2 & R2 & C2).
  split; [|split; [|congruence]].
  - intros p Hp. destruct (Hps p Hp) as [q Hq].
    apply (path_exists_missing _ _ q); auto.
    apply in_app_or in Hp as [Hp | Hp].
    + apply (left_of_Missing_kept s1 s' _ K2).
      rewrite <- (app_nil_r q). now apply (M1 p).
    + rewrite <- (app_nil_r q). now apply (M2 p).
  - intros q' Hout.
    rewrite (removal_loop_frame rm_file
               (fun p q s s' => unlink_tolerant s p q s')
               _ s1 s' q' Hf R1 E2).
    + apply (removal_loop_frame rm_dir
               (fun p q s s' => rmtree_tolerant s p q s')
               _ s s1 q' Hd Hr E1).
      intros p q Hp. apply Hout, in_or_app. now left.
    + intros p q Hp. apply Hout, in_or_app. now right.
Qed.

(** X14. [_update_sln] and [_update_proj] on the path of a file, with no
    directory under the temporary name: the call returns, the file holds
    the lines that the filter keeps, nothing is left under the temporary
    name, also when a file was there before, and every other location holds
    what it held. *)
Theorem update_rewrites_a_file_in_place file d n lines s :
  names_to file (d ++ [n]) -> root_is_dir s ->
  get (root s) (d ++ [n]) = Some (File lines) ->
  is_dir (root s) (d ++ [(n ++ ".new")%string]) = false ->
  (exists s',
     _update_sln [file] s = (Ok tt, s')
     /\ get (root s') (d ++ [n]) = Some (File (sln_filter lines))
     /\ get (root s') (d ++ [(n ++ ".new")%string]) = None
     /\ (forall q,
           q <> d ++ [n] ->
           strip_prefix (d ++ [(n ++ ".new")%string]) q = None ->
           shape (root s') q = shape (root s) q)
     /\ cwd s' = cwd s)
  /\ (exists s',
        _update_proj [file] s = (Ok tt, s')
        /\ get (root s') (d ++ [n]) = Some (File (proj_filter lines))
        /\ get (root s') (d ++ [(n ++ ".new")%string]) = None
        /\ (forall q,
              q <> d ++ [n] ->
              strip_prefix (d ++ [(n ++ ".new")%string]) q = None ->
              shape (root s') q = shape (root s) q)
        /\ cwd s' = cwd s).
Proof.
  intros Hn Hr Hg Hd. split.
  - exact (rewrite_one_file (fun o ls => sln_write_loop o false ls) sln_filter
             (fun lines s fp d n cur =>
                sln_write_loop_run lines s fp d n cur false)
             file d n lines s Hn Hr Hg Hd).
  - exact (rewrite_one_file proj_write_loop proj_filter
             proj_write_loop_run file d n lines s Hn Hr Hg Hd).
Qed.

(** X15. At a path that names nothing, in a directory that exists, the two
    rewriters raise [FileNotFoundError] and leave the state as it is: no
    temporary file is made, and the files after it in the list are not
    rewritten. *)
Theorem update_stops_at_a_missing_file file d n rest s :
  names_to file (d ++ [n]) -> root_is_dir s ->
  is_dir (root s) d = true -> get (root s) (d ++ [n]) = None ->
  _update_sln (file :: rest) s = (Raise FileNotFoundError, s)
  /\ _update_proj (file :: rest) s = (Raise FileNotFoundError, s).
Proof.
  intros Hn Hr Hd Hg. split.
  - exact (rewrite_missing_file (fun o ls => sln_write_loop o false ls)
             file d n rest s Hn Hr Hd Hg).
  - exact (rewrite_missing_file proj_write_loop file d n rest s Hn Hr Hd Hg).
Qed.

Lemma delete_removes_what_is_listed_witness :
  (forall p,
     In p (["/o/obj/Release"; "/o/gone/Debug"] ++ ["/o/a.pdb"]) ->
     path_exists p
       (snd (_delete ["/o/obj/Release"; "/o/gone/Debug"] ["/o/a.pdb"]
               stale_tree))
     = (Ok false,
        snd (_delete ["/o/obj/Release"; "/o/gone/Debug"] ["/o/a.pdb"]
               stale_tree)))
  /\ (forall q',
        (forall p q,
           In p (["/o/obj/Release"; "/o/gone/Debug"] ++ ["/o/a.pdb"]) ->
           names_to p q -> strip_prefix q q' = None) ->
        shape
          (root (snd (_delete ["/o/obj/Release"; "/o/gone/Debug"] ["/o/a.pdb"]
                        stale_tree))) q'
        = shape (root stale_tree) q')
  /\ cwd (snd (_delete ["/o/obj/Release"; "/o/gone/Debug"] ["/o/a.pdb"]
                 stale_tree))
     = cwd stale_tree.
Proof.
  apply (delete_removes_what_is_listed
           ["/o/obj/Release"; "/o/gone/Debug"] ["/o/a.pdb"] stale_tree).
  - reflexivity.
  - reflexivity.
  - intros p [<- | [<- | [<- | []]]].
    + exists ["o"; "obj"; "Release"].
      apply (OSFacts.names_to_slashes "/" ["o"; "obj"; "Release"]);
        [now left | repeat constructor].
    + exists ["o"; "gone"; "Debug"].
      apply (OSFacts.names_to_slashes "/" ["o"; "gone"; "Debug"]);
        [now left | repeat constructor].
    + exists ["o"; "a.pdb"].
      apply (OSFacts.names_to_slashes "/" ["o"; "a.pdb"]);
        [now left | repeat constructor].
  - vm_compute. reflexivity.
Defined.

Lemma update_rewrites_a_file_in_place_witness :
  (exists s',
     _update_sln ["/o/a.sln"] stale_tree = (Ok tt, s')
     /\ get (root s') (["o"] ++ ["a.sln"])
        = Some (File (sln_filter
                        ["Global";
                         "GlobalSection(TeamFoundationVersionControl) = preSolution";
                         "EndGlobalSection"; "EndGlobal"]))
     /\ get (root s') (["o"] ++ [("a.sln" ++ ".new")%string]) = None
     /\ (forall q,
           q <> ["o"] ++ ["a.sln"] ->
           strip_prefix (["o"] ++ [("a.sln" ++ ".new")%string]) q = None ->
           shape (root s') q = shape (root stale_tree) q)
     /\ cwd s' = cwd stale_tree)
  /\ (exists s',
        _update_proj ["/o/a.sln"] stale_tree = (Ok tt, s')
        /\ get (root s') (["o"] ++ ["a.sln"])
           = Some (File (proj_filter
                           ["Global";
                            "GlobalSection(TeamFoundationVersionControl) = preSolution";
                            "EndGlobalSection"; "EndGlobal"]))
        /\ get (root s') (["o"] ++ [("a.sln" ++ ".new")%string]) = None
        /\ (forall q,
              q <> ["o"] ++ ["a.sln"] ->
              strip_prefix (["o"] ++ [("a.sln" ++ ".new")%string]) q = None ->
              shape (root s') q = shape (root stale_tree) q)
        /\ cwd s' = cwd stale_tree).
Proof.
  apply (update_rewrites_a_file_in_place "/o/a.sln" ["o"] "a.sln").
  - apply (OSFacts.names_to_slashes "/" ["o"; "a.sln"]);
      [now left | repeat constructor].
  - reflexivity.
  - reflexivity.
  - reflexivity.
Defined.

Lemma update_stops_at_a_missing_file_witness :
  _update_sln ("/o/b.sln" :: ["/o/a.sln"]) stale_tree
  = (Raise FileNotFoundError, stale_tree)
  /\ _update_proj ("/o/b.sln" :: ["/o/a.sln"]) stale_tree
     = (Raise FileNotFoundError, stale_tree).
Proof.
  apply (update_stops_at_a_missing_file "/o/b.sln" ["o"] "b.sln").
  - apply (OSFacts.names_to_slashes "/" ["o"; "b.sln"]);
      [now left | repeat constructor].
  - reflexivity.
  - reflexivity.
  - reflexivity.
Defined.

(** *** The body of [unbind], location by location *)

Section BodyResult.

Variables (top : string) (tpos : path).
Hypothesis top_names : names_to top tpos.

#[local] Abbreviation walk_of := (Unbinder.walk_of top tpos).

(** The four loops of a body that returns. *)
Lemma unbind_body_loops s s' :
  wf_node (root s) = true -> root_is_dir s ->
  unbind_body top s = (Ok tt, s') ->
  exists s1 s2 s3,
    for_each (flat_map entry_dirs (walk_of s)) rm_dir s = (Ok tt, s1)
    /\ for_each (flat_map (entry_files unnecessary_file) (walk_of s)) rm_file s1
       = (Ok tt, s2)
    /\ for_each (flat_map (entry_files is_sln) (walk_of s))
         (rewrite_file (fun o ls => sln_write_loop o false ls)) s2
       = (Ok tt, s3)
    /\ for_each (flat_map (entry_files is_proj) (walk_of s))
         (rewrite_file proj_write_loop) s3
       = (Ok tt, s').
Proof.
  intros Hw Hr. unfold unbind_body.
  rewrite LibsFacts.bind_run, (make_writeable_run top tpos top_names _ Hw Hr).
  rewrite LibsFacts.bind_run, (collect_run top tpos top_names _ Hr).
  cbn [del_dirs del_files sln_files proj_files].
  rewrite LibsFacts.bind_run. unfold _delete. rewrite LibsFacts.bind_run.
  fold rm_dir. fold rm_file.
  change (fun del_dir : string => rm_dir del_dir) with rm_dir.
  change (fun file : string => rm_file file) with rm_file.
  destruct (for_each (flat_map entry_dirs (walk_of s)) rm_dir s)
    as [[[]|e1] s1] eqn:E1; [|intros H; discriminate H].
  destruct (for_each (flat_map (entry_files unnecessary_file) (walk_of s))
              rm_file s1) as [[[]|e2] s2] eqn:E2; [|intros H; discriminate H].
  rewrite LibsFacts.bind_run.
  change (_update_sln (flat_map (entry_files is_sln) (walk_of s)))
    with (for_each (flat_map (entry_files is_sln) (walk_of s))
            (rewrite_file (fun o ls => sln_write_loop o false ls))).
  change (_update_proj (flat_map (entry_files is_proj) (walk_of s)))
    with (for_each (flat_map (entry_files is_proj) (walk_of s))
            (rewrite_file proj_write_loop)).
  destruct (for_each (flat_map (entry_files is_sln) (walk_of s)) _ s2)
    as [[[]|e3] s3] eqn:E3; [|intros H; discriminate H].
  intros E4. exists s1, s2, s3. auto.
Qed.

Lemma dirs_named s p :
  wf_node (root s) = true ->
  In p (flat_map entry_dirs (walk_of s)) -> exists q, names_to p q.
Proof.
  intros Hw Hp.
  destruct (entry_dirs_names top tpos top_names _ _ Hw Hp)
    as (names & _ & Hn & _). eauto.
Qed.

Lemma files_named test s p :
  wf_node (root s) = true ->
  In p (flat_map (entry_files test) (walk_of s)) ->
  exists d n, names_to p (d ++ [n])
              /\ names_to (p ++ ".new") (d ++ [(n ++ ".new")%string]).
Proof.
  intros Hw Hp.
  destruct (entry_files_names top tpos top_names _ _ _ Hw Hp)
    as (names & n & c & _ & Hn & Hn' & _). eauto.
Qed.

Lemma files_named_one test s p :
  wf_node (root s) = true ->
  In p (flat_map (entry_files test) (walk_of s)) -> exists q, names_to p q.
Proof.
  intros Hw Hp. destruct (files_named _ _ _ Hw Hp) as (d & n & H & _). eauto.
Qed.

(** What the four loops keep. *)
Lemma unbind_body_trace s s' :
  wf_node (root s) = true -> root_is_dir s ->
  unbind_body top s = (Ok tt, s') ->
  exists s1 s2 s3,
    (for_each (flat_map entry_dirs (walk_of s)) rm_dir s = (Ok tt, s1)
     /\ for_each (flat_map (entry_files unnecessary_file) (walk_of s)) rm_file s1
        = (Ok tt, s2)
     /\ for_each (flat_map (entry_files is_sln) (walk_of s))
          (rewrite_file (fun o ls => sln_write_loop o false ls)) s2
        = (Ok tt, s3)
     /\ for_each (flat_map (entry_files is_proj) (walk_of s))
          (rewrite_file proj_write_loop) s3
        = (Ok tt, s'))
    /\ kept s s1 /\ kept s1 s2 /\ kept s2 s3 /\ kept s3 s'.
Proof.
  intros Hw Hr Hrun.
  destruct (unbind_body_loops _ _ Hw Hr Hrun)
    as (s1 & s2 & s3 & E1 & E2 & E3 & E4).
  exists s1, s2, s3. split; [auto|].
  destruct (removal_loop rm_dir (fun p q s s' => rmtree_tolerant s p q s')
              _ s s1 (fun p => dirs_named s p Hw) Hw Hr E1) as [K1 _].
  pose proof K1 as (_ & W1 & R1 & _).
  destruct (removal_loop rm_file (fun p q s s' => unlink_tolerant s p q s')
              _ s1 s2 (fun p => files_named_one _ s p Hw) W1 R1 E2) as [K2 _].
  pose proof K2 as (_ & W2 & R2 & _).
  destruct (rewrite_loop (fun o ls => sln_write_loop o false ls) sln_filter
              (fun lines s fp d n cur =>
                 sln_write_loop_run lines s fp d n cur false)
              _ s2 s3 (fun p => files_named _ s p Hw) W2 R2 E3) as (K3 & _).
  pose proof K3 as (_ & W3 & R3 & _).
  destruct (rewrite_loop proj_write_loop proj_filter proj_write_loop_run
              _ s3 s' (fun p => files_named _ s p Hw) W3 R3 E4) as (K4 & _).
  auto.
Qed.

(** The two loops of [_delete] at a location that holds something: it is
    left as it is unless a directory listed is at it or above it, or a
    file listed is at it. *)
Lemma survives_removals s s1 s2 x :
  wf_node (root s) = true -> root_is_dir s -> kept s s1 ->
  for_each (flat_map entry_dirs (walk_of s)) rm_dir s = (Ok tt, s1) ->
  for_each (flat_map (entry_files unnecessary_file) (walk_of s)) rm_file s1
  = (Ok tt, s2) ->
  shape (root s) (tpos ++ x) <> Missing ->
  (forall names',
     is_dir (root s) (tpos ++ names') = true ->
     unnecessary_dir (joins top names') = true ->
     strip_prefix names' x = None) ->
  (forall names2 n2 lines2,
     get (root s) ((tpos ++ names2) ++ [n2]) = Some (File lines2) ->
     unnecessary_file n2 = true ->
     unnecessary_dir (joins top names2) = false ->
     x <> names2 ++ [n2]) ->
  shape (root s2) (tpos ++ x) = shape (root s) (tpos ++ x).
Proof.
  intros Hw Hr K1 E1 E2 Hex Hdirs Hfiles.
  pose proof K1 as (_ & W1 & R1 & _).
  rewrite (removal_loop_frame rm_file
             (fun p q s s' => unlink_tolerant s p q s')
             _ s1 s2 (tpos ++ x) (fun p => files_named_one _ s p Hw) R1 E2).
  - apply (removal_loop_frame rm_dir
             (fun p q s s' => rmtree_tolerant s p q s')
             _ s s1 (tpos ++ x) (fun p => dirs_named s p Hw) Hr E1).
    intros p q Hp Hq.
    destruct (entry_dirs_names top tpos top_names _ _ Hw Hp)
      as (names' & -> & Hn & Hd & Hu).
    rewrite (OSFacts.names_to_unique _ _ _ Hq Hn), OSFacts.strip_prefix_app_app.
    now apply Hdirs.
  - intros p q Hp Hq.
    destruct (entry_files_names top tpos top_names _ _ _ Hw Hp)
      as (names2 & n2 & c & -> & Hn & _ & Hg & Ht & Hu).
    rewrite (OSFacts.names_to_unique _ _ _ Hq Hn), <- app_assoc,
      OSFacts.strip_prefix_app_app.
    destruct (strip_prefix (names2 ++ [n2]) x) as [r|] eqn:E;
      [exfalso|reflexivity].
    apply OSFacts.strip_prefix_Some in E. subst x.
    destruct r as [|y r].
    + rewrite app_nil_r in *. now apply (Hfiles names2 n2 c).
    + apply Hex.
      replace (tpos ++ (names2 ++ [n2]) ++ y :: r)
        with (((tpos ++ names2) ++ [n2]) ++ y :: r)
        by (now rewrite <- !app_assoc).
      now rewrite OSFacts.shape_app, Hg.
Qed.

(** Nothing changes outside the top directory. *)
Lemma unbind_body_frame s s' q' :
  wf_node (root s) = true -> root_is_dir s ->
  unbind_body top s = (Ok tt, s') ->
  strip_prefix tpos q' = None ->
  shape (root s') q' = shape (root s) q'.
Proof.
  intros Hw Hr Hrun Hout.
  destruct (unbind_body_trace _ _ Hw Hr Hrun)
    as (s1 & s2 & s3 & (E1 & E2 & E3 & E4) & K1 & K2 & K3 & K4).
  pose proof K1 as (_ & W1 & R1 & _). pose proof K2 as (_ & W2 & R2 & _).
  pose proof K3 as (_ & W3 & R3 & _).
  assert (F2 : shape (root s2) q' = shape (root s) q').
  { rewrite (removal_loop_frame rm_file
               (fun p q s s' => unlink_tolerant s p q s')
               _ s1 s2 q' (fun p => files_named_one _ s p Hw) R1 E2).
    - apply (removal_loop_frame rm_dir
               (fun p q s s' => rmtree_tolerant s p q s')
               _ s s1 q' (fun p => dirs_named s p Hw) Hr E1).
      intros p q Hp Hq.
      destruct (entry_dirs_names top tpos top_names _ _ Hw Hp)
        as (names' & -> & Hn & _).
      rewrite (OSFacts.names_to_unique _ _ _ Hq Hn).
      now apply OSFacts.strip_prefix_None_app.
    - intros p q Hp Hq.
      destruct (entry_files_names top tpos top_names _ _ _ Hw Hp)
        as (names2 & n2 & c & -> & Hn & _).
      rewrite (OSFacts.names_to_unique _ _ _ Hq Hn), <- app_assoc.
      now apply OSFacts.strip_prefix_None_app. }
  rewrite <- F2.
  assert (Hne : forall (test : string -> bool) p d n,
            In p (flat_map (entry_files test) (walk_of s)) ->
            names_to p (d ++ [n]) ->
            q' <> d ++ [n] /\ q' <> d ++ [(n ++ ".new")%string]).
  { intros test p d n Hp Hq.
    destruct (entry_files_names top tpos top_names _ _ _ Hw Hp)
      as (names2 & n2 & c & -> & Hn & _).
    pose proof (OSFacts.names_to_unique _ _ _ Hq Hn) as Eq.
    apply app_inj_tail in Eq as [-> ->].
    split; intros ->; rewrite <- app_assoc, OSFacts.strip_prefix_app in Hout;
      discriminate. }
  destruct (shape (root s2) q') eqn:S2.
  { apply (left_of_Missing_kept s3 s' q' K4),
      (left_of_Missing_kept s2 s3 q' K3), S2. }
  all: rewrite <- S2;
    assert (Hex : shape (root s2) q' <> Missing)
      by (rewrite S2; discriminate);
    assert (S3 : shape (root s3) q' = shape (root s2) q')
      by (apply (rewrite_loop_keeps (fun o ls => sln_write_loop o false ls)
                   sln_filter
                   (fun lines s fp d n cur =>
                      sln_write_loop_run lines s fp d n cur false)
                   _ s2 s3 q' (fun p => files_named _ s p Hw) R2 E3 Hex);
          apply Hne);
    rewrite <- S3;
    apply (rewrite_loop_keeps proj_write_loop proj_filter proj_write_loop_run
             _ s3 s' q' (fun p => files_named _ s p Hw) R3 E4);
    [now rewrite S3 | apply Hne].
Qed.


Lemma clean_no_listed_dir s names x :
  clean_dirs top names ->
  (x = names \/ exists n lines, x = names ++ [n]
                 /\ get (root s) ((tpos ++ names) ++ [n]) = Some (File lines)) ->
  forall names',
    is_dir (root s) (tpos ++ names') = true ->
    unnecessary_dir (joins top names') = true ->
    strip_prefix names' x = None.
Proof.
  intros Hc Hx names' Hd Hu.
  destruct (strip_prefix names' x) as [r|] eqn:E; [exfalso | reflexivity].
  destruct Hx as [-> | (n & lines & -> & Hg)].
  - rewrite (OSFacts.strip_prefix_firstn _ _ _ E), Hc in Hu. discriminate.
  - pose proof (OSFacts.strip_prefix_Some _ _ _ E) as Eq.
    destruct r as [|y r _] using rev_ind.
    + rewrite app_nil_r in Eq. subst names'.
      rewrite app_assoc in Hd. unfold is_dir in Hd. now rewrite Hg in Hd.
    + rewrite app_assoc in Eq. apply app_inj_tail in Eq as [-> _].
      rewrite <- (OSFacts.firstn_length_app names' r), Hc in Hu. discriminate.
Qed.

(** A directory that is not listed, below directories that are not, stays. *)
Lemma unbind_body_dir s s' names :
  wf_node (root s) = true -> root_is_dir s ->
  unbind_body top s = (Ok tt, s') ->
  is_dir (root s) (tpos ++ names) = true ->
  clean_dirs top names ->
  is_dir (root s') (tpos ++ names) = true.
Proof.
  intros Hw Hr Hrun Hd Hc.
  destruct (unbind_body_trace _ _ Hw Hr Hrun)
    as (s1 & s2 & s3 & (E1 & E2 & E3 & E4) & K1 & K2 & K3 & K4).
  pose proof K1 as (_ & W1 & R1 & _). pose proof K2 as (_ & W2 & R2 & _).
  pose proof K3 as (_ & W3 & R3 & _).
  assert (S0 : shape (root s) (tpos ++ names) = IsDir)
    by now apply LibsFacts.shape_IsDir.
  assert (S2 : shape (root s2) (tpos ++ names) = IsDir).
  { rewrite <- S0. apply (survives_removals s s1 s2 names); auto.
    - rewrite S0. discriminate.
    - apply (clean_no_listed_dir s names); auto.
    - intros names2 n2 c Hg _ _ ->. rewrite app_assoc in S0.
      apply LibsFacts.shape_IsFile in Hg. congruence. }
  apply LibsFacts.shape_IsDir in S2.
  apply (rewrite_loop_keeps_dir proj_write_loop proj_filter
           proj_write_loop_run _ s3 s' _
           (fun p => files_named _ s p Hw) R3 E4).
  apply (rewrite_loop_keeps_dir (fun o ls => sln_write_loop o false ls)
           sln_filter
           (fun lines s fp d n cur =>
              sln_write_loop_run lines s fp d n cur false)
           _ s2 s3 _ (fun p => files_named _ s p Hw) R2 E3).
  exact S2.
Qed.

Lemma clean_here names :
  clean_dirs top names -> unnecessary_dir (joins top names) = false.
Proof.
  intros Hc. specialize (Hc (List.length names)). now rewrite firstn_all in Hc.
Qed.

Lemma file_names_to s names n lines :
  wf_node (root s) = true ->
  get (root s) ((tpos ++ names) ++ [n]) = Some (File lines) ->
  names_to (join (joins top names) n) ((tpos ++ names) ++ [n])
  /\ valid_name n = true.
Proof.
  intros Hw Hg.
  assert (Hv : Forall (fun n => valid_name n = true) (names ++ [n])).
  { apply (names_of_location tpos s _ (File lines) Hw).
    now rewrite app_assoc. }
  apply Forall_app in Hv as [Hv Hn]. inversion Hn as [|? ? Hn' _]; subst.
  split; [|assumption].
  apply OSFacts.names_to_join; [|assumption].
  now apply OSFacts.names_to_joins.
Qed.

(** What becomes of a file below directories that are not listed. *)
Lemma unbind_body_file s s' names n lines :
  wf_node (root s) = true -> root_is_dir s ->
  unbind_body top s = (Ok tt, s') ->
  get (root s) ((tpos ++ names) ++ [n]) = Some (File lines) ->
  clean_dirs top names ->
  let q := (tpos ++ names) ++ [n] in
  (unnecessary_file n = true -> shape (root s') q = Missing)
  /\ (is_sln n = true -> shape (root s') q = IsFile (sln_filter lines))
  /\ (is_proj n = true -> shape (root s') q = IsFile (proj_filter lines))
  /\ (forall m,
        n = (m ++ ".new")%string -> is_sln m = true \/ is_proj m = true ->
        is_file (root s) ((tpos ++ names) ++ [m]) = true ->
        shape (root s') q = Missing)
  /\ (unnecessary_file n = false -> is_sln n = false -> is_proj n = false ->
      (forall m,
         n = (m ++ ".new")%string -> is_sln m = true \/ is_proj m = true ->
         is_file (root s) ((tpos ++ names) ++ [m]) = false) ->
      shape (root s') q = IsFile lines).
Proof.
  intros Hw Hr Hrun Hg Hc q.
  destruct (unbind_body_trace _ _ Hw Hr Hrun)
    as (s1 & s2 & s3 & (E1 & E2 & E3 & E4) & K1 & K2 & K3 & K4).
  pose proof K1 as (_ & W1 & R1 & _). pose proof K2 as (_ & W2 & R2 & _).
  pose proof K3 as (_ & W3 & R3 & _).
  pose proof (clean_here _ Hc) as Hu.
  destruct (file_names_to _ _ _ _ Hw Hg) as [Hq Hvn].
  assert (S0 : shape (root s) q = IsFile lines)
    by now apply LibsFacts.shape_IsFile.
  (* the loops of the two rewriters, at this location *)
  set (sln_loop_run := fun lines s fp d n cur =>
         sln_write_loop_run lines s fp d n cur false).
  assert (Listed : forall (test : string -> bool) p d n0,
            In p (flat_map (entry_files test) (walk_of s)) ->
            names_to p (d ++ [n0]) ->
            d ++ [n0] = q -> test n = true).
  { intros test p d n0 Hp Hn0 Eq.
    destruct (entry_files_names top tpos top_names _ _ _ Hw Hp)
      as (names2 & n2 & c & -> & Hn & _ & _ & Ht & _).
    pose proof (OSFacts.names_to_unique _ _ _ Hn0 Hn) as Eq2.
    rewrite Eq in Eq2. apply app_inj_tail in Eq2 as [_ ->]. exact Ht. }
  assert (Temp : forall (test : string -> bool) p d n0,
            In p (flat_map (entry_files test) (walk_of s)) ->
            names_to p (d ++ [n0]) ->
            q = d ++ [(n0 ++ ".new")%string] ->
            n = (n0 ++ ".new")%string /\ test n0 = true
            /\ is_file (root s) ((tpos ++ names) ++ [n0]) = true).
  { intros test p d n0 Hp Hn0 Eq.
    destruct (entry_files_names top tpos top_names _ _ _ Hw Hp)
      as (names2 & n2 & c & -> & Hn & _ & Hg2 & Ht & _).
    pose proof (OSFacts.names_to_unique _ _ _ Hn0 Hn) as Eq2.
    apply app_inj_tail in Eq2 as [-> ->].
    apply app_inj_tail in Eq as [Eq ->]. rewrite Eq.
    repeat split; auto. unfold is_file. now rewrite Hg2. }
  assert (NoTemp : forall (test : string -> bool),
            (forall m, n = (m ++ ".new")%string -> test m = true ->
                       is_file (root s) ((tpos ++ names) ++ [m]) = false) ->
            forall p d n0,
              In p (flat_map (entry_files test) (walk_of s)) ->
              names_to p (d ++ [n0]) ->
              q <> d ++ [(n0 ++ ".new")%string]).
  { intros test Hno p d n0 Hp Hn0 Eq.
    destruct (Temp test p d n0 Hp Hn0 Eq) as (En & Ht & Hf).
    rewrite (Hno n0 En Ht) in Hf. discriminate. }
  assert (ClassTemp : forall (test : string -> bool),
            (forall m, test (m ++ ".new")%string = true -> False) ->
            test n = true ->
            forall p d n0,
              In p (flat_map (entry_files unnecessary_file) (walk_of s))
              \/ In p (flat_map (entry_files is_sln) (walk_of s))
              \/ In p (flat_map (entry_files is_proj) (walk_of s)) ->
              names_to p (d ++ [n0]) ->
              q <> d ++ [(n0 ++ ".new")%string]).
  { intros test Hclass Ht p d n0 Hp Hn0 Eq.
    assert (En : n = (n0 ++ ".new")%string).
    { destruct Hp as [Hp | [Hp | Hp]];
        now destruct (Temp _ p d n0 Hp Hn0 Eq). }
    subst n. exact (Hclass _ Ht). }
  split; [|split; [|split; [|split]]].
  - (* a file to delete *)
    intros Hf.
    destruct (removal_loop rm_file
                (fun p q s s' => unlink_tolerant s p q s')
                _ s1 s2 (fun p => files_named_one _ s p Hw) W1 R1 E2) as [_ M2].
    apply (left_of_Missing_kept s3 s' _ K4), (left_of_Missing_kept s2 s3 _ K3).
    rewrite <- (app_nil_r q).
    apply (M2 (join (joins top names) n)); [|exact Hq].
    now apply (in_entry_files top tpos unnecessary_file s names n lines).
  - (* a solution file *)
    intros Hs.
    destruct (classes_exclusive n) as (_ & Xf & Xs).
    assert (Hnf : unnecessary_file n = false).
    { destruct (unnecessary_file n) eqn:E; [|reflexivity].
      destruct (Xf eq_refl). congruence. }
    assert (S2 : shape (root s2) q = IsFile lines).
    { rewrite <- S0. unfold q. rewrite <- app_assoc.
      apply (survives_removals s s1 s2 (names ++ [n])); auto.
      - rewrite app_assoc. fold q. rewrite S0. discriminate.
      - apply (clean_no_listed_dir s names); eauto.
      - intros names2 n2 c _ Hf2 _ Eq. apply app_inj_tail in Eq as [_ ->].
        congruence. }
    assert (T : forall p d n0,
              In p (flat_map (entry_files is_sln) (walk_of s))
              \/ In p (flat_map (entry_files is_proj) (walk_of s)) ->
              names_to p (d ++ [n0]) -> q <> d ++ [(n0 ++ ".new")%string]).
    { intros p d n0 Hp. apply (ClassTemp is_sln); auto.
      intros m Hm. destruct (new_name_class m) as (_ & H & _). congruence. }
    destruct (rewrite_loop_file (fun o ls => sln_write_loop o false ls)
                sln_filter sln_loop_run FiltersFacts.sln_filter_idempotent
                _ s2 s3 q lines (fun p => files_named _ s p Hw) R2 E3 S2)
      as (_ & I3 & _).
    { intros p d n0 Hp. apply T. now left. }
    assert (S3 : shape (root s3) q = IsFile (sln_filter lines)).
    { apply I3. exists (join (joins top names) n). split; [|exact Hq].
      now apply (in_entry_files top tpos is_sln s names n lines). }
    destruct (rewrite_loop_file proj_write_loop proj_filter
                proj_write_loop_run
                FiltersFacts.proj_filter_idempotent
                _ s3 s' q _ (fun p => files_named _ s p Hw) R3 E4 S3)
      as (_ & _ & I4).
    { intros p d n0 Hp. apply T. now right. }
    apply I4. intros p Hp Hn.
    destruct (files_named _ _ _ Hw Hp) as (d & n0 & Hn0 & _).
    pose proof (Listed is_proj p d n0 Hp Hn0
                  (OSFacts.names_to_unique _ _ _ Hn0 Hn)) as Hpj.
    rewrite (Xs Hs) in Hpj. discriminate.
  - (* a project file *)
    intros Hp.
    destruct (classes_exclusive n) as (_ & Xf & Xs).
    assert (Hnf : unnecessary_file n = false).
    { destruct (unnecessary_file n) eqn:E; [|reflexivity].
      destruct (Xf eq_refl). congruence. }
    assert (Hns : is_sln n = false).
    { destruct (is_sln n) eqn:E; [|reflexivity]. rewrite (Xs eq_refl) in Hp.
      discriminate. }
    assert (S2 : shape (root s2) q = IsFile lines).
    { rewrite <- S0. unfold q. rewrite <- app_assoc.
      apply (survives_removals s s1 s2 (names ++ [n])); auto.
      - rewrite app_assoc. fold q. rewrite S0. discriminate.
      - apply (clean_no_listed_dir s names); eauto.
      - intros names2 n2 c _ Hf2 _ Eq. apply app_inj_tail in Eq as [_ ->].
        congruence. }
    assert (T : forall p d n0,
              In p (flat_map (entry_files is_sln) (walk_of s))
              \/ In p (flat_map (entry_files is_proj) (walk_of s)) ->
              names_to p (d ++ [n0]) -> q <> d ++ [(n0 ++ ".new")%string]).
    { intros p d n0 Hp'. apply (ClassTemp is_proj); auto.
      intros m Hm. destruct (new_name_class m) as (_ & _ & H). congruence. }
    destruct (rewrite_loop_file (fun o ls => sln_write_loop o false ls)
                sln_filter sln_loop_run FiltersFacts.sln_filter_idempotent
                _ s2 s3 q lines (fun p => files_named _ s p Hw) R2 E3 S2)
      as (_ & _ & I3).
    { intros p d n0 Hp'. apply T. now left. }
    assert (S3 : shape (root s3) q = IsFile lines).
    { apply I3. intros p Hp' Hn.
      destruct (files_named _ _ _ Hw Hp') as (d & n0 & Hn0 & _).
      pose proof (Listed is_sln p d n0 Hp' Hn0
                    (OSFacts.names_to_unique _ _ _ Hn0 Hn)) as Hsl.
      congruence. }
    destruct (rewrite_loop_file proj_write_loop proj_filter
                proj_write_loop_run
                FiltersFacts.proj_filter_idempotent
                _ s3 s' q _ (fun p => files_named _ s p Hw) R3 E4 S3)
      as (_ & I4 & _).
    { intros p d n0 Hp'. apply T. now right. }
    apply I4. exists (join (joins top names) n). split; [|exact Hq].
    now apply (in_entry_files top tpos is_proj s names n lines).
  - (* the temporary name of a file that is rewritten *)
    intros m -> Hm Hf. unfold is_file in Hf.
    destruct (get (root s) ((tpos ++ names) ++ [m])) as [[c|es]|] eqn:Gm;
      try discriminate.
    destruct (file_names_to _ _ _ _ Hw Gm) as [Hqm _].
    apply LibsFacts.shape_Missing.
    destruct Hm as [Hm | Hm].
    + destruct (rewrite_loop (fun o ls => sln_write_loop o false ls)
                  sln_filter sln_loop_run
                  _ s2 s3 (fun p => files_named _ s p Hw) W2 R2 E3)
        as (_ & _ & S3).
      destruct (S3 (fun _ => True) (join (joins top names) m)
                  (tpos ++ names) m) as [_ G3]; auto.
      { intros c0. apply Forall_forall. auto. }
      { now apply (in_entry_files top tpos is_sln s names m c). }
      apply LibsFacts.shape_Missing.
      apply (left_of_Missing_kept s3 s' _ K4).
      now apply LibsFacts.shape_Missing.
    + destruct (rewrite_loop proj_write_loop proj_filter
                  proj_write_loop_run
                  _ s3 s' (fun p => files_named _ s p Hw) W3 R3 E4)
        as (_ & _ & S4).
      destruct (S4 (fun _ => True) (join (joins top names) m)
                  (tpos ++ names) m) as [_ G4]; auto.
      { intros c0. apply Forall_forall. auto. }
      { now apply (in_entry_files top tpos is_proj s names m c). }
  - (* any other file *)
    intros Hnf Hns Hnp Hno.
    assert (S2 : shape (root s2) q = IsFile lines).
    { rewrite <- S0. unfold q. rewrite <- app_assoc.
      apply (survives_removals s s1 s2 (names ++ [n])); auto.
      - rewrite app_assoc. fold q. rewrite S0. discriminate.
      - apply (clean_no_listed_dir s names); eauto.
      - intros names2 n2 c _ Hf2 _ Eq. apply app_inj_tail in Eq as [_ ->].
        congruence. }
    assert (S3 : shape (root s3) q = IsFile lines).
    { rewrite <- S2.
      apply (rewrite_loop_keeps (fun o ls => sln_write_loop o false ls)
               sln_filter sln_loop_run
               _ s2 s3 q (fun p => files_named _ s p Hw) R2 E3).
      - rewrite S2. discriminate.
      - intros p d n0 Hp Hn0. split.
        + intros Eq. symmetry in Eq.
          pose proof (Listed is_sln p d n0 Hp Hn0 Eq). congruence.
        + apply (NoTemp is_sln) with (p := p); auto. }
    rewrite <- S3.
    apply (rewrite_loop_keeps proj_write_loop proj_filter
             proj_write_loop_run
             _ s3 s' q (fun p => files_named _ s p Hw) R3 E4).
    + rewrite S3. discriminate.
    + intros p d n0 Hp Hn0. split.
      * intros Eq. symmetry in Eq.
        pose proof (Listed is_proj p d n0 Hp Hn0 Eq). congruence.
      * apply (NoTemp is_proj) with (p := p); auto.
Qed.

End BodyResult.

(** *** The whole of [unbind], for a destination that spells a location *)

(** A run of [unbind] that returns: the copy, the body in the destination,
    and the way back. *)
Lemma unbind_Ok_inv orig dest dpos s s' :
  wf_state s = true -> names_to dest dpos ->
  unbind orig dest s = (Ok tt, s') ->
  exists s0 s2,
    _copytree orig dest s = (Ok tt, s0)
    /\ wf_node (root s0) = true /\ root_is_dir s0 /\ cwd s0 = cwd s
    /\ is_dir (root s0) dpos = true
    /\ unbind_body (normpath dest) (mkState (root s0) dpos (handles s0))
       = (Ok tt, s2)
    /\ s' = mkState (root s2) (cwd s) (handles s2).
Proof.
  intros Hs Hdest Hrun. destruct (wf_state_inv _ Hs) as (Hw & Hr & Hc).
  unfold unbind in Hrun. rewrite LibsFacts.bind_run in Hrun.
  destruct (_copytree orig dest s) as [[[]|e] s0] eqn:Ecopy; [|discriminate].
  destruct (copytree_kept _ _ _ _ Hs Ecopy) as (Hw0 & Hr0 & Hc0).
  destruct (LibsFacts.chdir_Ok_inv _ _ _ _ _ Hrun) as (pos & Hn & Hd & Hcwd).
  destruct (OSFacts.namei_names_to_Ok _ _ _ _ Hdest Hr0 Hn) as [-> _].
  rewrite <- Hc0 in Hc.
  rewrite (LibsFacts.chdir_enters _ _ _ _ Hc Hcwd Hn Hd) in Hrun.
  unfold try_finally in Hrun.
  assert (Ey : yielded dest dpos = normpath dest).
  { unfold yielded. destruct Hdest as [Ha _]. unfold isabs. now rewrite Ha. }
  rewrite Ey in Hrun.
  destruct (unbind_body (normpath dest) (mkState (root s0) dpos (handles s0)))
    as [r s2] eqn:Ebody.
  destruct (os_chdir (render (cwd s0)) s2) as [[[]|e] s3] eqn:Eback;
    [|discriminate].
  injection Hrun as -> ->.
  destruct (unbind_body_settles (normpath dest) dpos
              (OSFacts.names_to_normpath _ _ Hdest)
              (mkState (root s0) dpos (handles s0)) s2 Hw0 Hr0 Ebody)
    as ((L & W2 & R2 & C2) & _).
  unfold os_chdir in Eback. rewrite LibsFacts.bind_run in Eback.
  unfold lookup in Eback.
  destruct (namei s2 (render (cwd s0))) as [c'|e] eqn:Eb; [|discriminate].
  destruct (OSFacts.namei_names_to_Ok _ _ _ _ (names_to_render _ Hc) R2 Eb)
    as [-> _].
  unfold bind, get_state in Eback.
  destruct (is_dir (root s2) (cwd s0)) eqn:Hback; [|discriminate].
  injection Eback as <-.
  exists s0, s2. rewrite <- Hc0. repeat split; auto.
Qed.

(** [shutil.copytree] into a destination that does not exist: the source is
    a directory, the destination holds its entries, and every location that
    is neither at or below the destination nor above it holds what it
    held. *)
Lemma copytree_fresh orig dest dpos opos s s0 :
  wf_state s = true -> names_to dest dpos ->
  path_exists dest s = (Ok false, s) ->
  namei s orig = Ok opos ->
  _copytree orig dest s = (Ok tt, s0) ->
  exists es,
    get (root s) opos = Some (Dir es)
    /\ get (root s0) dpos = Some (Dir es)
    /\ (forall q, strip_prefix dpos q = None -> strip_prefix q dpos = None ->
                  shape (root s0) q = shape (root s) q)
    /\ cwd s0 = cwd s /\ handles s0 = handles s.
Proof.
  intros Hs Hdest Hex Ho.
  destruct (wf_state_inv _ Hs) as (Hw & Hr & Hc).
  pose proof (OSFacts.path_exists_false _ _ _ Hdest Hr Hex) as Gd.
  destruct (OSFacts.names_to_split _ _ Hdest)
    as (lead & Hl & Hsplit & Habs & Hne & Hv).
  unfold _copytree. rewrite LibsFacts.bind_run, Hex. cbn [negb].
  unfold shutil_copytree. rewrite LibsFacts.bind_run. unfold lookup. rewrite Ho.
  rewrite LibsFacts.bind_run, Hex. unfold bind, get_state.
  destruct (get (root s) opos) as [[l|es]|] eqn:G; try discriminate.
  rewrite Hne. unfold start_of. rewrite Habs, Hsplit.
  rewrite OSFacts.makedirs_comps_lead by assumption.
  destruct (makedirs_comps (root s) [] dpos) as [[t dpos']|e] eqn:Em;
    [|discriminate].
  destruct (OSFacts.makedirs_comps_names _ _ _ _ _ Hv Em) as (-> & F & N).
  cbn [app] in *.
  destruct dpos as [|n d _] using rev_ind.
  { unfold root_is_dir, is_dir in Hr. cbn in Gd. congruence. }
  replace (is_nil (d ++ [n])) with false by now destruct d.
  destruct (copies_into_itself es opos (d ++ [n])); [discriminate|].
  rewrite removelast_last, last_last. unfold set_root. intros [= <-].
  cbn [root cwd handles]. exists es.
  assert (Gt : get t (d ++ [n]) = Some (Dir []))
    by (apply N; [now destruct d | assumption]).
  split; [reflexivity|]. split; [|split; [|auto]].
  - apply get_update_set. exact (LibsFacts.is_dir_parent _ _ _ _ Gt).
  - intros q H1 H2. rewrite <- (F q H2), OSFacts.shape_update.
    destruct (strip_prefix d q) as [[|m r]|] eqn:E; try reflexivity.
    destruct (get t d) as [[c|es']|] eqn:Gd'; try reflexivity.
    apply OSFacts.strip_prefix_Some in E. subst q.
    rewrite OSFacts.shape_entry_set.
    destruct (String.eqb n m) eqn:E1.
    + apply String.eqb_eq in E1. subst m.
      change (d ++ n :: r) with (d ++ [n] ++ r) in H1.
      rewrite app_assoc, OSFacts.strip_prefix_app in H1. discriminate.
    + now rewrite OSFacts.shape_app, Gd'.
Qed.

(** X16. [_copytree] into a destination that does not exist and does not
    lie in the source: the source is a directory, the destination holds its
    entries, with all that is below them, and every location that is
    neither at or below the destination nor above it holds what it held. *)
Theorem copytree_makes_exact_copy orig dest dpos opos s s0 :
  wf_state s = true -> names_to dest dpos ->
  path_exists dest s = (Ok false, s) ->
  namei s orig = Ok opos ->
  strip_prefix opos dpos = None ->
  _copytree orig dest s = (Ok tt, s0) ->
  exists es,
    get (root s) opos = Some (Dir es)
    /\ get (root s0) dpos = Some (Dir es)
    /\ (forall q, strip_prefix dpos q = None -> strip_prefix q dpos = None ->
                  shape (root s0) q = shape (root s) q)
    /\ cwd s0 = cwd s /\ handles s0 = handles s.
Proof.
  intros Hs Hdest Hex Ho _ Hcopy.
  exact (copytree_fresh _ _ _ _ _ _ Hs Hdest Hex Ho Hcopy).
Qed.

Lemma copytree_makes_exact_copy_witness :
  exists es,
    get (root stale_tree) ["o"] = Some (Dir es)
    /\ get (root (snd (_copytree "/o" "/d" stale_tree))) ["d"] = Some (Dir es)
    /\ (forall q, strip_prefix ["d"] q = None -> strip_prefix q ["d"] = None ->
                  shape (root (snd (_copytree "/o" "/d" stale_tree))) q
                  = shape (root stale_tree) q)
    /\ cwd (snd (_copytree "/o" "/d" stale_tree)) = cwd stale_tree
    /\ handles (snd (_copytree "/o" "/d" stale_tree)) = handles stale_tree.
Proof.
  apply (copytree_makes_exact_copy "/o" "/d" ["d"] ["o"] stale_tree).
  - reflexivity.
  - apply (OSFacts.names_to_slashes "/" ["d"]); [now left|].
    repeat constructor.
  - reflexivity.
  - reflexivity.
  - reflexivity.
  - vm_compute. reflexivity.
Defined.

(** X17. [unbind] raises and leaves the state as it is, so that no
    destination is made, when the destination does not exist and the source
    names nothing or names a file, and when the destination is an existing
    file. When the destination exists the source is not looked at: the run
    is the same for every source. *)
Theorem unbind_fails_without_a_trace orig dest s :
  (path_exists dest s = (Ok false, s) ->
   forall e, namei s orig = Raise e -> unbind orig dest s = (Raise e, s))
  /\ (path_exists dest s = (Ok false, s) ->
      forall opos, namei s orig = Ok opos -> is_dir (root s) opos = false ->
                   unbind orig dest s = (Raise NotADirectoryError, s))
  /\ (wf_state s = true -> is_dir (root s) (cwd s) = true ->
      forall dpos, namei s dest = Ok dpos -> is_dir (root s) dpos = false ->
                   unbind orig dest s = (Raise NotADirectoryError, s))
  /\ (path_exists dest s = (Ok true, s) ->
      forall orig', unbind orig' dest s = unbind orig dest s).
Proof.
  split; [|split; [|split]].
  - intros Hex e Ho. unfold unbind, _copytree.
    rewrite !LibsFacts.bind_run, Hex. cbn [negb]. unfold shutil_copytree.
    rewrite LibsFacts.bind_run. unfold lookup. now rewrite Ho.
  - intros Hex opos Ho Hd. unfold unbind, _copytree.
    rewrite !LibsFacts.bind_run, Hex. cbn [negb]. unfold shutil_copytree.
    rewrite LibsFacts.bind_run. unfold lookup. rewrite Ho.
    rewrite LibsFacts.bind_run, Hex. unfold bind, get_state.
    unfold is_dir in Hd. now destruct (get (root s) opos) as [[|]|].
  - intros Hs Hcwd dpos Hn Hd.
    destruct (wf_state_inv _ Hs) as (Hw & Hr & Hc).
    unfold unbind, _copytree. rewrite !LibsFacts.bind_run.
    unfold path_exists at 1. rewrite Hn. cbn [negb]. unfold ret at 1.
    cbn beta iota. unfold chdir. rewrite LibsFacts.bind_run.
    unfold path_exists. rewrite Hn. cbn [negb].
    rewrite LibsFacts.bind_run, (LibsFacts.abspath_ok "." s Hcwd).
    change (isabs ".") with false. cbn iota.
    rewrite OSFacts.normpath_join_render_dot by assumption.
    unfold try_finally. rewrite LibsFacts.bind_run.
    unfold os_chdir at 1. rewrite LibsFacts.bind_run. unfold lookup.
    rewrite Hn. unfold bind at 1, get_state. rewrite Hd. unfold raise.
    rewrite (LibsFacts.os_chdir_back s (cwd s) Hc Hcwd).
    now rewrite state_eta.
  - intros Hex orig'. unfold unbind, _copytree.
    now rewrite !LibsFacts.bind_run, Hex.
Qed.

Lemma unbind_fails_without_a_trace_witness :
  unbind "/missing" "/d" stale_tree = (Raise FileNotFoundError, stale_tree)
  /\ unbind "/o/a.sln" "/d" stale_tree
     = (Raise NotADirectoryError, stale_tree)
  /\ unbind "/missing" "/o/a.sln" stale_tree
     = (Raise NotADirectoryError, stale_tree)
  /\ unbind "/o" "/o/src" stale_tree = unbind "/missing" "/o/src" stale_tree.
Proof.
  split; [|split; [|split]].
  - apply (proj1 (unbind_fails_without_a_trace "/missing" "/d" stale_tree));
      reflexivity.
  - apply (proj1 (proj2 (unbind_fails_without_a_trace "/o/a.sln" "/d"
                           stale_tree)) eq_refl ["o"; "a.sln"]);
      reflexivity.
  - apply (proj1 (proj2 (proj2 (unbind_fails_without_a_trace "/missing"
                                   "/o/a.sln" stale_tree)))
             eq_refl eq_refl ["o"; "a.sln"]);
      reflexivity.
  - apply (proj2 (proj2 (proj2 (unbind_fails_without_a_trace "/missing"
                                   "/o/src" stale_tree)))).
    reflexivity.
Defined.

(** X18. After a run of [unbind] that returned, for a destination that
    spells a location in a well-formed state: no directory at or below the
    destination has a path that ends in [Debug], [Release] or [StyleCop];
    no file below it has one of the four extensions; no line of a file
    whose name ends in [.sln] opens a version-control region; no line of a
    file whose name ends in [proj] is a binding tag line; and no such file
    has a file under its temporary name beside it. *)
Theorem unbind_leaves_no_binding orig dest dpos s s' :
  wf_state s = true -> names_to dest dpos ->
  unbind orig dest s = (Ok tt, s') ->
  (forall names,
     is_dir (root s') (dpos ++ names) = true ->
     unnecessary_dir (joins (normpath dest) names) = false)
  /\ (forall names n lines,
        get (root s') ((dpos ++ names) ++ [n]) = Some (File lines) ->
        unnecessary_file n = false
        /\ (is_sln n = true -> Forall not_opener lines)
        /\ (is_proj n = true -> Forall (fun line => ~ scc_tag_line line) lines)
        /\ ((is_sln n = true \/ is_proj n = true) ->
            get (root s') ((dpos ++ names) ++ [(n ++ ".new")%string]) = None)).
Proof.
  intros Hs Hdest Hrun.
  destruct (unbind_Ok_inv _ _ _ _ _ Hs Hdest Hrun)
    as (s0 & s2 & _ & Hw0 & Hr0 & _ & _ & Hbody & ->).
  destruct (unbind_body_settles (normpath dest) dpos
              (OSFacts.names_to_normpath _ _ Hdest)
              (mkState (root s0) dpos (handles s0)) s2 Hw0 Hr0 Hbody)
    as (_ & S1 & S2).
  cbn [root]. split; [exact S1|].
  intros names n lines Hg. destruct (S2 names n lines Hg) as (Hf & Hsln & Hproj).
  split; [exact Hf|]. split; [|split].
  - intros E. destruct (Hsln E) as [Hfix _]. rewrite <- Hfix.
    apply (FiltersFacts.sln_loop_output_no_opener false).
  - intros E. destruct (Hproj E) as [Hfix _]. rewrite <- Hfix.
    pose proof (FiltersFacts.proj_filter_all lines) as Hall.
    eapply Forall_impl; [|exact Hall]. intros line Hl Ht.
    apply FiltersFacts.proj_line_scc_tag_line in Ht. congruence.
  - intros [E | E]; [now destruct (Hsln E) | now destruct (Hproj E)].
Qed.

Lemma unbind_leaves_no_binding_witness :
  (forall names,
     is_dir (root (snd (unbind "/o" "/d" stale_tree))) (["d"] ++ names) = true ->
     unnecessary_dir (joins (normpath "/d") names) = false)
  /\ (forall names n lines,
        get (root (snd (unbind "/o" "/d" stale_tree))) ((["d"] ++ names) ++ [n])
        = Some (File lines) ->
        unnecessary_file n = false
        /\ (is_sln n = true -> Forall not_opener lines)
        /\ (is_proj n = true -> Forall (fun line => ~ scc_tag_line line) lines)
        /\ ((is_sln n = true \/ is_proj n = true) ->
            get (root (snd (unbind "/o" "/d" stale_tree)))
              ((["d"] ++ names) ++ [(n ++ ".new")%string]) = None)).
Proof.
  apply (unbind_leaves_no_binding "/o" "/d" ["d"] stale_tree).
  - reflexivity.
  - apply (OSFacts.names_to_slashes "/" ["d"]); [now left|].
    repeat constructor.
  - vm_compute. reflexivity.
Defined.

(** X19. A run of [unbind] that returned, for a destination that spells a
    location and does not lie in the source, leaves every location that is
    neither at or below the destination nor above it as it was: the same
    file with the same lines, a directory, or nothing. So the source, when
    it does not lie in the destination, is left as it was, with all that is
    below it; and the working directory is the one before the run. *)
Theorem unbind_changes_the_destination_only orig dest dpos s s' :
  wf_state s = true -> names_to dest dpos ->
  (forall opos, namei s orig = Ok opos -> strip_prefix opos dpos = None) ->
  unbind orig dest s = (Ok tt, s') ->
  (forall q,
     strip_prefix dpos q = None -> strip_prefix q dpos = None ->
     shape (root s') q = shape (root s) q)
  /\ (forall opos r,
        namei s orig = Ok opos -> strip_prefix dpos opos = None ->
        shape (root s') (opos ++ r) = shape (root s) (opos ++ r))
  /\ cwd s' = cwd s.
Proof.
  intros Hs Hdest Hin Hrun.
  destruct (wf_state_inv _ Hs) as (Hw & Hr & Hc).
  destruct (unbind_Ok_inv _ _ _ _ _ Hs Hdest Hrun)
    as (s0 & s2 & Hcopy & Hw0 & Hr0 & Hc0 & Hd0 & Hbody & ->).
  cbn [root cwd].
  assert (F : forall q,
            strip_prefix dpos q = None -> strip_prefix q dpos = None ->
            shape (root s2) q = shape (root s) q).
  { intros q H1 H2.
    rewrite (unbind_body_frame (normpath dest) dpos
               (OSFacts.names_to_normpath _ _ Hdest)
               (mkState (root s0) dpos (handles s0)) s2 q Hw0 Hr0 Hbody H1).
    cbn [root].
    destruct (OSFacts.path_exists_Ok dest s) as [[|] Ex].
    - unfold _copytree in Hcopy. rewrite LibsFacts.bind_run, Ex in Hcopy.
      cbn [negb] in Hcopy. now injection Hcopy as <-.
    - assert (Ho : exists opos, namei s orig = Ok opos).
      { unfold _copytree in Hcopy. rewrite LibsFacts.bind_run, Ex in Hcopy.
        cbn [negb] in Hcopy. unfold shutil_copytree in Hcopy.
        rewrite LibsFacts.bind_run in Hcopy. unfold lookup in Hcopy.
        destruct (namei s orig); [eauto | discriminate]. }
      destruct Ho as [opos Ho].
      destruct (copytree_fresh _ _ _ _ _ _ Hs Hdest Ex Ho Hcopy)
        as (es & _ & _ & Fr & _).
      now apply Fr. }
  split; [exact F|]. split; [|reflexivity].
  intros opos r Ho Hout. apply F.
  - destruct (strip_prefix dpos (opos ++ r)) as [x|] eqn:E;
      [exfalso|reflexivity].
    assert (E1 : strip_prefix opos (opos ++ r) = Some r)
      by apply OSFacts.strip_prefix_app.
    destruct (OSFacts.strip_prefix_comparable _ _ _ _ _ E E1) as [H | H].
    + now apply H.
    + apply H. now apply Hin.
  - apply OSFacts.strip_prefix_None_app. now apply Hin.
Qed.

Lemma unbind_changes_the_destination_only_witness :
  (forall q,
     strip_prefix ["d"] q = None -> strip_prefix q ["d"] = None ->
     shape (root (snd (unbind "/o" "/d" stale_tree))) q
     = shape (root stale_tree) q)
  /\ (forall opos r,
        namei stale_tree "/o" = Ok opos -> strip_prefix ["d"] opos = None ->
        shape (root (snd (unbind "/o" "/d" stale_tree))) (opos ++ r)
        = shape (root stale_tree) (opos ++ r))
  /\ cwd (snd (unbind "/o" "/d" stale_tree)) = cwd stale_tree.
Proof.
  apply (unbind_changes_the_destination_only "/o" "/d" ["d"] stale_tree).
  - reflexivity.
  - apply (OSFacts.names_to_slashes "/" ["d"]); [now left|].
    repeat constructor.
  - intros opos H. vm_compute in H. injection H as <-. reflexivity.
  - vm_compute. reflexivity.
Defined.



(** X21. After a run of [unbind] that returned, in the destination as
    [_copytree] left it, a directory that lies below no directory listed
    for deletion and is not listed itself is still a directory, and a file
    of it whose name passes none of the three tests holds the lines it
    held, unless its name is the temporary name of a solution or project
    file of the same directory. *)
Theorem unbind_keeps_the_other_content orig dest dpos s s' names :
  wf_state s = true -> names_to dest dpos ->
  unbind orig dest s = (Ok tt, s') ->
  clean_dirs (normpath dest) names ->
  (is_dir (root (snd (_copytree orig dest s))) (dpos ++ names) = true ->
   is_dir (root s') (dpos ++ names) = true)
  /\ (forall n lines,
        get (root (snd (_copytree orig dest s))) ((dpos ++ names) ++ [n])
        = Some (File lines) ->
        unnecessary_file n = false -> is_sln n = false -> is_proj n = false ->
        (forall m,
           n = (m ++ ".new")%string -> is_sln m = true \/ is_proj m = true ->
           is_file (root (snd (_copytree orig dest s))) ((dpos ++ names) ++ [m])
           = false) ->
        get (root s') ((dpos ++ names) ++ [n]) = Some (File lines)).
Proof.
  intros Hs Hdest Hrun Hc.
  destruct (unbind_Ok_inv _ _ _ _ _ Hs Hdest Hrun)
    as (s0 & s2 & Hcopy & Hw0 & Hr0 & _ & _ & Hbody & ->).
  rewrite Hcopy. cbn [snd root]. split.
  - intros Hd.
    exact (unbind_body_dir (normpath dest) dpos
             (OSFacts.names_to_normpath _ _ Hdest)
             (mkState (root s0) dpos (handles s0)) s2 names Hw0 Hr0 Hbody Hd Hc).
  - intros n lines Hg Hf H1 H2 Hno.
    destruct (unbind_body_file (normpath dest) dpos
                (OSFacts.names_to_normpath _ _ Hdest)
                (mkState (root s0) dpos (handles s0)) s2 names n lines
                Hw0 Hr0 Hbody Hg Hc) as (_ & _ & _ & _ & H).
    apply LibsFacts.shape_IsFile. now apply H.
Qed.

Lemma unbind_keeps_the_other_content_witness :
  (is_dir (root (snd (_copytree "/o" "/d" stale_tree))) (["d"] ++ ["src"])
   = true ->
   is_dir (root (snd (unbind "/o" "/d" stale_tree))) (["d"] ++ ["src"]) = true)
  /\ (forall n lines,
        get (root (snd (_copytree "/o" "/d" stale_tree)))
          ((["d"] ++ ["src"]) ++ [n]) = Some (File lines) ->
        unnecessary_file n = false -> is_sln n = false -> is_proj n = false ->
        (forall m,
           n = (m ++ ".new")%string -> is_sln m = true \/ is_proj m = true ->
           is_file (root (snd (_copytree "/o" "/d" stale_tree)))
             ((["d"] ++ ["src"]) ++ [m]) = false) ->
        get (root (snd (unbind "/o" "/d" stale_tree)))
          ((["d"] ++ ["src"]) ++ [n]) = Some (File lines)).
Proof.
  apply (unbind_keeps_the_other_content "/o" "/d" ["d"] stale_tree).
  - reflexivity.
  - apply (OSFacts.names_to_slashes "/" ["d"]); [now left|].
    repeat constructor.
  - vm_compute. reflexivity.
  - intros k. destruct k as [|[|k]]; reflexivity.
Defined.





(** On a top directory that does not exist the body does nothing. *)
Lemma unbind_body_nothing top tpos s :
  names_to top tpos -> root_is_dir s -> get (root s) tpos = None ->
  unbind_body top s = (Ok tt, s).
Proof.
  intros Hn Hr Hg.
  assert (Hwalk : os_walk top s = (Ok [], s)).
  { rewrite (os_walk_run top tpos Hn s Hr).
    unfold Unbinder.walk_of. now rewrite Hg. }
  unfold unbind_body, _make_writeable, _collect.
  rewrite !LibsFacts.bind_run, Hwalk. cbn [for_each]. unfold ret at 1.
  cbn beta iota. rewrite !LibsFacts.bind_run, Hwalk. reflexivity.
Qed.

(** X24. With a destination given as a name that is new in the working
    directory, and that so does not come to lie in the source, [unbind]
    copies the source and does nothing else, whatever the source holds,
    unless the source has an entry of that very name: the body of the
    [with] statement gets the path that [chdir] yields, which names
    nothing, and the walks over it find nothing. *)
Theorem unbind_relative_destination_only_copies orig n opos es s :
  wf_state s = true -> is_dir (root s) (cwd s) = true ->
  valid_name n = true ->
  get (root s) (cwd s ++ [n]) = None ->
  namei s orig = Ok opos -> get (root s) opos = Some (Dir es) ->
  strip_prefix opos (cwd s ++ [n]) = None ->
  entry_get n es = None ->
  unbind orig n s
  = (Ok tt,
     mkState (update (root s) (cwd s) (entry_set n (Dir es))) (cwd s)
       (handles s)).
Proof.
  intros Hs Hcwd Hn Hg Ho Hes Hout Hnn.
  destruct (wf_state_inv _ Hs) as (Hw & Hr & Hc).
  assert (Hex : path_exists n s = (Ok false, s)).
  { unfold path_exists. now rewrite (OSFacts.namei_name s n Hn Hcwd), Hg. }
  set (t0 := update (root s) (cwd s) (entry_set n (Dir es))).
  assert (Hcopy : _copytree orig n s = (Ok tt, mkState t0 (cwd s) (handles s))).
  { unfold _copytree. rewrite LibsFacts.bind_run, Hex. cbn [negb].
    unfold shutil_copytree. rewrite LibsFacts.bind_run. unfold lookup.
    rewrite Ho. rewrite LibsFacts.bind_run, Hex. unfold bind, get_state.
    rewrite Hes.
    pose proof (OSFacts.valid_name_nonempty _ Hn) as Hne.
    replace (is_empty n) with false
      by (destruct n; [contradiction|reflexivity]).
    unfold start_of.
    rewrite (OSFacts.startswith_slash_valid _ Hn : isabs n = false).
    rewrite (OSFacts.split_slash_no_slash n)
      by now apply OSFacts.valid_name_no_slash.
    cbn [makedirs_comps]. unfold is_dir in Hcwd.
    destruct (get (root s) (cwd s)) as [[|es0]|] eqn:Gc; try discriminate.
    destruct (OSFacts.valid_name_plain _ Hn) as [-> ->]. rewrite Hg.
    replace (is_nil (cwd s ++ [n])) with false by now destruct (cwd s).
    unfold copies_into_itself. rewrite Hout.
    rewrite removelast_last, last_last. unfold set_root.
    cbn [root cwd handles]. now rewrite update_set_twice. }
  assert (G0 : get t0 (cwd s ++ [n]) = Some (Dir es))
    by (subst t0; now apply get_update_set).
  assert (Hcwd0 : is_dir t0 (cwd s) = true)
    by (subst t0; now apply OSFacts.is_dir_update_set).
  assert (Hr0 : is_dir t0 [] = true)
    by (subst t0; now rewrite OSFacts.is_dir_root_update).
  assert (Hcn : Forall (fun n => valid_name n = true) (cwd s ++ [n]))
    by (apply Forall_app; auto).
  unfold unbind. rewrite LibsFacts.bind_run, Hcopy.
  rewrite (LibsFacts.chdir_enters n unbind_body _ (cwd s ++ [n]));
    cbn [root cwd handles]; auto.
  2:{ rewrite OSFacts.namei_name by assumption. cbn [root cwd]. now rewrite G0. }
  2:{ unfold is_dir. now rewrite G0. }
  unfold yielded.
  rewrite (OSFacts.startswith_slash_valid _ Hn : isabs n = false).
  rewrite LibsFacts.normpath_join_render_name by assumption.
  unfold try_finally.
  rewrite (unbind_body_nothing _ ((cwd s ++ [n]) ++ [n])).
  - rewrite LibsFacts.os_chdir_back by assumption. reflexivity.
  - apply names_to_render. apply Forall_app; auto.
  - exact Hr0.
  - cbn [root]. rewrite OSFacts.get_app, G0. cbn. now rewrite Hnn.
Qed.

Lemma unbind_relative_destination_only_copies_witness :
  unbind "/o" "d" stale_tree
  = (Ok tt,
     mkState
       (update (root stale_tree) (cwd stale_tree)
          (entry_set "d"
             (Dir
                [("a.sln", File ["Global"; "GlobalSection(TeamFoundationVersionControl) = preSolution";
                                 "EndGlobalSection"; "EndGlobal"]);
                 ("a.sln.new", File ["notes"]);
                 ("a.csproj", File ["<Project>"; "<SccProjectName>x</SccProjectName>";
                                    "</Project>"]);
                 ("readme.txt", File ["hello"]);
                 ("a.pdb", File []);
                 ("src", Dir [("main.cs", File ["class A {}"])]);
                 ("obj", Dir [("Release", Dir [("a.obj", File [])])])])))
       (cwd stale_tree) (handles stale_tree)).
Proof.
  apply (unbind_relative_destination_only_copies "/o" "d" ["o"]); reflexivity.
Defined.

(** From [/o/src] the same call has its destination in the directory [src]
    of the source: the copy runs into itself and [unbind] raises. And with
    an empty destination it is [os.makedirs] that raises. *)
Example unbind_destination_in_source :
  fst (unbind "/o" "d" (mkState (root stale_tree) ["o"; "src"] []))
  = Raise (OtherError "RecursionError")
  /\ fst (unbind "/o" "" stale_tree) = Raise FileNotFoundError.
Proof. split; reflexivity. Qed.

End UnbinderFacts.

(** ** Facts on [timetracer] *)

Module TracerFacts.
Import OS Tracer.
#[local] Open Scope Z_scope.

(** The two fields of a difference that the line shows. *)
Lemma datetime_sub_parts a b k s u :
  a - b = k * 86400000000 + s * 1000000 + u ->
  0 <= s < 86400 -> 0 <= u < 1000000 ->
  seconds (datetime_sub a b) = s /\ microseconds (datetime_sub a b) = u.
Proof.
  intros E Hs Hu. unfold datetime_sub. cbn [seconds microseconds].
  rewrite E. split.
  - replace (k * 86400000000 + s * 1000000 + u)
      with ((u + s * 1000000) + k * 86400000000) by lia.
    rewrite Z.mod_add by lia. rewrite (Z.mod_small (u + s * 1000000)) by lia.
    rewrite Z.div_add by lia. rewrite Z.div_small by lia. reflexivity.
  - replace (k * 86400000000 + s * 1000000 + u)
      with (u + (k * 86400 + s) * 1000000) by lia.
    rewrite Z.mod_add by lia. now apply Z.mod_small.
Qed.

(** X12. [timetracer] passes the outcome of the body on, also when the body
    raises, and prints one line after it, to [sys.stdout] when no file is
    given. When the clock moved by [k] days, [s] seconds and [u]
    microseconds between the two readings, the line shows [s] and [u] as
    two plain integers around a dot: the days are left out, and the
    microseconds are not padded to six digits. *)
Theorem timetracer_prints_seconds_and_microseconds
    {A} message file (body : T A) w r w2 k s u :
  body (snd (now w)) = (r, w2) ->
  clock w2 (ticks w2) - clock w (ticks w)
  = k * 86400000000 + s * 1000000 + u ->
  0 <= s < 86400 -> 0 <= u < 1000000 ->
  timetracer message file body w
  = (r,
     mkWorld (clock w2) (S (ticks w2))
       (printed w2
        ++ [(match file with None => sys_stdout | Some f => f end,
             ("[" ++ match message with None => "timetracer" | Some m => m end
              ++ "] elapsed: " ++ str s ++ "." ++ str u ++ " seconds")%string)])).
Proof.
  intros Hbody E Hs Hu. unfold timetracer, now in *. cbn [snd] in Hbody.
  rewrite Hbody. unfold print, log_line. cbn [clock ticks printed].
  destruct (datetime_sub_parts _ _ k s u E Hs Hu) as [-> ->]. reflexivity.
Qed.

Lemma timetracer_prints_seconds_and_microseconds_witness :
  timetracer None None (fun w => (Raise FileNotFoundError : result unit, w))
    (mkWorld late_clock 0 [])
  = (Raise FileNotFoundError,
     mkWorld late_clock 2
       [(sys_stdout, "[timetracer] elapsed: 1.5 seconds"%string)]).
Proof.
  apply (timetracer_prints_seconds_and_microseconds None None
           (fun w => (Raise FileNotFoundError : result unit, w))
           (mkWorld late_clock 0 []) (Raise FileNotFoundError)
           (mkWorld late_clock 1 []) 1 1 5).
  - reflexivity.
  - reflexivity.
  - lia.
  - lia.
Defined.

End TracerFacts.
